(** * Qustodio API client: a shallow embedding of [qustodioapi.py]

    The client ([QustodioApi]) owns a cached access token and exposes
    [login] and [get_data].  Both are embedded here as functions in a small
    state-and-exception monad over the client object, the history of network
    requests performed so far and the local variable [data] of [get_data].

    Modelling conventions:
    - decoded JSON bodies are values of [json]; a JSON number is an integer
      or a binary64 (with the infinities and the NaN that the decoder
      accepts), and the arithmetic on them is that of CPython 3.11;
    - a naive [datetime] is a count of microseconds since 0001-01-01T00:00;
    - the remote service and the wall clock are an environment [env] that is
      a function of the requests performed so far;
    - logging has no effect on results and is left out. *)

From Stdlib Require Import ZArith List String Ascii Bool Lia.
From Stdlib Require Import Floats.SpecFloat.
Import ListNotations.

Set Warnings "-register-all".

Local Open Scope string_scope.
Local Open Scope Z_scope.

(** ** Python values decoded from JSON *)

Inductive json : Type :=
| JNull
| JBool (b : bool)
| JInt (z : Z)
| JFloat (fl : spec_float)
| JStr (s : string)
| JList (l : list json)
| JDict (items : list (string * json)).

(** Exceptions raised by the primitive operations; all of them derive from
    [Exception]. *)
Inductive exn : Type :=
| TimeoutError      (* asyncio.TimeoutError *)
| ClientError       (* aiohttp.ClientError *)
| KeyError
| TypeError
| AttributeError
| ValueError
| OverflowError
| ZeroDivisionError.

Inductive pyresult (A : Type) : Type :=
| Return (a : A)
| Raise (e : exn).
Arguments Return {A} a.
Arguments Raise {A} e.

(** [bool(v)] *)
Definition truthy (v : json) : bool :=
  match v with
  | JNull => false
  | JBool b => b
  | JInt z => negb (z =? 0)
  | JFloat x => match x with S754_zero _ => false | _ => true end
  | JStr s => negb (String.eqb s "")
  | JList l => match l with [] => false | _ => true end
  | JDict d => match d with [] => false | _ => true end
  end.

(** Lookup in the items of a decoded JSON object. *)
Fixpoint assoc (k : string) (items : list (string * json)) : option json :=
  match items with
  | [] => None
  | (k', v) :: rest => if String.eqb k k' then Some v else assoc k rest
  end.

(** [v[k]] for a string key [k] *)
Definition getitem (v : json) (k : string) : pyresult json :=
  match v with
  | JDict items =>
      match assoc k items with
      | Some x => Return x
      | None => Raise KeyError
      end
  | _ => Raise TypeError
  end.

(** [v.get(k, default)] *)
Definition get (v : json) (k : string) (default : json) : pyresult json :=
  match v with
  | JDict items =>
      match assoc k items with
      | Some x => Return x
      | None => Return default
      end
  | _ => Raise AttributeError
  end.

(** The one-character strings of a string, as [iter(str)] yields them. *)
Fixpoint chars (s : string) : list json :=
  match s with
  | EmptyString => []
  | String c rest => JStr (String c EmptyString) :: chars rest
  end.

(** [list(iter(v))] *)
Definition iter (v : json) : pyresult (list json) :=
  match v with
  | JList l => Return l
  | JDict items => Return (map (fun kv => JStr (fst kv)) items)
  | JStr s => Return (chars s)
  | _ => Raise TypeError
  end.

Fixpoint substringb (needle hay : string) : bool :=
  if String.prefix needle hay then true
  else match hay with
       | EmptyString => false
       | String _ rest => substringb needle rest
       end.

Definition is_str (k : string) (v : json) : bool :=
  match v with
  | JStr s => String.eqb k s
  | _ => false
  end.

(** [k in v] for a string [k] *)
Definition contains (k : string) (v : json) : pyresult bool :=
  match v with
  | JDict items => Return (match assoc k items with Some _ => true | None => false end)
  | JList l => Return (existsb (is_str k) l)
  | JStr s => Return (substringb k s)
  | _ => Raise TypeError
  end.

(** ** Dictionaries built by the client

    [devices] and [data] are keyed by identifiers taken from the responses.
    A Python dict keeps insertion order, hashes only scalars, and finds a
    key that is the same object as, or compares equal to, a key it holds.
    Numbers compare by their exact value ([True == 1 == 1.0]), and the NaN
    that the JSON decoder yields is one object. *)

Definition hashable (k : json) : bool :=
  match k with
  | JList _ | JDict _ => false
  | _ => true
  end.

Definition int_of_bool (b : bool) : Z := if b then 1 else 0.

(** [p] as an odd number times a power of two. *)
Fixpoint odd_part (p : positive) : positive * Z :=
  match p with
  | xO q => let (o, k) := odd_part q in (o, k + 1)
  | _ => (p, 0)
  end.

(** What a key is found by: for a finite number its value [odd * 2 ^ exp]
    with [odd] odd, or [0 * 2 ^ 0]. *)
Inductive key : Type :=
| KNone
| KStr (s : string)
| KNumber (odd exp : Z)
| KInfinity (negative : bool)
| KNaN.

(** The key of the number [m * 2 ^ e], negated when [negative] ([0 <= m]). *)
Definition number_key (negative : bool) (m e : Z) : key :=
  match m with
  | Zpos p =>
      let (o, k) := odd_part p in
      KNumber (if negative then Zneg o else Zpos o) (e + k)
  | _ => KNumber 0 0
  end.

Definition key_of (v : json) : option key :=
  match v with
  | JNull => Some KNone
  | JBool b => Some (number_key false (int_of_bool b) 0)
  | JInt z => Some (number_key (z <? 0) (Z.abs z) 0)
  | JFloat (S754_finite s m e) => Some (number_key s (Zpos m) e)
  | JFloat (S754_zero _) => Some (KNumber 0 0)
  | JFloat (S754_infinity s) => Some (KInfinity s)
  | JFloat S754_nan => Some KNaN
  | JStr s => Some (KStr s)
  | JList _ | JDict _ => None
  end.

Definition key_beq (a b : key) : bool :=
  match a, b with
  | KNone, KNone | KNaN, KNaN => true
  | KStr x, KStr y => String.eqb x y
  | KNumber m e, KNumber m' e' => (m =? m') && (e =? e')
  | KInfinity x, KInfinity y => Bool.eqb x y
  | _, _ => false
  end.

(** [a is b or a == b] on hashable values decoded from JSON *)
Definition key_eqb (a b : json) : bool :=
  match key_of a, key_of b with
  | Some x, Some y => key_beq x y
  | _, _ => false
  end.

Definition pydict (V : Type) : Type := list (json * V).

Fixpoint dict_find {V} (k : json) (d : pydict V) : option V :=
  match d with
  | [] => None
  | (k', v) :: rest => if key_eqb k k' then Some v else dict_find k rest
  end.

(** [d[k] = v]: an equal key keeps its place and its first key object. *)
Fixpoint dict_set {V} (k : json) (v : V) (d : pydict V) : pydict V :=
  match d with
  | [] => [(k, v)]
  | (k', v') :: rest =>
      if key_eqb k k' then (k', v) :: rest else (k', v') :: dict_set k v rest
  end.

Definition dict_keys {V} (d : pydict V) : list json := map fst d.

(** [k in d] *)
Definition dict_contains {V} (k : json) (d : pydict V) : pyresult bool :=
  if hashable k
  then Return (match dict_find k d with Some _ => true | None => false end)
  else Raise TypeError.

(** ** Binary64 arithmetic of [sum], [total_time / 60] and [round(x, 1)] *)

Definition prec : Z := 53.
Definition emax : Z := 1024.

Definition float_of_parts (s : bool) (m : Z) : spec_float :=
  match m with
  | Zpos p => S754_finite s p 0
  | _ => S754_zero s
  end.

(** [a / b] on integers: the quotient correctly rounded to binary64. *)
Definition int_truediv (a b : Z) : pyresult spec_float :=
  if b =? 0 then Raise ZeroDivisionError
  else
    match SFdiv prec emax (float_of_parts (a <? 0) (Z.abs a))
                          (float_of_parts (b <? 0) (Z.abs b)) with
    | S754_finite s m e => Return (S754_finite s m e)
    | S754_zero s => Return (S754_zero s)
    | _ => Raise OverflowError
    end.

(** Nearest integer to [n / d], ties to even ([0 <= n], [0 < d]). *)
Definition div_half_even (n d : Z) : Z :=
  let q := n / d in
  let r := n mod d in
  match 2 * r ?= d with
  | Lt => q
  | Gt => q + 1
  | Eq => if Z.even q then q else q + 1
  end.

(** [round(x, 1)]: the decimal with one fractional digit nearest to the
    exact value of [x] (ties to even), converted back to binary64. *)
Definition round1 (x : spec_float) : spec_float :=
  match x with
  | S754_finite s m e =>
      let tenths :=
        match e with
        | Zneg p => div_half_even (10 * Zpos m) (2 ^ Zpos p)
        | _ => 10 * Zpos m * 2 ^ e
        end in
      SFdiv prec emax (float_of_parts s tenths) (float_of_parts false 10)
  | _ => x
  end.

(** The value stored under ["time"]: the integer [0] or a binary64. *)
Inductive pynum : Type :=
| PyInt (z : Z)
| PyFloat (f : spec_float).

(** [float(z)]: the nearest binary64, ties to even. *)
Definition float_of_int (z : Z) : pyresult spec_float :=
  match binary_normalize prec emax z 0 false with
  | S754_infinity _ | S754_nan => Raise OverflowError
  | x => Return x
  end.

(** [acc + v] as [sum] accumulates from left to right: integers add
    exactly; when a float takes part, an integer operand is converted to
    binary64 first and the sum is rounded to binary64 (CPython from 3.12 on
    compensates the rounding errors of a sum of floats; 3.11 does not). *)
Definition sum_add (acc : pynum) (v : json) : pyresult pynum :=
  let add_float (x : pyresult spec_float) (y : pyresult spec_float) :=
    match x, y with
    | Return x, Return y => Return (PyFloat (SFadd prec emax x y))
    | Raise e, _ | _, Raise e => Raise e
    end in
  match acc, v with
  | PyInt a, JInt n => Return (PyInt (a + n))
  | PyInt a, JBool b => Return (PyInt (a + int_of_bool b))
  | PyInt a, JFloat y => add_float (float_of_int a) (Return y)
  | PyFloat x, JInt n => add_float (Return x) (float_of_int n)
  | PyFloat x, JBool b => add_float (Return x) (float_of_int (int_of_bool b))
  | PyFloat x, JFloat y => add_float (Return x) (Return y)
  | _, _ => Raise TypeError
  end.

(** [total / b] for an integer [b] *)
Definition truediv (total : pynum) (b : Z) : pyresult spec_float :=
  match total with
  | PyInt a => int_truediv a b
  | PyFloat x =>
      match float_of_int b with
      | Return y =>
          if b =? 0 then Raise ZeroDivisionError
          else Return (SFdiv prec emax x y)
      | Raise e => Raise e
      end
  end.

(** [math.modf] on a finite binary64: the integral part, and the fraction
    with the sign of [x]. *)
Definition modf (x : spec_float) : Z * spec_float :=
  match x with
  | S754_finite s m (Zneg p) =>
      (cond_Zopp s (Zpos m / 2 ^ Zpos p),
       match Zpos m mod 2 ^ Zpos p with
       | Zpos f => S754_finite s f (Zneg p)
       | _ => S754_zero s
       end)
  | S754_finite s m e => (cond_Zopp s (Zpos m * 2 ^ e), S754_zero s)
  | _ => (0, x)
  end.

(** [n + x] rounded to the nearest integer, ties to even, for a fraction
    [x] of magnitude below one. *)
Definition add_fraction (n : Z) (x : spec_float) : Z :=
  match x with
  | S754_finite s f (Zneg p) =>
      match 2 * Zpos f ?= 2 ^ Zpos p with
      | Lt => n
      | Gt => n + cond_Zopp s 1
      | Eq => if Z.even n then n else n + cond_Zopp s 1
      end
  | _ => n
  end.

(** ** Naive datetimes *)

Definition usec_per_sec : Z := 1000000.
Definition usec_per_day : Z := 86400 * usec_per_sec.

(** [date.max.toordinal()] *)
Definition max_ordinal : Z := 3652059.

(** The microseconds of [timedelta(seconds=x)] for a float [x]: the whole
    seconds count exactly; the fraction is multiplied by [1e6] in binary64,
    and what is left below one microsecond rounds to nearest, ties to
    even. *)
Definition float_usec (x : spec_float) : Z :=
  let (seconds, fraction) := modf x in
  let whole := seconds * usec_per_sec in
  match fraction with
  | S754_finite _ _ _ =>
      let (usec, leftover) :=
        modf (SFmul prec emax (S754_finite false 15625 6) fraction) in
      add_fraction (whole + usec) leftover
  | _ => whole
  end.

(** [timedelta(seconds=v)], in microseconds. *)
Definition timedelta (v : json) : pyresult Z :=
  let of_int (n : Z) :=
    if (-999999999 <=? n / 86400) && (n / 86400 <=? 999999999)
    then Return (n * usec_per_sec) else Raise OverflowError in
  match v with
  | JInt n => of_int n
  | JBool b => of_int (int_of_bool b)
  | JFloat S754_nan => Raise ValueError
  | JFloat (S754_infinity _) => Raise OverflowError
  | JFloat x =>
      let usec := float_usec x in
      if (-999999999 <=? usec / usec_per_day) && (usec / usec_per_day <=? 999999999)
      then Return usec else Raise OverflowError
  | _ => Raise TypeError
  end.

(** [t + delta] on a datetime. *)
Definition datetime_add (t delta : Z) : pyresult Z :=
  let r := t + delta in
  if (0 <=? r) && (r <? max_ordinal * usec_per_day)
  then Return r else Raise OverflowError.

(** [t.weekday()]: 0001-01-01 is a Monday. *)
Definition weekday (t : Z) : Z := (t / usec_per_day) mod 7.

(** [t.date()] as a day count; it is formatted into the summary URL. *)
Definition date_of (t : Z) : Z := t / usec_per_day.

Definition days : list string :=
  ["mon"; "tue"; "wed"; "thu"; "fri"; "sat"; "sun"].

(** ** The remote service and the clock *)

(** One request per URL template; the fields are the values formatted into
    the URL, the bearer token of the [Authorization] header, or the form
    fields of the login request. *)
Inductive request : Type :=
| PostLogin (username password : string)                      (* URL_LOGIN *)
| GetAccount (token : json)                                   (* URL_ACCOUNT *)
| GetDevices (token account_id : json)                        (* URL_DEVICES *)
| GetProfiles (token account_id : json)                       (* URL_PROFILES *)
| GetRules (token account_id profile_id : json)               (* URL_RULES *)
| GetHourlySummary (token account_uid profile_uid : json) (today : Z).
                                                              (* URL_HOURLY_SUMMARY *)

(** What a request meets: the 15 s timeout, a transport failure, or a
    response with its status and its body ([None] when the body does not
    decode as JSON). *)
Inductive outcome : Type :=
| TimedOut
| TransportFailure
| Response (status : Z) (body : option json).

(** An exchange performed by the client. *)
Definition event : Type := (request * outcome)%type.

(** The environment answers a request and tells the time as a function of
    the exchanges performed before (most recent first). *)
Record env : Type := {
  respond : list event -> request -> outcome;
  clock : list event -> Z
}.

(** Modelled from the spec: [const.py] is not among the sources; it declares
    the three result codes of [login], taken here as three distinct values. *)
Inductive login_result : Type :=
| LOGIN_RESULT_OK
| LOGIN_RESULT_UNAUTHORIZED
| LOGIN_RESULT_ERROR.

Definition login_result_eqb (a b : login_result) : bool :=
  match a, b with
  | LOGIN_RESULT_OK, LOGIN_RESULT_OK
  | LOGIN_RESULT_UNAUTHORIZED, LOGIN_RESULT_UNAUTHORIZED
  | LOGIN_RESULT_ERROR, LOGIN_RESULT_ERROR => true
  | _, _ => false
  end.

(** ** The client object and the profile snapshots *)

(** The attributes of [QustodioApi]; [JNull] stands for [None]. *)
Record client : Type := {
  _username : string;
  _password : string;
  _session : bool;              (* whether a session object is attached *)
  _access_token : json;
  _expires_in : option Z;
  _account_id : json;
  _account_uid : json
}.

(** [QustodioApi.__init__] *)
Definition init (username password : string) : client :=
  {| _username := username; _password := password; _session := false;
     _access_token := JNull; _expires_in := None;
     _account_id := JNull; _account_uid := JNull |}.

(** The dict [profile_data] once the loop body has filled it. *)
Record profile_data : Type := {
  pd_id : json;
  pd_uid : json;
  pd_name : json;
  pd_is_online : json;
  pd_unauthorized_remove : bool;
  pd_device_tampered : json;
  pd_current_device : json;
  pd_latitude : json;
  pd_longitude : json;
  pd_accuracy : json;
  pd_lastseen : json;
  pd_quota : json;
  pd_time : pynum
}.

(** ** The monad: client attributes, request history and [data] as state,
    exceptions as results *)

Record state : Type := {
  self : client;
  history : list event;
  data : pydict profile_data
}.

Definition M (A : Type) : Type := state -> pyresult A * state.

Definition ret {A} (a : A) : M A := fun s => (Return a, s).
Definition raise {A} (e : exn) : M A := fun s => (Raise e, s).

Definition bind {A B} (m : M A) (f : A -> M B) : M B :=
  fun s =>
    match m s with
    | (Return a, s') => f a s'
    | (Raise e, s') => (Raise e, s')
    end.

(** [try: m  except Exception: h] *)
Definition try_except {A} (m : M A) (h : exn -> M A) : M A :=
  fun s =>
    match m s with
    | (Return a, s') => (Return a, s')
    | (Raise e, s') => h e s'
    end.

(** [try: m  finally: f] *)
Definition try_finally {A} (m : M A) (f : state -> state) : M A :=
  fun s => let (r, s') := m s in (r, f s').

Definition lift {A} (r : pyresult A) : M A := fun s => (r, s).

Declare Scope monad_scope.
Delimit Scope monad_scope with monad.
Notation "x <- m ;; k" := (bind m (fun x => k))
  (at level 61, m at next level, right associativity) : monad_scope.
Notation "m ;;; k" := (bind m (fun _ => k))
  (at level 61, right associativity) : monad_scope.
Local Open Scope monad_scope.

Definition get_self : M client := fun s => (Return (self s), s).

Definition with_self (f : client -> client) (s : state) : state :=
  {| self := f (self s); history := history s; data := data s |}.

Definition set_session (b : bool) (c : client) : client :=
  {| _username := _username c; _password := _password c; _session := b;
     _access_token := _access_token c; _expires_in := _expires_in c;
     _account_id := _account_id c; _account_uid := _account_uid c |}.

Definition set_access_token (v : json) (c : client) : client :=
  {| _username := _username c; _password := _password c; _session := _session c;
     _access_token := v; _expires_in := _expires_in c;
     _account_id := _account_id c; _account_uid := _account_uid c |}.

Definition set_expires_in (t : Z) (c : client) : client :=
  {| _username := _username c; _password := _password c; _session := _session c;
     _access_token := _access_token c; _expires_in := Some t;
     _account_id := _account_id c; _account_uid := _account_uid c |}.

Definition set_account_id (v : json) (c : client) : client :=
  {| _username := _username c; _password := _password c; _session := _session c;
     _access_token := _access_token c; _expires_in := _expires_in c;
     _account_id := v; _account_uid := _account_uid c |}.

Definition set_account_uid (v : json) (c : client) : client :=
  {| _username := _username c; _password := _password c; _session := _session c;
     _access_token := _access_token c; _expires_in := _expires_in c;
     _account_id := _account_id c; _account_uid := v |}.

Definition assign (f : client -> client) : M unit :=
  fun s => (Return tt, with_self f s).

(** [datetime.now()] *)
Definition now (E : env) : M Z := fun s => (Return (clock E (history s)), s).

(** [async with session.post(...)/session.get(...) as response]: the exchange
    joins the history; a timeout or transport failure is raised. *)
Definition send (E : env) (r : request) : M (Z * option json) :=
  fun s =>
    let o := respond E (history s) r in
    let s' := {| self := self s; history := (r, o) :: history s; data := data s |} in
    match o with
    | TimedOut => (Raise TimeoutError, s')
    | TransportFailure => (Raise ClientError, s')
    | Response status body => (Return (status, body), s')
    end.

(** [await response.json()] *)
Definition json_body (body : option json) : M json :=
  match body with
  | Some v => ret v
  | None => raise ValueError
  end.

(** ** [QustodioApi.login] *)

Definition token_fresh (c : client) (t : Z) : bool :=
  match _access_token c, _expires_in c with
  | JNull, _ => false
  | _, None => false
  | _, Some expiry => t <? expiry
  end.

Definition login (E : env) : M login_result :=
  c <- get_self ;;
  t <- now E ;;
  if token_fresh c t then ret LOGIN_RESULT_OK
  else
    try_except
      (resp <- send E (PostLogin (_username c) (_password c)) ;;
       let (status, body) := resp in
       if status =? 401 then ret LOGIN_RESULT_UNAUTHORIZED
       else if negb (status =? 200) then ret LOGIN_RESULT_ERROR
       else
         response_data <- json_body body ;;
         present <- lift (contains "access_token" response_data) ;;
         if negb present then ret LOGIN_RESULT_ERROR
         else
           token <- lift (getitem response_data "access_token") ;;
           assign (set_access_token token) ;;;
           t' <- now E ;;
           seconds <- lift (get response_data "expires_in" (JInt 3600)) ;;
           delta <- lift (timedelta seconds) ;;
           expiry <- lift (datetime_add t' delta) ;;
           assign (set_expires_in expiry) ;;;
           ret LOGIN_RESULT_OK)
      (fun _ => ret LOGIN_RESULT_ERROR).

(** ** [QustodioApi.get_data] *)

Definition get_data_var : M (pydict profile_data) :=
  fun s => (Return (data s), s).

(** [data[k] = v] *)
Definition data_setitem (k : json) (v : profile_data) : M unit :=
  fun s =>
    if hashable k
    then (Return tt,
          {| self := self s; history := history s; data := dict_set k v (data s) |})
    else (Raise TypeError, s).

(** [{device["id"]: device for device in devices_data}], given the items
    that iterating [devices_data] yields. *)
Fixpoint build_devices (items : list json) (acc : pydict json)
  : pyresult (pydict json) :=
  match items with
  | [] => Return acc
  | device :: rest =>
      match getitem device "id" with
      | Return k =>
          if hashable k then build_devices rest (dict_set k device acc)
          else Raise TypeError
      | Raise e => Raise e
      end
  end.

(** The loop over [device_ids]: the pair is
    [(profile_data["unauthorized_remove"], profile_data["device_tampered"])]. *)
Fixpoint check_removal (devices : pydict json) (device_ids : list json)
    (flags : bool * json) : pyresult (bool * json) :=
  match device_ids with
  | [] => Return flags
  | device_id :: rest =>
      match dict_contains device_id devices with
      | Raise e => Raise e
      | Return false => check_removal devices rest flags
      | Return true =>
          match dict_find device_id devices with
          | None => Raise KeyError
          | Some device =>
              match get device "alerts" (JDict []) with
              | Raise e => Raise e
              | Return alerts =>
                  match get alerts "unauthorized_remove" (JBool false) with
                  | Raise e => Raise e
                  | Return alert =>
                      if truthy alert then
                        match get device "name" (JStr "Unknown") with
                        | Raise e => Raise e
                        | Return name => check_removal devices rest (true, name)
                        end
                      else check_removal devices rest flags
                  end
              end
          end
      end
  end.

(** [sum(entry.get("screen_time_seconds", 0) for entry in hourly_data)],
    starting from [acc]. *)
Fixpoint sum_screen_time (entries : list json) (acc : pynum) : pyresult pynum :=
  match entries with
  | [] => Return acc
  | entry :: rest =>
      match get entry "screen_time_seconds" (JInt 0) with
      | Raise e => Raise e
      | Return seconds =>
          match sum_add acc seconds with
          | Raise e => Raise e
          | Return acc' => sum_screen_time rest acc'
          end
      end
  end.

(** The rules request of one profile: the value left in
    [profile_data["quota"]]. *)
Definition fetch_quota (E : env) (token : json) (dow : string) (id : json)
  : M json :=
  try_except
    (c <- get_self ;;
     resp <- send E (GetRules token (_account_id c) id) ;;
     let (status, body) := resp in
     if status =? 200 then
       rules_data <- json_body body ;;
       time_restrictions <- lift (get rules_data "time_restrictions" (JDict [])) ;;
       quotas <- lift (get time_restrictions "quotas" (JDict [])) ;;
       lift (get quotas dow (JInt 0))
     else ret (JInt 0))
    (fun _ => ret (JInt 0)).

(** The hourly-summary request of one profile: the value left in
    [profile_data["time"]]. *)
Definition fetch_time (E : env) (token : json) (uid : json) : M pynum :=
  try_except
    (c <- get_self ;;
     today <- now E ;;
     resp <- send E (GetHourlySummary token (_account_uid c) uid (date_of today)) ;;
     let (status, body) := resp in
     if status =? 200 then
       hourly_data <- json_body body ;;
       entries <- lift (iter hourly_data) ;;
       total_time <- lift (sum_screen_time entries (PyInt 0)) ;;
       minutes <- lift (truediv total_time 60) ;;
       ret (PyFloat (round1 minutes))
     else ret (PyInt 0))
    (fun _ => ret (PyInt 0)).

(** The body of [for profile in profiles_data]. *)
Definition process_profile (E : env) (token : json) (devices : pydict json)
    (dow : string) (profile : json) : M unit :=
  _ <- lift (getitem profile "name") ;;                  (* debug log *)
  id <- lift (getitem profile "id") ;;
  id' <- lift (getitem profile "id") ;;
  uid <- lift (get profile "uid" id') ;;
  name <- lift (getitem profile "name") ;;
  status0 <- lift (get profile "status" (JDict [])) ;;
  is_online <- lift (get status0 "is_online" (JBool false)) ;;
  device_ids <- lift (get profile "device_ids" (JList [])) ;;
  ids <- lift (iter device_ids) ;;
  flags <- lift (check_removal devices ids (false, JNull)) ;;
  status <- lift (get profile "status" (JDict [])) ;;
  location <- lift (get status "location" (JDict [])) ;;
  device_id <- lift (get location "device" JNull) ;;
  current_device <-
    (if truthy is_online && truthy device_id then
       known <- lift (dict_contains device_id devices) ;;
       if known then
         match dict_find device_id devices with
         | Some device => lift (get device "name" JNull)
         | None => raise KeyError
         end
       else ret JNull
     else ret JNull) ;;
  latitude <- lift (get location "latitude" JNull) ;;
  longitude <- lift (get location "longitude" JNull) ;;
  accuracy <- lift (get location "accuracy" (JInt 0)) ;;
  lastseen <- lift (get status "lastseen" JNull) ;;
  quota <- fetch_quota E token dow id ;;
  time <- fetch_time E token uid ;;
  data_setitem id
    {| pd_id := id; pd_uid := uid; pd_name := name; pd_is_online := is_online;
       pd_unauthorized_remove := fst flags; pd_device_tampered := snd flags;
       pd_current_device := current_device;
       pd_latitude := latitude; pd_longitude := longitude;
       pd_accuracy := accuracy; pd_lastseen := lastseen;
       pd_quota := quota; pd_time := time |}.

Fixpoint for_each {A} (body : A -> M unit) (l : list A) : M unit :=
  match l with
  | [] => ret tt
  | x :: rest => body x ;;; for_each body rest
  end.

(** The devices request: [devices] stays empty unless it succeeds. *)
Definition fetch_devices (E : env) (token : json) : M (pydict json) :=
  try_except
    (c <- get_self ;;
     resp <- send E (GetDevices token (_account_id c)) ;;
     let (status, body) := resp in
     if status =? 200 then
       devices_data <- json_body body ;;
       items <- lift (iter devices_data) ;;
       lift (build_devices items [])
     else ret [])
    (fun _ => ret []).

(** [days[datetime.today().weekday()]] *)
Definition day_code (t : Z) : string :=
  nth (Z.to_nat (weekday t)) days "".

(** What the statements before the loop hand to it. *)
Record loop_inputs : Type := {
  li_token : json;                 (* the bearer token of [headers] *)
  li_devices : pydict json;        (* [devices] *)
  li_profiles_data : json;         (* [profiles_data] *)
  li_dow : string                  (* [dow] *)
}.

(** The statements of [get_data] from the call of [login] to the assignment
    of [dow] (lines 114 to 160); [None] stands for an early [return data]. *)
Definition get_data_prelude (E : env) : M (option loop_inputs) :=
  result <- login E ;;
  if negb (login_result_eqb result LOGIN_RESULT_OK) then ret None
  else
    c <- get_self ;;
    let token := _access_token c in
    resp <- send E (GetAccount token) ;;
    let (status, body) := resp in
    if negb (status =? 200) then ret None
    else
      account_data <- json_body body ;;
      account_id <- lift (getitem account_data "id") ;;
      assign (set_account_id account_id) ;;;
      fallback <- lift (getitem account_data "id") ;;
      account_uid <- lift (get account_data "uid" fallback) ;;
      assign (set_account_uid account_uid) ;;;
      devices <- fetch_devices E token ;;
      c' <- get_self ;;
      resp' <- send E (GetProfiles token (_account_id c')) ;;
      let (status', body') := resp' in
      if negb (status' =? 200) then ret None
      else
        profiles_data <- json_body body' ;;
        today <- now E ;;
        ret (Some {| li_token := token; li_devices := devices;
                     li_profiles_data := profiles_data;
                     li_dow := day_code today |}).

(** [for profile in profiles_data: ...] (lines 162 to 237) *)
Definition profiles_loop (E : env) (li : loop_inputs) : M unit :=
  profiles <- lift (iter (li_profiles_data li)) ;;
  for_each (process_profile E (li_token li) (li_devices li) (li_dow li)) profiles.

(** The body of the [try] statement of [get_data]. *)
Definition get_data_try (E : env) : M (pydict profile_data) :=
  assign (set_session true) ;;;
  inputs <- get_data_prelude E ;;
  match inputs with
  | None => get_data_var
  | Some li =>
      profiles_loop E li ;;;
      assign (set_session false) ;;;
      get_data_var
  end.

(** [data = {}] *)
Definition clear_data (s : state) : state :=
  {| self := self s; history := history s; data := [] |}.

(** [get_data]: the [try] statement with its handlers, which only log, and
    its [finally] clause, then [return data]. *)
Definition get_data (E : env) : M (pydict profile_data) :=
  fun s =>
    try_finally
      (try_except (get_data_try E) (fun _ => get_data_var))
      (with_self (set_session false))
      (clear_data s).

(** * Vocabulary of the statements *)

(** The exchange that [login] performs from state [s] when the cached token
    is not fresh. *)
Definition login_request (s : state) : request :=
  PostLogin (_username (self s)) (_password (self s)).

Definition login_outcome (E : env) (s : state) : outcome :=
  respond E (history s) (login_request s).

Definition after_login_exchange (E : env) (s : state) : list event :=
  (login_request s, login_outcome E s) :: history s.

(** The body carries the field [k]. *)
Definition has_field (k : string) (body : option json) : Prop :=
  exists items v, body = Some (JDict items) /\ assoc k items = Some v.

(** The lifetime declared by the body when it is an integer number of
    seconds, 3600 when [expires_in] is absent; [None] when it is a float or
    no number at all. *)
Definition declared_lifetime (items : list (string * json)) : option Z :=
  match assoc "expires_in" items with
  | None => Some 3600
  | Some (JInt n) => Some n
  | Some (JBool b) => Some (int_of_bool b)
  | Some _ => None
  end.

(** [t + n] seconds exists as a [timedelta] and as a [datetime]. *)
Definition representable (t n : Z) : Prop :=
  -999999999 <= n / 86400 <= 999999999 /\
  0 <= t + n * usec_per_sec < max_ordinal * usec_per_day.

(** The expiry that a decoded body yields at time [t], if any: the value of
    [t + timedelta(seconds=response_data.get("expires_in", 3600))]. *)
Definition new_expiry (t : Z) (items : list (string * json)) : option Z :=
  match get (JDict items) "expires_in" (JInt 3600) with
  | Return seconds =>
      match timedelta seconds with
      | Return delta =>
          match datetime_add t delta with
          | Return expiry => Some expiry
          | Raise _ => None
          end
      | Raise _ => None
      end
  | Raise _ => None
  end.

(** The lifetime that the body declares, in microseconds: [expires_in] as
    an integer or a finite float number of seconds, 3600 s when absent. *)
Definition lifetime (items : list (string * json)) : option Z :=
  match assoc "expires_in" items with
  | None => Some (3600 * usec_per_sec)
  | Some (JInt n) => Some (n * usec_per_sec)
  | Some (JBool b) => Some (int_of_bool b * usec_per_sec)
  | Some (JFloat (S754_finite s m e)) => Some (float_usec (S754_finite s m e))
  | Some (JFloat (S754_zero s)) => Some (float_usec (S754_zero s))
  | Some _ => None
  end.

(** [t + usec] microseconds exists as a [timedelta] and as a [datetime]. *)
Definition representable_usec (t usec : Z) : Prop :=
  -999999999 <= usec / usec_per_day <= 999999999 /\
  0 <= t + usec < max_ordinal * usec_per_day.

(** What is no number of seconds: [timedelta] raises on it. *)
Definition no_lifetime (v : json) : Prop :=
  match v with
  | JNull | JStr _ | JList _ | JDict _
  | JFloat S754_nan | JFloat (S754_infinity _) => True
  | _ => False
  end.

(** ** The loop body, by parts *)

Definition rbind {A B} (r : pyresult A) (f : A -> pyresult B) : pyresult B :=
  match r with
  | Return a => f a
  | Raise e => Raise e
  end.

Notation "x <~ r ;; k" := (rbind r (fun x => k))
  (at level 61, r at next level, right associativity) : monad_scope.

(** [profile_data] as the loop body has it before the two requests, with
    ["quota"] and ["time"] at the [0] they are initialised to. *)
Definition snapshot (devices : pydict json) (profile : json)
  : pyresult profile_data :=
  _ <~ getitem profile "name" ;;
  id <~ getitem profile "id" ;;
  id' <~ getitem profile "id" ;;
  uid <~ get profile "uid" id' ;;
  name <~ getitem profile "name" ;;
  status0 <~ get profile "status" (JDict []) ;;
  is_online <~ get status0 "is_online" (JBool false) ;;
  device_ids <~ get profile "device_ids" (JList []) ;;
  ids <~ iter device_ids ;;
  flags <~ check_removal devices ids (false, JNull) ;;
  status <~ get profile "status" (JDict []) ;;
  location <~ get status "location" (JDict []) ;;
  device_id <~ get location "device" JNull ;;
  current_device <~
    (if truthy is_online && truthy device_id then
       known <~ dict_contains device_id devices ;;
       if known then
         match dict_find device_id devices with
         | Some device => get device "name" JNull
         | None => Raise KeyError
         end
       else Return JNull
     else Return JNull) ;;
  latitude <~ get location "latitude" JNull ;;
  longitude <~ get location "longitude" JNull ;;
  accuracy <~ get location "accuracy" (JInt 0) ;;
  lastseen <~ get status "lastseen" JNull ;;
  Return
    {| pd_id := id; pd_uid := uid; pd_name := name; pd_is_online := is_online;
       pd_unauthorized_remove := fst flags; pd_device_tampered := snd flags;
       pd_current_device := current_device;
       pd_latitude := latitude; pd_longitude := longitude;
       pd_accuracy := accuracy; pd_lastseen := lastseen;
       pd_quota := JInt 0; pd_time := PyInt 0 |}.

(** [profile_data["quota"] = quota] and [profile_data["time"] = time] *)
Definition with_usage (pd : profile_data) (quota : json) (time : pynum)
  : profile_data :=
  {| pd_id := pd_id pd; pd_uid := pd_uid pd; pd_name := pd_name pd;
     pd_is_online := pd_is_online pd;
     pd_unauthorized_remove := pd_unauthorized_remove pd;
     pd_device_tampered := pd_device_tampered pd;
     pd_current_device := pd_current_device pd;
     pd_latitude := pd_latitude pd; pd_longitude := pd_longitude pd;
     pd_accuracy := pd_accuracy pd; pd_lastseen := pd_lastseen pd;
     pd_quota := quota; pd_time := time |}.

(** The two exchanges of one profile, from the state [s] in which its
    processing starts. *)
Definition rules_request (token : json) (pd : profile_data) (s : state) : request :=
  GetRules token (_account_id (self s)) (pd_id pd).

Definition rules_outcome (E : env) (token : json) (pd : profile_data) (s : state)
  : outcome :=
  respond E (history s) (rules_request token pd s).

Definition after_rules (E : env) (token : json) (pd : profile_data) (s : state)
  : list event :=
  (rules_request token pd s, rules_outcome E token pd s) :: history s.

Definition summary_request (E : env) (token : json) (pd : profile_data)
    (s : state) : request :=
  GetHourlySummary token (_account_uid (self s)) (pd_uid pd)
    (date_of (clock E (after_rules E token pd s))).

Definition summary_outcome (E : env) (token : json) (pd : profile_data)
    (s : state) : outcome :=
  respond E (after_rules E token pd s) (summary_request E token pd s).

Definition after_summary (E : env) (token : json) (pd : profile_data)
    (s : state) : list event :=
  (summary_request E token pd s, summary_outcome E token pd s)
    :: after_rules E token pd s.

(** ** The statements before the loop, by parts *)

(** The mapping [devices] that a devices exchange leaves. *)
Definition devices_of (o : outcome) : pydict json :=
  match o with
  | Response status (Some devices_data) =>
      if status =? 200 then
        match iter devices_data with
        | Return items =>
            match build_devices items [] with
            | Return devices => devices
            | Raise _ => []
            end
        | Raise _ => []
        end
      else []
  | _ => []
  end.

Definition with_history (h : list event) (s : state) : state :=
  {| self := self s; history := h; data := data s |}.

(** The account exchange, from the state [s] that [login] leaves. *)
Definition account_request (s : state) : request :=
  GetAccount (_access_token (self s)).

Definition account_outcome (E : env) (s : state) : outcome :=
  respond E (history s) (account_request s).

Definition after_account (E : env) (s : state) : list event :=
  (account_request s, account_outcome E s) :: history s.

(** The devices and profiles exchanges for the account [account_id]. *)
Definition devices_request (s : state) (account_id : json) : request :=
  GetDevices (_access_token (self s)) account_id.

Definition devices_outcome (E : env) (s : state) (account_id : json) : outcome :=
  respond E (after_account E s) (devices_request s account_id).

Definition after_devices (E : env) (s : state) (account_id : json) : list event :=
  (devices_request s account_id, devices_outcome E s account_id)
    :: after_account E s.

Definition profiles_request (s : state) (account_id : json) : request :=
  GetProfiles (_access_token (self s)) account_id.

Definition profiles_outcome (E : env) (s : state) (account_id : json) : outcome :=
  respond E (after_devices E s account_id) (profiles_request s account_id).

Definition after_profiles (E : env) (s : state) (account_id : json) : list event :=
  (profiles_request s account_id, profiles_outcome E s account_id)
    :: after_devices E s account_id.

(** [get_data_prelude] from the state [sL] that [login] leaves with OK. *)
Definition prelude_after_login (E : env) (sL : state) : pyresult (option loop_inputs) * state :=
  let token := _access_token (self sL) in
  let sA := with_history (after_account E sL) sL in
  match account_outcome E sL with
  | TimedOut => (Raise TimeoutError, sA)
  | TransportFailure => (Raise ClientError, sA)
  | Response status body =>
      if negb (status =? 200) then (Return None, sA)
      else
        match body with
        | None => (Raise ValueError, sA)
        | Some account_data =>
            match getitem account_data "id" with
            | Raise e => (Raise e, sA)
            | Return account_id =>
                match get account_data "uid" account_id with
                | Raise e => (Raise e, with_self (set_account_id account_id) sA)
                | Return account_uid =>
                    let sP :=
                      with_history (after_profiles E sL account_id)
                        (with_self (set_account_uid account_uid)
                           (with_self (set_account_id account_id) sL)) in
                    match profiles_outcome E sL account_id with
                    | TimedOut => (Raise TimeoutError, sP)
                    | TransportFailure => (Raise ClientError, sP)
                    | Response status' body' =>
                        if negb (status' =? 200) then (Return None, sP)
                        else
                          match body' with
                          | None => (Raise ValueError, sP)
                          | Some profiles_data =>
                              (Return
                                 (Some
                                    {| li_token := token;
                                       li_devices :=
                                         devices_of (devices_outcome E sL account_id);
                                       li_profiles_data := profiles_data;
                                       li_dow := day_code (clock E (history sP)) |}),
                               sP)
                          end
                    end
                end
            end
        end
  end.

(** ** Well-formed profile entries *)

Definition absent_or_dict (k : string) (items : list (string * json)) : bool :=
  match assoc k items with
  | None | Some (JDict _) => true
  | Some _ => false
  end.

(** A device identifier that the loop body can look up in [devices]: a
    scalar, and when it names a fetched device, that device is an object
    whose [alerts] is absent or an object. *)
Definition device_ref_ok (devices : pydict json) (id : json) : bool :=
  hashable id &&
  match dict_find id devices with
  | None => true
  | Some (JDict device) => absent_or_dict "alerts" device
  | Some _ => false
  end.

Definition location_ok (devices : pydict json) (status : list (string * json))
  : bool :=
  match assoc "location" status with
  | None => true
  | Some (JDict location) =>
      match assoc "device" location with
      | None => true
      | Some d => device_ref_ok devices d
      end
  | Some _ => false
  end.

(** A profile entry is an object with a scalar [id] and a [name]; its
    [device_ids], when present, is a list of device references; its [status]
    and [status.location], when present, are objects. *)
Definition well_formed (devices : pydict json) (profile : json) : bool :=
  match profile with
  | JDict items =>
      match assoc "id" items, assoc "name" items with
      | Some id, Some _ =>
          hashable id
          && match assoc "device_ids" items with
             | None => true
             | Some (JList ids) => forallb (device_ref_ok devices) ids
             | Some _ => false
             end
          && match assoc "status" items with
             | None => true
             | Some (JDict status) => location_ok devices status
             | Some _ => false
             end
      | _, _ => false
      end
  | _ => false
  end.

(** The name of the current device can be read: the lookup happens only for
    an online profile with a truthy [location.device], which must then be
    hashable and, when it names a device, name an object. *)
Definition current_device_ok (devices : pydict json) (is_online device_id : json)
  : bool :=
  if truthy is_online && truthy device_id then
    hashable device_id &&
    match dict_find device_id devices with
    | None | Some (JDict _) => true
    | Some _ => false
    end
  else true.

(** The entries that the loop body reads to its end: an object with a
    hashable [id] and a [name]; its [device_ids], when present, can be
    iterated and yields device references; its [status] and
    [status.location], when present, are objects, and the name of the
    current device can be read. *)
Definition readable (devices : pydict json) (profile : json) : bool :=
  match profile with
  | JDict items =>
      match assoc "id" items, assoc "name" items with
      | Some id, Some _ =>
          hashable id
          && match assoc "device_ids" items with
             | None => true
             | Some device_ids =>
                 match iter device_ids with
                 | Return ids => forallb (device_ref_ok devices) ids
                 | Raise _ => false
                 end
             end
          && match assoc "status" items with
             | None => true
             | Some (JDict status) =>
                 match assoc "location" status with
                 | None => true
                 | Some (JDict location) =>
                     match assoc "device" location with
                     | None => true
                     | Some device_id =>
                         current_device_ok devices
                           match assoc "is_online" status with
                           | Some is_online => is_online
                           | None => JBool false
                           end
                           device_id
                     end
                 | Some _ => false
                 end
             | Some _ => false
             end
      | _, _ => false
      end
  | _ => false
  end.

(** The identifier of a profile entry. *)
Definition profile_id (profile : json) : json :=
  match getitem profile "id" with
  | Return id => id
  | Raise _ => JNull
  end.

(** [k] equals none of [keys] as a dict key. *)
Definition fresh (k : json) (keys : list json) : bool :=
  forallb (fun k' => negb (key_eqb k k')) keys.

(** No two keys of the list are equal as dict keys. *)
Fixpoint distinct (keys : list json) : bool :=
  match keys with
  | [] => true
  | k :: rest => fresh k rest && distinct rest
  end.

(** The requests that the loop body performs. *)
Definition per_profile (r : request) : bool :=
  match r with
  | GetRules _ _ _ | GetHourlySummary _ _ _ _ => true
  | _ => false
  end.

(** The keys of [data] after storing under [ids] in turn. *)
Definition store_keys (keys ids : list json) : list json :=
  fold_left (fun ks k => if fresh k ks then (ks ++ [k])%list else ks) ids keys.

(** ** Quota and screen time as functions of the responses *)

(** The quota that a rules exchange yields for the day code [dow]: the
    value under [time_restrictions.quotas.<dow>] of a 200 response, else 0. *)
Definition rules_quota (dow : string) (o : outcome) : json :=
  match o with
  | Response status (Some (JDict rules)) =>
      if status =? 200 then
        match assoc "time_restrictions" rules with
        | Some (JDict restrictions) =>
            match assoc "quotas" restrictions with
            | Some (JDict quotas) =>
                match assoc dow quotas with
                | Some v => v
                | None => JInt 0
                end
            | _ => JInt 0
            end
        | _ => JInt 0
        end
      else JInt 0
  | _ => JInt 0
  end.




(** The screen time that a summary exchange yields. *)
Definition screen_time (o : outcome) : pynum :=
  match o with
  | Response status (Some hourly) =>
      if status =? 200 then
        match iter hourly with
        | Return entries =>
            match sum_screen_time entries (PyInt 0) with
            | Return total =>
                match truediv total 60 with
                | Return minutes => PyFloat (round1 minutes)
                | Raise _ => PyInt 0
                end
            | Raise _ => PyInt 0
            end
        | Raise _ => PyInt 0
        end
      else PyInt 0
  | _ => PyInt 0
  end.

(** The processing of the profile [p] from the state [sa] stores [pd] under
    a key equal to [k]: [pd0] is what the profile and the devices give, and
    its quota and time come from the two exchanges. *)
Definition stored_by (E : env) (token : json) (devices : pydict json)
    (dow : string) (p : json) (sa : state) (k : json)
    (pd0 pd : profile_data) : Prop :=
  snapshot devices p = Return pd0 /\
  key_eqb k (pd_id pd0) = true /\
  pd = with_usage pd0 (rules_quota dow (rules_outcome E token pd0 sa))
                      (screen_time (summary_outcome E token pd0 sa)).

(** ** Further notions *)

(** The state in which the statements of the [try] block start. *)
Definition entry_state (s : state) : state :=
  with_self (set_session true) (clear_data s).

Definition is_login (r : request) : bool :=
  match r with
  | PostLogin _ _ => true
  | _ => false
  end.

(** The device carries the unauthorized-removal alert. *)
Definition carries_alert (device : json) : bool :=
  match device with
  | JDict fields =>
      match assoc "alerts" fields with
      | Some (JDict alerts) =>
          match assoc "unauthorized_remove" alerts with
          | Some alert => truthy alert
          | None => false
          end
      | _ => false
      end
  | _ => false
  end.

(** The account attributes of [c'] are those of [c]. *)
Record same_account (c c' : client) : Prop := {
  same_id : _account_id c' = _account_id c;
  same_uid : _account_uid c' = _account_uid c
}.

(** The exceptions of reading a response that has not the expected
    shape. *)
Definition malformed (e : exn) : Prop :=
  e = KeyError \/ e = TypeError \/ e = AttributeError.


(** ** Scenarios *)

(** 2024-01-01T00:00, a Monday. *)
Definition monday : Z := 738885 * usec_per_day.

(** A service that answers by the request alone, and a clock that advances
    one second per exchange from [monday]. *)
Definition scripted (answer : request -> outcome) : env :=
  {| respond := fun _ r => answer r;
     clock := fun h => monday + Z.of_nat (List.length h) * usec_per_sec |}.

(** A client just constructed. *)
Definition start : state :=
  {| self := init "parent" "secret"; history := []; data := [] |}.

(** A client holding the token ["old"], valid until [expiry]. *)
Definition holding (expiry : Z) : state :=
  with_self (set_expires_in expiry) (with_self (set_access_token (JStr "old")) start).

Definition token_reply (fields : list (string * json)) : request -> outcome :=
  fun r =>
    match r with
    | PostLogin _ _ => Response 200 (Some (JDict fields))
    | _ => Response 404 None
    end.

(** A complete service: it grants the token ["tok"] for an hour, knows the
    account 42, and answers the other requests as given. *)
Definition service (devices profiles : outcome) (rules summary : outcome)
  : request -> outcome :=
  fun r =>
    match r with
    | PostLogin _ _ =>
        Response 200
          (Some (JDict [("access_token", JStr "tok"); ("expires_in", JInt 3600)]))
    | GetAccount _ => Response 200 (Some (JDict [("id", JInt 42)]))
    | GetDevices _ _ => devices
    | GetProfiles _ _ => profiles
    | GetRules _ _ _ => rules
    | GetHourlySummary _ _ _ _ => summary
    end.

Definition ok (body : json) : outcome := Response 200 (Some body).

(** Two children, the first on a known phone. *)
Definition kid : json :=
  JDict [("id", JInt 1); ("name", JStr "kid"); ("device_ids", JList [JInt 7])].

Definition teen : json :=
  JDict [("id", JInt 2); ("name", JStr "teen")].

(** A phone whose [alerts] field is [null]. *)
Definition phone_null_alerts : json :=
  JDict [("id", JInt 7); ("name", JStr "phone"); ("alerts", JNull)].

(** Every optional request fails: the devices request times out, the rules
    are not found and the summary is a server error. *)
Definition degraded : env :=
  scripted (service TimedOut (ok (JList [kid; teen]))
                    (Response 404 None) (Response 500 None)).

(** A profile entry without a name. *)
Definition nameless : json := JDict [("id", JInt 3)].

(** The second of two profile entries is malformed. *)
Definition second_malformed : env :=
  scripted (service (ok (JList [])) (ok (JList [teen; nameless]))
                    (Response 404 None) (Response 500 None)).

(** A phone that reports an unauthorized removal; a Monday on which the
    rules grant 120 minutes and the summary reports 90 s, nothing, and 3 s. *)
Definition removed_phone : json :=
  JDict [("id", JInt 7); ("name", JStr "phone");
         ("alerts", JDict [("unauthorized_remove", JBool true)])].

Definition monday_rules : json :=
  JDict [("time_restrictions", JDict [("quotas", JDict [("mon", JInt 120)])])].

Definition ninety_three_seconds_summary : json :=
  JList [JDict [("screen_time_seconds", JInt 90)]; JDict [];
         JDict [("screen_time_seconds", JInt 3)]].

Definition healthy : env :=
  scripted (service (ok (JList [removed_phone])) (ok (JList [kid]))
                    (ok monday_rules) (ok ninety_three_seconds_summary)).

(** What the statements before the loop hand over in [healthy], the state
    they leave, and the mapping that [get_data] returns. *)
Definition healthy_inputs : loop_inputs :=
  {| li_token := JStr "tok"; li_devices := [(JInt 7, removed_phone)];
     li_profiles_data := JList [kid]; li_dow := "mon" |}.

Definition healthy_loop_state : state :=
  snd (get_data_prelude healthy (entry_state start)).

Definition healthy_data : pydict profile_data :=
  data (snd (get_data healthy start)).

(** Entries that are read to the end although their [device_ids] is a
    string or their location names a list while the profile is offline. *)
Definition loose_kid : json :=
  JDict [("id", JInt 1); ("name", JStr "kid"); ("device_ids", JStr "ab")].

Definition offline_teen : json :=
  JDict [("id", JInt 2); ("name", JStr "teen");
         ("status", JDict [("location", JDict [("device", JList [JInt 7])])])].

Definition loose : env :=
  scripted (service (ok (JList [phone_null_alerts]))
                    (ok (JList [loose_kid; offline_teen]))
                    (Response 404 None) (Response 500 None)).

(** A token reply whose [expires_in] is the float [3600.5]. *)
Definition lifetime_as_float : list (string * json) :=
  [("access_token", JStr "new");
   ("expires_in", JFloat (S754_finite false 7917583231614976 (-41)))].

(** A token reply whose [expires_in] is the string ["3600"]. *)
Definition lifetime_as_string : list (string * json) :=
  [("access_token", JStr "new"); ("expires_in", JStr "3600")].

(** Both profiles are well formed, and every rules and summary request
    times out. *)
Definition timeouts_in_loop : env :=
  scripted (service (ok (JList [])) (ok (JList [kid; teen])) TimedOut TimedOut).

(** * The callers of the client *)

(** ** The update coordinator ([__init__.py]) *)

(** What [_async_update_data] gives: the mapping of [get_data], or
    [UpdateFailed] raised from the exception that [get_data] raised. *)
Inductive update_result : Type :=
| Updated (d : pydict profile_data)
| UpdateFailed (cause : exn).

(** [QustodioDataUpdateCoordinator._async_update_data] *)
Definition _async_update_data (E : env) (s : state) : update_result * state :=
  match get_data E s with
  | (Return d, s') => (Updated d, s')
  | (Raise exception, s') => (UpdateFailed exception, s')
  end.

(** ** The config flow ([config_flow.py]) *)

(** A user input accepted by [STEP_USER_DATA_SCHEMA]: the two required
    strings. *)
Record user_input : Type := {
  CONF_USERNAME : string;
  CONF_PASSWORD : string
}.

(** The exceptions that leave [validate_input]: the two that the module
    declares, or an exception of the client that nothing caught. *)
Inductive flow_exn : Type :=
| CannotConnect
| InvalidAuth
| Uncaught (e : exn).

Inductive flow_result (A : Type) : Type :=
| Done (a : A)
| Failed (e : flow_exn).
Arguments Done {A} a.
Arguments Failed {A} e.

(** The dict that [validate_input] returns. *)
Record info : Type := {
  info_title : string;
  info_profiles : pydict profile_data
}.

(** [validate_input]: the client is constructed here; [h] holds the
    exchanges that the service has seen before. *)
Definition validate_input (E : env) (h : list event) (input : user_input)
  : flow_result info * state :=
  let api := {| self := init (CONF_USERNAME input) (CONF_PASSWORD input);
                history := h; data := [] |} in
  match login E api with
  | (Raise e, s1) => (Failed (Uncaught e), s1)
  | (Return result, s1) =>
      if login_result_eqb result LOGIN_RESULT_UNAUTHORIZED
      then (Failed InvalidAuth, s1)
      else if negb (login_result_eqb result LOGIN_RESULT_OK)
      then (Failed CannotConnect, s1)
      else
        match get_data E s1 with
        | (Return profiles, s2) =>
            (Done {| info_title := "Qustodio (" ++ CONF_USERNAME input ++ ")";
                     info_profiles := profiles |}, s2)
        | (Raise _, s2) => (Failed CannotConnect, s2)
        end
  end.

(** What [async_step_user] hands back to the flow manager: the form with its
    [errors], or the entry with its title and its data (the user input with
    the profiles added). *)
Inductive FlowResult : Type :=
| async_show_form (step_id : string) (errors : list (string * string))
| async_create_entry (title : string) (input : user_input)
                     (profiles : pydict profile_data).

(** [ConfigFlow.async_step_user] *)
Definition async_step_user (E : env) (h : list event) (input : option user_input)
  : FlowResult * list event :=
  match input with
  | Some input =>
      match validate_input E h input with
      | (Done info, s) =>
          (async_create_entry (info_title info) input (info_profiles info),
           history s)
      | (Failed CannotConnect, s) =>
          (async_show_form "user" [("base", "cannot_connect")], history s)
      | (Failed InvalidAuth, s) =>
          (async_show_form "user" [("base", "invalid_auth")], history s)
      | (Failed (Uncaught _), s) =>
          (async_show_form "user" [("base", "unknown")], history s)
      end
  | None => (async_show_form "user" [], h)
  end.

(** ** The sensor platform ([sensor.py]) *)

(** What a sensor reads of its coordinator: the mapping of the last
    successful refresh ([None] before the first one) and whether the last
    refresh succeeded. *)
Record coordinator : Type := {
  coordinator_data : option (pydict profile_data);
  last_update_success : bool
}.

(** The attributes that [QustodioSensor.__init__] takes from the profile;
    the display attributes that it derives from them and from the constants
    of [const.py] are read by none of the properties below and are left
    out. *)
Record QustodioSensor : Type := {
  _profile_id : json;
  _profile_name : json
}.

Definition new_sensor (pd : profile_data) : QustodioSensor :=
  {| _profile_id := pd_id pd; _profile_name := pd_name pd |}.

(** [async_setup_entry] of the platform: one sensor per item of
    [entry.data.get("profiles", {})], in order. *)
Definition async_setup_entry (profiles : option (pydict profile_data))
  : list QustodioSensor :=
  match profiles with
  | Some d => map (fun item => new_sensor (snd item)) d
  | None => []
  end.

(** The guard of the three properties,
    [self.coordinator.data and self._profile_id in self.coordinator.data],
    and the entry [self.coordinator.data[self._profile_id]] under it. *)
Definition coordinator_entry (sensor : QustodioSensor) (c : coordinator)
  : pyresult (option profile_data) :=
  match coordinator_data c with
  | None | Some [] => Return None
  | Some d =>
      known <~ dict_contains (_profile_id sensor) d ;;
      if known then
        match dict_find (_profile_id sensor) d with
        | Some entry => Return (Some entry)
        | None => Raise KeyError
        end
      else Return None
  end.

(** [QustodioSensor.native_value] *)
Definition native_value (sensor : QustodioSensor) (c : coordinator)
  : pyresult (option pynum) :=
  entry <~ coordinator_entry sensor c ;;
  Return (option_map pd_time entry).

(** The exact order between a binary64 and an integer. *)
Definition float_lt_int (x : spec_float) (z : Z) : bool :=
  match x with
  | S754_zero _ => 0 <? z
  | S754_finite s m e =>
      let v := if s then Zneg m else Zpos m in
      match e with
      | Zneg p => v <? z * 2 ^ Zpos p
      | _ => v * 2 ^ e <? z
      end
  | S754_infinity s => s
  | S754_nan => false
  end.

(** The exact order between an integer and a binary64. *)
Definition int_lt_float (z : Z) (x : spec_float) : bool :=
  match x with
  | S754_zero _ => z <? 0
  | S754_finite s m e =>
      let v := if s then Zneg m else Zpos m in
      match e with
      | Zneg p => z * 2 ^ Zpos p <? v
      | _ => z <? v * 2 ^ e
      end
  | S754_infinity s => negb s
  | S754_nan => false
  end.

(** The order between two binary64 values, by their exact values; nothing
    is below or above a NaN. *)
Definition float_ltb (x y : spec_float) : bool :=
  match x, y with
  | S754_nan, _ | _, S754_nan => false
  | S754_infinity s, S754_infinity s' => s && negb s'
  | S754_infinity s, _ => s
  | _, S754_infinity s' => negb s'
  | _, _ =>
      let value (x : spec_float) : Z * Z :=
        match x with
        | S754_finite s m e => (cond_Zopp s (Zpos m), e)
        | _ => (0, 0)
        end in
      let (vx, ex) := value x in
      let (vy, ey) := value y in
      let e := Z.min ex ey in
      vx * 2 ^ (ex - e) <? vy * 2 ^ (ey - e)
  end.

(** [time_used < quota] *)
Definition time_lt_quota (time_used : pynum) (quota : json) : pyresult bool :=
  let lt (z : Z) :=
    match time_used with
    | PyInt n => n <? z
    | PyFloat x => float_lt_int x z
    end in
  match quota with
  | JInt z => Return (lt z)
  | JBool b => Return (lt (int_of_bool b))
  | JFloat y =>
      Return match time_used with
             | PyInt n => int_lt_float n y
             | PyFloat x => float_ltb x y
             end
  | _ => Raise TypeError
  end.

(** The dict that [extra_state_attributes] returns. *)
Record state_attributes : Type := {
  attr_attribution : string;
  attr_time : pynum;
  attr_current_device : json;
  attr_is_online : json;
  attr_quota : json;
  attr_unauthorized_remove : bool;
  attr_device_tampered : json
}.

Section Constants.

(** The constants that [sensor.py] imports from [const.py], whatever their
    values. *)
Variables ICON_IN_TIME ICON_NO_TIME ATTRIBUTION : string.

(** [QustodioSensor.icon] *)
Definition icon (sensor : QustodioSensor) (c : coordinator) : pyresult string :=
  entry <~ coordinator_entry sensor c ;;
  match entry with
  | Some entry =>
      in_time <~ time_lt_quota (pd_time entry) (pd_quota entry) ;;
      if in_time then Return ICON_IN_TIME else Return ICON_NO_TIME
  | None => Return ICON_NO_TIME
  end.

(** [QustodioSensor.extra_state_attributes] *)
Definition extra_state_attributes (sensor : QustodioSensor) (c : coordinator)
  : pyresult (option state_attributes) :=
  entry <~ coordinator_entry sensor c ;;
  Return
    (option_map
       (fun entry =>
          {| attr_attribution := ATTRIBUTION;
             attr_time := pd_time entry;
             attr_current_device := pd_current_device entry;
             attr_is_online := pd_is_online entry;
             attr_quota := pd_quota entry;
             attr_unauthorized_remove := pd_unauthorized_remove entry;
             attr_device_tampered := pd_device_tampered entry |})
       entry).

End Constants.

(** [QustodioSensor.available] *)
Definition available (sensor : QustodioSensor) (c : coordinator) : pyresult bool :=
  if last_update_success c then
    match coordinator_data c with
    | None => Return false
    | Some d => dict_contains (_profile_id sensor) d
    end
  else Return false.

(** ** Vocabulary of the further properties *)

(** The request carries the token and the account of the client [c], or for
    the login request its credentials. *)
Definition addressed (c : client) (r : request) : Prop :=
  match r with
  | PostLogin username password =>
      username = _username c /\ password = _password c
  | GetAccount token => token = _access_token c
  | GetDevices token account_id | GetProfiles token account_id
  | GetRules token account_id _ =>
      token = _access_token c /\ account_id = _account_id c
  | GetHourlySummary token account_uid _ _ =>
      token = _access_token c /\ account_uid = _account_uid c
  end.

(** [profile.get("status", {}).get(k, default)] *)
Definition status_field (profile : json) (k : string) (default : json)
  : pyresult json :=
  status <~ get profile "status" (JDict []) ;;
  get status k default.

(** [profile.get("status", {}).get("location", {}).get(k, default)] *)
Definition location_field (profile : json) (k : string) (default : json)
  : pyresult json :=
  status <~ get profile "status" (JDict []) ;;
  location <~ get status "location" (JDict []) ;;
  get location k default.

(** Every entry sits under a key equal to its own [id], which is hashable,
    and no two keys are equal. *)
Definition keyed_by_id (d : pydict profile_data) : Prop :=
  distinct (dict_keys d) = true /\
  Forall (fun item => key_eqb (fst item) (pd_id (snd item)) = true /\
                      hashable (pd_id (snd item)) = true) d.

(** ** Further scenarios *)

(** A child who is online on the known phone, with a location. *)
Definition online_kid : json :=
  JDict [("id", JInt 1); ("name", JStr "kid"); ("device_ids", JList [JInt 7]);
         ("status",
          JDict [("is_online", JBool true); ("lastseen", JStr "2024-01-01T00:00:00Z");
                 ("location",
                  JDict [("device", JInt 7); ("latitude", JInt 48);
                         ("longitude", JInt 2)])])].

Definition phone : json := JDict [("id", JInt 7); ("name", JStr "phone")].

Definition tracked : env :=
  scripted (service (ok (JList [phone])) (ok (JList [online_kid]))
                    (ok monday_rules) (ok ninety_three_seconds_summary)).

Definition tracked_inputs : loop_inputs :=
  {| li_token := JStr "tok"; li_devices := [(JInt 7, phone)];
     li_profiles_data := JList [online_kid]; li_dow := "mon" |}.

Definition tracked_loop_state : state :=
  snd (get_data_prelude tracked (entry_state start)).

Definition tracked_data : pydict profile_data :=
  data (snd (get_data tracked start)).

(** * Properties *)

(** ** Reasoning about runs *)

Ltac unfold_monad :=
  unfold json_body, bind, ret, raise, lift, assign, now, get_self, try_except,
    try_finally, get_data_var in *.

(** One pure statement on both sides of an equation between a run and its
    description. *)
Ltac pure_step :=
  unfold bind at 1, lift at 1, rbind at 1; cbv beta iota;
  try match goal with
      | |- match ?x with Return _ => _ | Raise _ => _ end = _ =>
          destruct x; [|reflexivity]
      end.

(** Inversion of a chain of pure statements that returned. *)
Ltac rbind_inv H :=
  repeat match type of H with
         | match ?x with Return _ => _ | Raise _ => _ end = _ =>
             let Hx := fresh "Hx" in
             destruct x eqn:Hx; [cbv beta iota in H | discriminate H]
         end.

(** The cases of the statements before the loop. *)
Ltac prelude_cases :=
  unfold prelude_after_login;
  repeat match goal with
         | |- context [match account_outcome ?E ?s with _ => _ end] =>
             destruct (account_outcome E s) as [| |? [?|]] eqn:?
         | |- context [match profiles_outcome ?E ?s ?a with _ => _ end] =>
             destruct (profiles_outcome E s a) as [| |? [?|]] eqn:?
         | |- context [if negb (?x =? 200) then _ else _] =>
             let H := fresh "Hstatus" in
             destruct (x =? 200) eqn:H; cbn [negb]; cbv iota;
             [apply Z.eqb_eq in H; subst x|]
         | |- context [match getitem ?v ?k with _ => _ end] =>
             destruct (getitem v k) eqn:?
         | |- context [match get ?v ?k ?d with _ => _ end] =>
             destruct (get v k d) eqn:?
         end.

(** ** The quotient by 60 is finite

    [SFdiv] shifts the quotient to at most [prec] bits and rounds it; the
    result overflows only from [2 ^ emax] on. *)










(** ** Rounding to tenths *)

(** [div_half_even n d] is an integer nearest to [n / d], the even one of
    the two when [n / d] lies half way. *)
Lemma div_half_even_nearest n d :
  0 <= n -> 0 < d ->
  Z.abs (2 * n - 2 * d * div_half_even n d) <= d.
Proof.
  intros Hn Hd. unfold div_half_even.
  pose proof (Z.div_mod n d ltac:(lia)) as Hdm.
  pose proof (Z.mod_pos_bound n d Hd) as Hb.
  destruct (2 * (n mod d) ?= d) eqn:Hc.
  - apply Z.compare_eq in Hc. destruct (Z.even (n / d)); nia.
  - rewrite Z.compare_lt_iff in Hc. nia.
  - rewrite Z.compare_gt_iff in Hc. nia.
Qed.

Lemma div_half_even_tie n d :
  0 < d -> 2 * (n mod d) = d -> Z.even (div_half_even n d) = true.
Proof.
  intros Hd Ht. unfold div_half_even. rewrite Ht, Z.compare_refl.
  destruct (Z.even (n / d)) eqn:He; trivial.
  rewrite Z.even_add, He. reflexivity.
Qed.

(** ** [login] *)

Section Login.
Variable E : env.

Lemma token_fresh_true c t :
  token_fresh c t = true <->
  _access_token c <> JNull /\ exists expiry, _expires_in c = Some expiry /\ t < expiry.
Proof.
  unfold token_fresh. split.
  - destruct (_access_token c), (_expires_in c) as [x|]; try discriminate;
      intros H; apply Z.ltb_lt in H; (split; [discriminate | now exists x]).
  - intros [Hn [x [-> Hlt]]]. apply Z.ltb_lt in Hlt.
    destruct (_access_token c); congruence.
Qed.

(** For a lifetime declared as an integer number of seconds, the expiry
    exists exactly when it is representable. *)
Lemma new_expiry_declared t items n :
  declared_lifetime items = Some n ->
  new_expiry t items =
  if (-999999999 <=? n / 86400) && (n / 86400 <=? 999999999) then
    if (0 <=? t + n * usec_per_sec)
       && (t + n * usec_per_sec <? max_ordinal * usec_per_day)
    then Some (t + n * usec_per_sec) else None
  else None.
Proof.
  unfold new_expiry, declared_lifetime. cbn [get].
  destruct (assoc "expires_in" items) as [[ | b | z | fl | str | l | d ]|];
    try discriminate; intros [= <-]; unfold timedelta, datetime_add;
    destruct (_ && _); try reflexivity; destruct (_ && _); reflexivity.
Qed.

Lemma new_expiry_Some t items n x :
  declared_lifetime items = Some n ->
  new_expiry t items = Some x <->
  representable t n /\ x = t + n * usec_per_sec.
Proof.
  intros Hn. rewrite (new_expiry_declared t items n Hn). unfold representable.
  split.
  - destruct (_ && _) eqn:Ha; try discriminate.
    destruct (_ && _) eqn:Hb in |- *; try discriminate. intros [= <-].
    apply andb_true_iff in Ha as [H1 H2]. apply andb_true_iff in Hb as [H3 H4].
    rewrite ?Z.leb_le, ?Z.ltb_lt in *. repeat split; auto; lia.
  - intros [[[H1 H2] [H3 H4]] ->].
    apply Z.leb_le in H1, H2, H3. apply Z.ltb_lt in H4.
    now rewrite H1, H2, H3, H4.
Qed.

(** The expiry is the time plus the declared lifetime, when that is
    representable. *)
Lemma new_expiry_lifetime t items x :
  new_expiry t items = Some x <->
  exists usec, lifetime items = Some usec /\ representable_usec t usec /\
               x = t + usec.
Proof.
  assert (forall n, (n * usec_per_sec) / usec_per_day = n / 86400) as Hdiv.
  { intros n. unfold usec_per_day. now rewrite Z.div_mul_cancel_r. }
  assert (forall usec,
             match
               (if (-999999999 <=? usec / usec_per_day)
                   && (usec / usec_per_day <=? 999999999)
                then Return usec else Raise OverflowError)
             with
             | Return delta =>
                 match datetime_add t delta with
                 | Return expiry => Some expiry
                 | Raise _ => None
                 end
             | Raise _ => None
             end = Some x <->
             representable_usec t usec /\ x = t + usec) as Hcheck.
  { intros usec. unfold representable_usec, datetime_add. split.
    - destruct (_ && _) eqn:Ha; try discriminate.
      destruct (_ && _) eqn:Hb in |- *; try discriminate. intros [= <-].
      apply andb_true_iff in Ha as [H1 H2]. apply andb_true_iff in Hb as [H3 H4].
      rewrite ?Z.leb_le, ?Z.ltb_lt in *. repeat split; auto; lia.
    - intros [[[H1 H2] [H3 H4]] ->].
      apply Z.leb_le in H1, H2, H3. apply Z.ltb_lt in H4.
      rewrite H1, H2. cbn [andb]. cbv iota. now rewrite H3, H4. }
  assert (forall n,
             match timedelta (JInt n) with
             | Return delta =>
                 match datetime_add t delta with
                 | Return expiry => Some expiry
                 | Raise _ => None
                 end
             | Raise _ => None
             end = Some x <->
             representable_usec t (n * usec_per_sec) /\ x = t + n * usec_per_sec)
    as Hint.
  { intros n. rewrite <- Hcheck. unfold timedelta. now rewrite Hdiv. }
  unfold new_expiry, lifetime. cbn [get].
  destruct (assoc "expires_in" items) as [[ | b | z | [ | | | ] | str | l | d ]|].
  all: try (split; [discriminate | intros (usec & [=] & _)]).
  - change (timedelta (JBool b)) with (timedelta (JInt (int_of_bool b))).
    rewrite Hint. split; eauto. now intros (usec & [= <-] & H).
  - rewrite Hint. split; eauto. now intros (usec & [= <-] & H).
  - unfold timedelta. rewrite Hcheck. split; eauto. now intros (usec & [= <-] & H).
  - unfold timedelta. rewrite Hcheck. split; eauto. now intros (usec & [= <-] & H).
  - rewrite Hint. split; eauto. now intros (usec & [= <-] & H).
Qed.

Lemma new_expiry_no_representable t items :
  new_expiry t items = None <->
  forall usec, lifetime items = Some usec -> ~ representable_usec t usec.
Proof.
  split.
  - intros Hn usec Hl Hr.
    assert (new_expiry t items = Some (t + usec)) as Hs
      by (apply new_expiry_lifetime; eauto).
    congruence.
  - intros H. destruct (new_expiry t items) as [x|] eqn:Hx; trivial.
    apply new_expiry_lifetime in Hx as (usec & Hl & Hr & _). now apply H in Hr.
Qed.

(** What is no number of seconds gives no expiry. *)
Lemma new_expiry_no_lifetime t items v :
  assoc "expires_in" items = Some v -> no_lifetime v ->
  new_expiry t items = None.
Proof.
  unfold new_expiry. cbn [get]. intros -> Hv.
  destruct v as [ | b | z | [ | | | ] | str | l | d ]; try destruct Hv; reflexivity.
Qed.

(** [login] after the freshness test, by cases on the exchange. *)
Lemma login_stale s :
  token_fresh (self s) (clock E (history s)) = false ->
  let s1 := {| self := self s; history := after_login_exchange E s; data := data s |} in
  login E s =
  match login_outcome E s with
  | TimedOut | TransportFailure => (Return LOGIN_RESULT_ERROR, s1)
  | Response status body =>
      if status =? 401 then (Return LOGIN_RESULT_UNAUTHORIZED, s1)
      else if negb (status =? 200) then (Return LOGIN_RESULT_ERROR, s1)
      else
        match body with
        | Some (JDict items) =>
            match assoc "access_token" items with
            | None => (Return LOGIN_RESULT_ERROR, s1)
            | Some token =>
                match new_expiry (clock E (after_login_exchange E s)) items with
                | Some x =>
                    (Return LOGIN_RESULT_OK,
                     with_self (set_expires_in x)
                       (with_self (set_access_token token) s1))
                | None =>
                    (Return LOGIN_RESULT_ERROR,
                     with_self (set_access_token token) s1)
                end
            end
        | _ => (Return LOGIN_RESULT_ERROR, s1)
        end
  end.
Proof.
  intros Hstale s1. unfold login. unfold_monad. rewrite Hstale.
  unfold send. fold (login_request s). fold (login_outcome E s).
  fold (after_login_exchange E s). fold s1.
  destruct (login_outcome E s) as [| |status body]; try reflexivity.
  destruct (status =? 401); try reflexivity.
  destruct (status =? 200); try reflexivity. simpl negb. cbv iota.
  destruct body as [v|]; try reflexivity.
  destruct v as [ | b | z | fl | str | l | items ]; try reflexivity.
  - simpl. destruct (substringb _ str); reflexivity.
  - simpl. destruct (existsb _ l); reflexivity.
  - unfold_monad. cbn [contains getitem].
    destruct (assoc "access_token" items) as [token|]; try reflexivity.
    cbn [negb with_self self history data].
    unfold new_expiry.
    destruct (get (JDict items) "expires_in" (JInt 3600)) as [seconds|];
      try reflexivity.
    destruct (timedelta seconds) as [delta|]; try reflexivity.
    destruct (datetime_add _ delta); reflexivity.
Qed.

(** The result of [login] is always a result code: no exception escapes. *)
Lemma login_returns s : exists r, fst (login E s) = Return r.
Proof.
  destruct (token_fresh (self s) (clock E (history s))) eqn:Hf.
  - exists LOGIN_RESULT_OK. unfold login. unfold_monad. now rewrite Hf.
  - rewrite (login_stale s Hf).
    repeat match goal with
           | |- context [match ?x with _ => _ end] => destruct x
           end; simpl; eauto.
Qed.

Lemma login_fresh s :
  token_fresh (self s) (clock E (history s)) = true ->
  login E s = (Return LOGIN_RESULT_OK, s).
Proof. intros Hf. unfold login. unfold_monad. now rewrite Hf. Qed.

Lemma new_expiry_None t items n :
  declared_lifetime items = Some n ->
  new_expiry t items = None <-> ~ representable t n.
Proof.
  intros Hn. split.
  - intros Hnone Hr.
    assert (new_expiry t items = Some (t + n * usec_per_sec)) as Hs
      by (apply (new_expiry_Some t items n); auto).
    congruence.
  - intros H. destruct (new_expiry t items) as [x|] eqn:Hx; trivial.
    apply (new_expiry_Some t items n) in Hx as [Hr _]; auto. now apply H in Hr.
Qed.

End Login.

(** What [login] leaves in the client, by result. *)
Lemma login_effects E s :
  token_fresh (self s) (clock E (history s)) = false ->
  let r := fst (login E s) in
  let c' := self (snd (login E s)) in
  (r = Return LOGIN_RESULT_UNAUTHORIZED -> c' = self s) /\
  (r = Return LOGIN_RESULT_ERROR -> _expires_in c' = _expires_in (self s)) /\
  (r = Return LOGIN_RESULT_OK ->
   exists items token x,
     login_outcome E s = Response 200 (Some (JDict items)) /\
     assoc "access_token" items = Some token /\
     new_expiry (clock E (after_login_exchange E s)) items = Some x /\
     _access_token c' = token /\
     _expires_in c' = Some x /\
     forall n, declared_lifetime items = Some n ->
               x = clock E (after_login_exchange E s) + n * usec_per_sec).
Proof.
  intros Hstale. cbv zeta. rewrite (login_stale E s Hstale).
  destruct (login_outcome E s) as [| |status body];
    try (repeat split; discriminate || reflexivity).
  destruct (status =? 401);
    [repeat split; discriminate || reflexivity|].
  destruct (status =? 200) eqn:H200; cbn [negb]; cbv iota;
    [|repeat split; discriminate || reflexivity].
  apply Z.eqb_eq in H200. subst status.
  destruct body as [[ | | | | | |items]|];
    try (repeat split; discriminate || reflexivity).
  destruct (assoc "access_token" items) as [token|] eqn:Htok;
    [|repeat split; discriminate || reflexivity].
  destruct (new_expiry _ items) as [x|] eqn:Hx.
  - split; [discriminate|]. split; [discriminate|].
    intros _. exists items, token, x. repeat split; auto.
    intros n Hn. apply (new_expiry_Some _ items n x Hn) in Hx. tauto.
  - repeat split; discriminate || reflexivity.
Qed.

(** ** Requests of one profile *)

Section Profile.
Variable E : env.
Variable token : json.

Lemma fetch_quota_run dow id s :
  let r := GetRules token (_account_id (self s)) id in
  let o := respond E (history s) r in
  fetch_quota E token dow id s =
  (Return (rules_quota dow o),
   {| self := self s; history := (r, o) :: history s; data := data s |}).
Proof.
  intros r o. unfold fetch_quota, send. unfold_monad. fold r. fold o.
  unfold rules_quota.
  destruct o as [| |status body]; try reflexivity.
  destruct (status =? 200).
  2:{ destruct body as [[]|]; reflexivity. }
  destruct body as [v|]; try reflexivity.
  destruct v as [ | | | | | |rules]; try reflexivity.
  cbn [get]. destruct (assoc "time_restrictions" rules) as [v|]; try reflexivity.
  destruct v as [ | | | | | |restrictions]; try reflexivity.
  cbn [get]. destruct (assoc "quotas" restrictions) as [v|]; try reflexivity.
  destruct v as [ | | | | | |quotas]; try reflexivity.
  cbn [get]. destruct (assoc dow quotas); reflexivity.
Qed.



Lemma fetch_time_run uid s :
  let r := GetHourlySummary token (_account_uid (self s)) uid
             (date_of (clock E (history s))) in
  let o := respond E (history s) r in
  fetch_time E token uid s =
  (Return (screen_time o),
   {| self := self s; history := (r, o) :: history s; data := data s |}).
Proof.
  intros r o. unfold fetch_time, send. unfold_monad. fold r. fold o.
  unfold screen_time.
  destruct o as [| |status body]; try reflexivity.
  destruct (status =? 200).
  2:{ destruct body; reflexivity. }
  destruct body as [hourly|]; try reflexivity.
  destruct (iter hourly) as [entries|e]; try reflexivity.
  destruct (sum_screen_time entries (PyInt 0)) as [total|e]; try reflexivity.
  destruct (truediv total 60); reflexivity.
Qed.

Lemma current_device_run (devices : pydict json) is_online device_id s :
  (if truthy is_online && truthy device_id then
     known <- lift (dict_contains device_id devices) ;;
     if known then
       match dict_find device_id devices with
       | Some device => lift (get device "name" JNull)
       | None => raise KeyError
       end
     else ret JNull
   else ret JNull) s =
  ((if truthy is_online && truthy device_id then
      known <~ dict_contains device_id devices ;;
      if known then
        match dict_find device_id devices with
        | Some device => get device "name" JNull
        | None => Raise KeyError
        end
      else Return JNull
    else Return JNull), s).
Proof.
  destruct (_ && _); [|reflexivity].
  unfold bind, lift, rbind.
  destruct (dict_contains device_id devices) as [[|]|]; try reflexivity.
  destruct (dict_find device_id devices); reflexivity.
Qed.

(** The loop body: the fields read from the profile and the devices, then
    the rules exchange, the summary exchange, and the store into [data]. *)
Lemma process_profile_run devices dow profile s :
  process_profile E token devices dow profile s =
  match snapshot devices profile with
  | Raise e => (Raise e, s)
  | Return pd =>
      if hashable (pd_id pd) then
        (Return tt,
         {| self := self s;
            history := after_summary E token pd s;
            data := dict_set (pd_id pd)
                      (with_usage pd
                         (rules_quota dow (rules_outcome E token pd s))
                         (screen_time (summary_outcome E token pd s)))
                      (data s) |})
      else
        (Raise TypeError,
         {| self := self s; history := after_summary E token pd s;
            data := data s |})
  end.
Proof.
  unfold process_profile, snapshot.
  do 13 pure_step.
  unfold bind at 1. rewrite current_device_run. unfold rbind at 1.
  match goal with
  | |- context [truthy ?x && truthy ?y] =>
      destruct (if truthy x && truthy y then _ else _); [|reflexivity]
  end.
  do 4 pure_step.
  unfold bind at 1. rewrite fetch_quota_run. cbv beta iota zeta.
  unfold bind at 1. rewrite fetch_time_run. cbv beta iota zeta.
  unfold data_setitem, after_summary, summary_outcome, summary_request,
    after_rules, rules_outcome, rules_request, with_usage, rbind.
  cbn [self history data pd_id pd_uid].
  destruct (hashable _); reflexivity.
Qed.

End Profile.

(** ** The statements before the loop *)

Section Prelude.
Variable E : env.

Lemma fetch_devices_run token s :
  let r := GetDevices token (_account_id (self s)) in
  let o := respond E (history s) r in
  fetch_devices E token s =
  (Return (devices_of o), with_history ((r, o) :: history s) s).
Proof.
  intros r o. unfold fetch_devices, send, with_history. unfold_monad.
  fold r. fold o. unfold devices_of.
  destruct o as [| |status body]; try reflexivity.
  destruct (status =? 200).
  2:{ destruct body; reflexivity. }
  destruct body as [devices_data|]; try reflexivity.
  destruct (iter devices_data) as [items|e]; try reflexivity.
  destruct (build_devices items []); reflexivity.
Qed.

Lemma get_data_prelude_run s0 :
  get_data_prelude E s0 =
  match login E s0 with
  | (Return LOGIN_RESULT_OK, sL) => prelude_after_login E sL
  | (Return _, sL) => (Return None, sL)
  | (Raise e, sL) => (Raise e, sL)
  end.
Proof.
  unfold get_data_prelude. unfold bind at 1.
  destruct (login E s0) as [[[]|e] sL]; try reflexivity.
  unfold prelude_after_login.
  cbn [login_result_eqb negb]. cbv iota.
  unfold bind at 1, get_self at 1. cbv beta iota.
  unfold bind at 1, send at 1. cbv beta iota zeta.
  fold (account_request sL). fold (account_outcome E sL).
  fold (after_account E sL).
  destruct (account_outcome E sL) as [| |status body]; try reflexivity.
  destruct (status =? 200); [|reflexivity]. cbn [negb]. cbv iota.
  destruct body as [account_data|]; [|reflexivity].
  unfold json_body. unfold bind at 1, ret at 1. cbv beta iota.
  unfold bind at 1, lift at 1. cbv beta iota.
  destruct (getitem account_data "id") as [account_id|e]; [|reflexivity].
  unfold bind at 1, assign at 1. cbv beta iota.
  unfold bind at 1, lift at 1. cbv beta iota.
  unfold bind at 1, lift at 1. cbv beta iota.
  destruct (get account_data "uid" account_id) as [account_uid|e]; [|reflexivity].
  unfold bind at 1, assign at 1. cbv beta iota.
  unfold bind at 1. rewrite fetch_devices_run. cbv beta iota zeta.
  unfold bind at 1, get_self at 1. cbv beta iota.
  unfold bind at 1, send at 1. cbv beta iota zeta.
  unfold after_profiles, profiles_outcome, profiles_request, after_devices,
    devices_outcome, devices_request, with_history, with_self.
  cbn [self history data _account_id _access_token set_account_id set_account_uid].
  destruct (respond E _ (GetProfiles _ _)) as [| |status' body'];
    try reflexivity.
  cbv beta iota.
  destruct (status' =? 200); [|reflexivity]. cbn [negb]. cbv iota.
  destruct body' as [profiles_data|]; reflexivity.
Qed.

End Prelude.

(** ** Dictionaries *)

Section Dict.
Context {V : Type}.

Lemma key_beq_eq a b : key_beq a b = true <-> a = b.
Proof.
  destruct a, b; simpl; split; try discriminate; try reflexivity.
  - intros H. apply String.eqb_eq in H. now subst.
  - intros [= ->]. apply String.eqb_refl.
  - intros [H1 H2]%andb_prop. apply Z.eqb_eq in H1, H2. now subst.
  - intros [= -> ->]. now rewrite !Z.eqb_refl.
  - intros H. apply Bool.eqb_prop in H. now subst.
  - intros [= ->]. apply Bool.eqb_reflx.
Qed.

Lemma key_eqb_sym a b : key_eqb a b = key_eqb b a.
Proof.
  unfold key_eqb. destruct (key_of a) as [x|], (key_of b) as [y|]; trivial.
  destruct (key_beq x y) eqn:H.
  - apply key_beq_eq in H. subst. symmetry. now apply key_beq_eq.
  - destruct (key_beq y x) eqn:H'; trivial.
    apply key_beq_eq in H'. subst.
    rewrite (proj2 (key_beq_eq _ _) eq_refl) in H. discriminate.
Qed.

Lemma key_eqb_trans a b c :
  key_eqb a b = true -> key_eqb b c = true -> key_eqb a c = true.
Proof.
  unfold key_eqb.
  destruct (key_of a) as [x|], (key_of b) as [y|], (key_of c) as [z|];
    try discriminate.
  rewrite !key_beq_eq. congruence.
Qed.

Lemma key_eqb_refl k : hashable k = true -> key_eqb k k = true.
Proof.
  unfold key_eqb. intros H.
  destruct (key_of k) as [x|] eqn:Hk.
  - now apply key_beq_eq.
  - destruct k as [ | | |[]| | | ]; discriminate.
Qed.

Lemma dict_keys_set k v (d : pydict V) :
  dict_keys (dict_set k v d) =
  if fresh k (dict_keys d) then (dict_keys d ++ [k])%list else dict_keys d.
Proof.
  induction d as [|[k' v'] d IH]; simpl; trivial.
  destruct (key_eqb k k'); simpl; trivial.
  rewrite IH. now destruct (fresh k (dict_keys d)).
Qed.

Lemma dict_find_set_same k v (d : pydict V) :
  hashable k = true -> dict_find k (dict_set k v d) = Some v.
Proof.
  intros Hk. induction d as [|[k' v'] d IH]; simpl.
  - now rewrite key_eqb_refl.
  - destruct (key_eqb k k') eqn:Hkk; simpl; now rewrite Hkk.
Qed.

Lemma dict_find_set_other k k' v (d : pydict V) :
  key_eqb k' k = false -> dict_find k' (dict_set k v d) = dict_find k' d.
Proof.
  intros Hne. induction d as [|[k0 v0] d IH]; simpl.
  - now rewrite Hne.
  - destruct (key_eqb k k0) eqn:Hk0; simpl.
    + destruct (key_eqb k' k0) eqn:Hk'; trivial.
      rewrite key_eqb_sym in Hk0.
      rewrite (key_eqb_trans _ _ _ Hk' Hk0) in Hne. discriminate.
    + now rewrite IH.
Qed.

Lemma dict_find_set_eq k k' v (d : pydict V) :
  key_eqb k' k = true -> dict_find k' (dict_set k v d) = Some v.
Proof.
  intros He. induction d as [|[k0 v0] d IH]; simpl.
  - now rewrite He.
  - destruct (key_eqb k k0) eqn:Hk0; simpl.
    + now rewrite (key_eqb_trans _ _ _ He Hk0).
    + destruct (key_eqb k' k0) eqn:Hk'; trivial.
      rewrite key_eqb_sym in He.
      rewrite (key_eqb_trans _ _ _ He Hk') in Hk0. discriminate.
Qed.

(** Storing under a key never removes another key. *)
Lemma dict_find_set_keeps k k' v (d : pydict V) :
  dict_find k' d <> None -> dict_find k' (dict_set k v d) <> None.
Proof.
  induction d as [|[k0 v0] d IH]; simpl; try congruence.
  destruct (key_eqb k k0) eqn:Hk0; simpl;
    destruct (key_eqb k' k0); try discriminate; auto.
Qed.

End Dict.

(** ** The loop over the profiles *)

Section Loop.
Variable E : env.
Variable token : json.
Variable devices : pydict json.
Variable dow : string.

Lemma process_profile_Return profile s s' :
  process_profile E token devices dow profile s = (Return tt, s') ->
  exists pd,
    snapshot devices profile = Return pd /\ hashable (pd_id pd) = true /\
    s' = {| self := self s;
            history := after_summary E token pd s;
            data := dict_set (pd_id pd)
                      (with_usage pd
                         (rules_quota dow (rules_outcome E token pd s))
                         (screen_time (summary_outcome E token pd s)))
                      (data s) |}.
Proof.
  rewrite process_profile_run.
  destruct (snapshot devices profile) as [pd|e]; try discriminate.
  destruct (hashable (pd_id pd)) eqn:Hh; try discriminate.
  intros [= <-]. now exists pd.
Qed.

Lemma process_profile_Raise profile s e s' :
  process_profile E token devices dow profile s = (Raise e, s') ->
  self s' = self s /\ data s' = data s /\
  (snapshot devices profile = Raise e \/
   exists pd, snapshot devices profile = Return pd /\ hashable (pd_id pd) = false).
Proof.
  rewrite process_profile_run.
  destruct (snapshot devices profile) as [pd|e'].
  - destruct (hashable (pd_id pd)) eqn:Hh; try discriminate.
    intros [= <- <-]. simpl. eauto 6.
  - intros [= <- <-]. auto.
Qed.

Lemma process_profile_history profile s r s' :
  process_profile E token devices dow profile s = (r, s') ->
  exists new, history s' = (new ++ history s)%list /\
              Forall (fun ev => per_profile (fst ev) = true) new.
Proof.
  rewrite process_profile_run.
  destruct (snapshot devices profile) as [pd|e].
  - assert (exists new, after_summary E token pd s = (new ++ history s)%list /\
              Forall (fun ev => per_profile (fst ev) = true) new) as Hnew.
    { eexists [_; _]. split; [reflexivity|]. repeat constructor. }
    destruct (hashable (pd_id pd)); intros [= <- <-]; exact Hnew.
  - intros [= <- <-]. exists []. split; [reflexivity | constructor].
Qed.

Lemma snapshot_id profile pd :
  snapshot devices profile = Return pd ->
  getitem profile "id" = Return (pd_id pd).
Proof.
  unfold snapshot, rbind. intros H.
  destruct (getitem profile "name"); [|discriminate].
  destruct (getitem profile "id") as [id|]; [|discriminate].
  rbind_inv H. now inversion H.
Qed.

Lemma for_each_app {A} (f : A -> M unit) l1 l2 s :
  for_each f (l1 ++ l2) s =
  match for_each f l1 s with
  | (Return _, s1) => for_each f l2 s1
  | (Raise e, s1) => (Raise e, s1)
  end.
Proof.
  revert s. induction l1 as [|x l1 IH]; intros s; simpl; trivial.
  unfold bind. destruct (f x s) as [[[]|e] s1]; trivial.
Qed.

(** A raise in the body ends the loop there. *)
Lemma for_each_partial {A} (f : A -> M unit) done x rest s s2 e s3 :
  for_each f done s = (Return tt, s2) ->
  f x s2 = (Raise e, s3) ->
  for_each f (done ++ x :: rest) s = (Raise e, s3).
Proof.
  intros Hd Hx. rewrite for_each_app, Hd. simpl. unfold bind. now rewrite Hx.
Qed.

Lemma loop_history profiles : forall s r s',
  for_each (process_profile E token devices dow) profiles s = (r, s') ->
  self s' = self s /\
  exists new, history s' = (new ++ history s)%list /\
              Forall (fun ev => per_profile (fst ev) = true) new.
Proof.
  induction profiles as [|p rest IH]; intros s r s'; simpl.
  - intros [= <- <-]. split; trivial. exists []. split; [reflexivity|constructor].
  - unfold bind. destruct (process_profile E token devices dow p s)
      as [[[]|e] s1] eqn:Hp.
    + intros Hr. apply IH in Hr as [Hs [new [Hh Hf]]].
      destruct (process_profile_history _ _ _ _ Hp) as [new1 [Hh1 Hf1]].
      apply process_profile_Return in Hp as (pd & _ & _ & ->).
      split; [exact Hs|]. exists (new ++ new1)%list.
      rewrite Hh, Hh1, app_assoc. split; trivial.
      apply Forall_app; auto.
    + intros [= <- <-].
      destruct (process_profile_history _ _ _ _ Hp) as [new1 [Hh1 Hf1]].
      apply process_profile_Raise in Hp as (Hs & _). eauto.
Qed.

(** What a completed run of the loop has stored is found under the
    identifier of each profile, and nothing stored before is lost. *)
Lemma loop_stores profiles : forall s s',
  for_each (process_profile E token devices dow) profiles s = (Return tt, s') ->
  (forall k, dict_find k (data s) <> None -> dict_find k (data s') <> None) /\
  (forall p, In p profiles ->
     exists id, getitem p "id" = Return id /\ dict_find id (data s') <> None).
Proof.
  induction profiles as [|p rest IH]; intros s s'; simpl.
  - intros [= <-]. split; [auto | contradiction].
  - unfold bind. destruct (process_profile E token devices dow p s)
      as [[[]|e] s1] eqn:Hp; try discriminate.
    intros Hr. apply IH in Hr as [Hkeep Hrest].
    apply process_profile_Return in Hp as (pd & Hsnap & Hh & ->).
    simpl in Hkeep. split.
    + intros k Hk. apply Hkeep. now apply dict_find_set_keeps.
    + intros q [<- | Hq]; [|now apply Hrest].
      exists (pd_id pd). split; [now apply snapshot_id|].
      apply Hkeep. rewrite dict_find_set_same; [discriminate | exact Hh].
Qed.

End Loop.

(** ** Well-formed entries are processed *)

Section WellFormed.
Variable devices : pydict json.

Lemma check_removal_returns ids : forall flags,
  forallb (device_ref_ok devices) ids = true ->
  exists flags', check_removal devices ids flags = Return flags'.
Proof.
  induction ids as [|id rest IH]; intros flags; simpl.
  - eauto.
  - intros H. apply andb_true_iff in H as [Hid Hrest].
    unfold device_ref_ok in Hid. apply andb_true_iff in Hid as [Hh Hdev].
    unfold dict_contains. rewrite Hh.
    destruct (dict_find id devices) as [device|]; [|now apply IH].
    destruct device as [ | | | | | |fields]; try discriminate.
    unfold absent_or_dict in Hdev. cbn [get].
    destruct (assoc "alerts" fields) as [alerts|].
    + destruct alerts as [ | | | | | |alerts]; try discriminate. cbn [get].
      destruct (assoc "unauthorized_remove" alerts) as [alert|].
      * destruct (truthy alert); [|now apply IH].
        destruct (assoc "name" fields); now apply IH.
      * cbn [truthy]. now apply IH.
    + cbn [get assoc truthy]. now apply IH.
Qed.

Lemma get_dict items k default :
  exists v, get (JDict items) k default = Return v.
Proof. simpl. destruct (assoc k items); eauto. Qed.

Lemma current_device_returns is_online device_id :
  device_id = JNull \/ device_ref_ok devices device_id = true ->
  exists current_device,
    (if truthy is_online && truthy device_id then
       known <~ dict_contains device_id devices ;;
       if known then
         match dict_find device_id devices with
         | Some device => get device "name" JNull
         | None => Raise KeyError
         end
       else Return JNull
     else Return JNull) = Return current_device.
Proof.
  intros [-> | Hok].
  - rewrite andb_false_r. eauto.
  - destruct (truthy is_online && truthy device_id); eauto.
    unfold device_ref_ok in Hok. apply andb_true_iff in Hok as [Hh Hdev].
    unfold dict_contains. rewrite Hh. cbn [rbind].
    destruct (dict_find device_id devices) as [[ | | | | | |fields]|];
      try discriminate; eauto.
    apply get_dict.
Qed.

Lemma well_formed_snapshot profile :
  well_formed devices profile = true ->
  exists pd, snapshot devices profile = Return pd /\
             pd_id pd = profile_id profile /\ hashable (pd_id pd) = true.
Proof.
  unfold well_formed, profile_id.
  destruct profile as [ | | | | | |items]; try discriminate.
  cbn [getitem].
  destruct (assoc "id" items) as [id|] eqn:Hid; try discriminate.
  destruct (assoc "name" items) as [name|] eqn:Hname; try discriminate.
  intros H. apply andb_true_iff in H as [H Hstatus].
  apply andb_true_iff in H as [Hh Hids].
  assert (exists ids, get (JDict items) "device_ids" (JList []) = Return (JList ids) /\
                      forallb (device_ref_ok devices) ids = true)
    as (ids & Hdi & Hok).
  { cbn [get]. destruct (assoc "device_ids" items) as [[ | | | | |ids| ]|];
      try discriminate; eauto. }
  assert (exists status, get (JDict items) "status" (JDict []) = Return (JDict status) /\
                         location_ok devices status = true)
    as (status & Hst & Hlocok).
  { cbn [get]. destruct (assoc "status" items) as [[ | | | | | |status]|];
      try discriminate; eauto. }
  assert (exists location device_id,
             get (JDict status) "location" (JDict []) = Return (JDict location) /\
             get (JDict location) "device" JNull = Return device_id /\
             (device_id = JNull \/ device_ref_ok devices device_id = true))
    as (location & device_id & Hloc & Hdev & Hdevok).
  { cbn [get]. unfold location_ok in Hlocok.
    destruct (assoc "location" status) as [[ | | | | | |location]|];
      try discriminate.
    - exists location. destruct (assoc "device" location) as [d|]; eauto 6.
    - exists []. simpl. eauto 6. }
  unfold snapshot. cbn [getitem]. rewrite Hid, Hname. cbn [rbind].
  destruct (get_dict items "uid" id) as [uid ->]. cbn [rbind].
  rewrite Hst. cbn [rbind].
  destruct (get_dict status "is_online" (JBool false)) as [is_online ->].
  cbn [rbind]. rewrite Hdi. cbn [rbind iter].
  destruct (check_removal_returns ids (false, JNull) Hok) as [flags ->].
  cbn [rbind]. rewrite Hloc. cbn [rbind]. rewrite Hdev. cbn [rbind].
  destruct (current_device_returns is_online device_id Hdevok) as [cd ->].
  cbn [rbind].
  destruct (get_dict location "latitude" JNull) as [latitude ->]. cbn [rbind].
  destruct (get_dict location "longitude" JNull) as [longitude ->]. cbn [rbind].
  destruct (get_dict location "accuracy" (JInt 0)) as [accuracy ->]. cbn [rbind].
  destruct (get_dict status "lastseen" JNull) as [lastseen ->]. cbn [rbind].
  eexists. split; [reflexivity|]. split; [reflexivity | exact Hh].
Qed.

End WellFormed.

Lemma fresh_app k l1 l2 : fresh k (l1 ++ l2) = fresh k l1 && fresh k l2.
Proof. unfold fresh. apply forallb_app. Qed.

Lemma store_keys_distinct ids : forall keys,
  distinct ids = true ->
  (forall k, In k ids -> fresh k keys = true) ->
  store_keys keys ids = (keys ++ ids)%list.
Proof.
  induction ids as [|id rest IH]; intros keys Hd Hf; simpl.
  - now rewrite app_nil_r.
  - apply andb_true_iff in Hd as [Hid Hrest].
    unfold store_keys. simpl. rewrite (Hf id (or_introl eq_refl)).
    fold (store_keys (keys ++ [id]) rest). rewrite IH; trivial.
    + now rewrite <- app_assoc.
    + intros k Hk. rewrite fresh_app, (Hf k (or_intror Hk)). simpl.
      rewrite andb_true_r. unfold fresh in Hid.
      rewrite forallb_forall in Hid. rewrite key_eqb_sym. now apply Hid.
Qed.

Lemma loop_well_formed E token devices dow profiles : forall s,
  forallb (well_formed devices) profiles = true ->
  exists s',
    for_each (process_profile E token devices dow) profiles s = (Return tt, s') /\
    dict_keys (data s') = store_keys (dict_keys (data s)) (map profile_id profiles).
Proof.
  induction profiles as [|p rest IH]; intros s; simpl.
  - intros _. now exists s.
  - intros H. apply andb_true_iff in H as [Hp Hrest].
    destruct (well_formed_snapshot devices p Hp) as (pd & Hsnap & Hid & Hh).
    unfold bind. rewrite process_profile_run, Hsnap, Hh.
    match goal with
    | |- context [for_each _ rest ?s1] =>
        destruct (IH s1 Hrest) as (s' & -> & Hkeys)
    end.
    exists s'. split; trivial. rewrite Hkeys. cbn [data].
    rewrite dict_keys_set, Hid. reflexivity.
Qed.

(** ** [get_data] as a whole *)

Lemma get_data_run E s :
  get_data E s =
  match get_data_prelude E (entry_state s) with
  | (Return (Some li), s1) =>
      let s2 := snd (profiles_loop E li s1) in
      (Return (data s2), with_self (set_session false) s2)
  | (_, s1) => (Return (data s1), with_self (set_session false) s1)
  end.
Proof.
  unfold get_data, try_finally, try_except, get_data_try.
  unfold bind at 1, assign at 1. cbv beta iota. fold (entry_state s).
  unfold bind at 1.
  destruct (get_data_prelude E (entry_state s)) as [[[li|]|e] s1];
    try reflexivity.
  unfold bind at 1.
  destruct (profiles_loop E li s1) as [[[]|e] s2]; reflexivity.
Qed.

(** ** What [login] and the statements before the loop leave unchanged *)

Lemma login_frame E s r sL :
  login E s = (r, sL) ->
  data sL = data s /\ _session (self sL) = _session (self s) /\
  same_account (self s) (self sL) /\
  exists new, history sL = (new ++ history s)%list /\
              Forall (fun ev => is_login (fst ev) = true) new.
Proof.
  destruct (token_fresh (self s) (clock E (history s))) eqn:Hf.
  - rewrite (login_fresh E s Hf). intros [= <- <-].
    repeat split. exists []. split; [reflexivity | constructor].
  - rewrite (login_stale E s Hf).
    assert (exists new, after_login_exchange E s = (new ++ history s)%list /\
              Forall (fun ev => is_login (fst ev) = true) new) as Hnew.
    { eexists [_]. split; [reflexivity|]. repeat constructor. }
    repeat match goal with
           | |- context [match ?x with _ => _ end] => destruct x
           end; intros [= <- <-]; repeat split; exact Hnew.
Qed.

Lemma prelude_frame E s0 r s1 :
  get_data_prelude E s0 = (r, s1) ->
  data s1 = data s0 /\ _session (self s1) = _session (self s0).
Proof.
  rewrite get_data_prelude_run.
  destruct (login E s0) as [rL sL] eqn:HL.
  apply login_frame in HL as (Hd & Hs & _).
  destruct rL as [[]|e]; try (intros [= <- <-]; now split).
  prelude_cases; intros [= <- <-]; now split.
Qed.

(** The loop is entered only after an OK login, a 200 account response and
    a 200 profiles response. *)
Lemma prelude_loop_inputs E s0 li s1 :
  get_data_prelude E s0 = (Return (Some li), s1) ->
  exists sL account_data account_id,
    login E s0 = (Return LOGIN_RESULT_OK, sL) /\
    account_outcome E sL = Response 200 (Some account_data) /\
    getitem account_data "id" = Return account_id /\
    profiles_outcome E sL account_id = Response 200 (Some (li_profiles_data li)) /\
    history s1 = after_profiles E sL account_id /\
    li_token li = _access_token (self sL) /\
    li_devices li = devices_of (devices_outcome E sL account_id) /\
    li_dow li = day_code (clock E (history s1)).
Proof.
  rewrite get_data_prelude_run.
  destruct (login E s0) as [rL sL] eqn:HL.
  destruct rL as [[]|e]; try discriminate.
  prelude_cases; try discriminate.
  intros [= <- <-]. exists sL. do 2 eexists. repeat split; eauto.
Qed.

(** Conversely, an OK login, a decoded 200 account response with an [id]
    and a decoded 200 profiles response lead into the loop, whatever the
    devices exchange does. *)
Lemma prelude_reaches_loop E s0 sL account_data account_id profiles_data :
  login E s0 = (Return LOGIN_RESULT_OK, sL) ->
  account_outcome E sL = Response 200 (Some account_data) ->
  getitem account_data "id" = Return account_id ->
  profiles_outcome E sL account_id = Response 200 (Some profiles_data) ->
  exists li s1,
    get_data_prelude E s0 = (Return (Some li), s1) /\
    li_profiles_data li = profiles_data /\
    li_devices li = devices_of (devices_outcome E sL account_id).
Proof.
  intros HL Ha Hid Hp. rewrite get_data_prelude_run, HL.
  unfold prelude_after_login. rewrite Ha. cbn [Z.eqb Pos.eqb negb]. cbv iota.
  rewrite Hid.
  destruct account_data as [ | | | | | |fields]; try discriminate.
  destruct (get_dict fields "uid" account_id) as [uid ->].
  rewrite Hp. cbn [Z.eqb Pos.eqb negb]. cbv iota.
  do 2 eexists. split; [reflexivity|]. split; reflexivity.
Qed.

(** After the statements before the loop, the account attributes are the
    previous ones or those of a decoded 200 account response. *)
Lemma prelude_account E s0 r s1 :
  get_data_prelude E s0 = (r, s1) ->
  same_account (self s0) (self s1) \/
  exists new token account_data,
    history s1 = (new ++ history s0)%list /\
    In (GetAccount token, Response 200 (Some account_data)) new /\
    getitem account_data "id" = Return (_account_id (self s1)) /\
    get account_data "uid" (_account_id (self s1)) = Return (_account_uid (self s1)).
Proof.
  rewrite get_data_prelude_run.
  destruct (login E s0) as [rL sL] eqn:HL.
  apply login_frame in HL as (_ & _ & Hsame & newL & Hh & _).
  destruct rL as [[]|e]; try (intros [= <- <-]; now left).
  prelude_cases; intros [= <- <-]; try (now left).
  all: try match goal with
           | Hg : getitem ?v "id" = Return _, Hu : get ?v "uid" _ = Raise _ |- _ =>
               destruct v as [ | | | | | |fields]; try discriminate;
               simpl in Hu; destruct (assoc "uid" fields); discriminate
           end.
  all: right; unfold after_profiles, after_devices, after_account;
    cbn [history with_history with_self self set_account_uid set_account_id
         _account_id _account_uid];
    rewrite Hh;
    match goal with
    | Ha : account_outcome _ _ = _ |- _ => rewrite Ha
    end;
    eexists (_ :: _ :: _ :: newL), _, _;
    (split; [reflexivity|]); split; [right; right; left; reflexivity|];
    split; assumption.
Qed.

Lemma profiles_loop_list E li profiles s :
  li_profiles_data li = JList profiles ->
  profiles_loop E li s =
  for_each (process_profile E (li_token li) (li_devices li) (li_dow li)) profiles s.
Proof. intros H. unfold profiles_loop. now rewrite H. Qed.

Lemma get_data_returns E s : exists d, fst (get_data E s) = Return d.
Proof.
  rewrite get_data_run.
  destruct (get_data_prelude E (entry_state s)) as [[[li|]|e] s1];
    simpl; eauto.
Qed.

(** The exchanges of a call that reaches the loop: those of the loop, the
    profiles, devices and account exchanges, and before them those of
    [login]. *)
Lemma get_data_exchanges E s li s1 :
  get_data_prelude E (entry_state s) = (Return (Some li), s1) ->
  exists sL account_id account_data loop_new login_new,
    login E (entry_state s) = (Return LOGIN_RESULT_OK, sL) /\
    history (snd (get_data E s)) =
      (loop_new
       ++ (profiles_request sL account_id,
           Response 200 (Some (li_profiles_data li)))
       :: (devices_request sL account_id, devices_outcome E sL account_id)
       :: (account_request sL, Response 200 (Some account_data))
       :: login_new ++ history s)%list /\
    Forall (fun ev => per_profile (fst ev) = true) loop_new /\
    Forall (fun ev => is_login (fst ev) = true) login_new.
Proof.
  intros Hpre. rewrite get_data_run, Hpre. cbv zeta.
  apply prelude_loop_inputs in Hpre
    as (sL & account_data & account_id & HL & Ha & _ & Hp & Hh & _).
  destruct (login_frame _ _ _ _ HL) as (_ & _ & _ & login_new & HhL & HfL).
  assert (exists loop_new,
             history (snd (profiles_loop E li s1)) = (loop_new ++ history s1)%list /\
             Forall (fun ev => per_profile (fst ev) = true) loop_new)
    as (loop_new & Hloop & Hfl).
  { unfold profiles_loop, bind, lift.
    destruct (iter (li_profiles_data li)) as [profiles|e].
    - destruct (for_each _ profiles s1) as [r s2] eqn:Hrun.
      apply loop_history in Hrun as [_ Hnew]. exact Hnew.
    - exists []. split; [reflexivity | constructor]. }
  exists sL, account_id, account_data, loop_new, login_new.
  split; [exact HL|]. split; [|split; assumption].
  cbn [snd history with_self]. rewrite Hloop, Hh.
  unfold after_profiles, after_devices, after_account.
  rewrite Hp, Ha, HhL. reflexivity.
Qed.

(** What a completed run of the loop holds was there before or is stored
    under the identifier of one of the profiles. *)
Lemma loop_only E token devices dow profiles : forall s s',
  for_each (process_profile E token devices dow) profiles s = (Return tt, s') ->
  forall k, dict_find k (data s') <> None ->
    dict_find k (data s) <> None \/
    exists p id, In p profiles /\ getitem p "id" = Return id /\
                 key_eqb k id = true.
Proof.
  induction profiles as [|p rest IH]; intros s s'; simpl.
  - intros [= <-]. auto.
  - unfold bind.
    destruct (process_profile E token devices dow p s) as [[[]|e] s1] eqn:Hp;
      try discriminate.
    intros Hrest k Hk.
    destruct (IH _ _ Hrest k Hk) as [Hin | (q & id & Hq & Hid & Heq)].
    + apply process_profile_Return in Hp as (pd & Hsnap & Hh & ->).
      cbn [data] in Hin.
      destruct (key_eqb k (pd_id pd)) eqn:Hkk.
      * right. exists p, (pd_id pd). split; [now left|].
        split; [now apply (snapshot_id devices)|trivial].
      * left. now rewrite dict_find_set_other in Hin.
    + right. exists q, id. auto.
Qed.

(** Every snapshot that a run of the loop leaves in [data] was there
    before or was stored by the processing of one of the profiles, whose two
    exchanges are in the history. *)
Lemma loop_entries E token devices dow profiles : forall s r s',
  for_each (process_profile E token devices dow) profiles s = (r, s') ->
  forall k pd, dict_find k (data s') = Some pd ->
    dict_find k (data s) = Some pd \/
    exists p sa pd0 old new,
      In p profiles /\
      stored_by E token devices dow p sa k pd0 pd /\
      self sa = self s /\
      history sa = (old ++ history s)%list /\
      history s' = (new ++ after_summary E token pd0 sa)%list.
Proof.
  induction profiles as [|p rest IH]; intros s r s'; simpl.
  - intros [= <- <-]. auto.
  - unfold bind.
    destruct (process_profile E token devices dow p s) as [[[]|e] s1] eqn:Hp.
    + intros Hrest k pd Hk.
      apply process_profile_Return in Hp as (pd0 & Hsnap & Hh & Hs1).
      destruct (IH _ _ _ Hrest k pd Hk)
        as [Hin | (q & sa & qd & old & new & Hq & Hst & Hself & Hold & Hnew)].
      * destruct (key_eqb k (pd_id pd0)) eqn:Hkk.
        -- right. rewrite Hs1 in Hin. cbn [data] in Hin.
           rewrite (dict_find_set_eq _ _ _ _ Hkk) in Hin. injection Hin as <-.
           apply loop_history in Hrest as [_ (new & Hnew & _)].
           exists p, s, pd0, [], new. rewrite Hnew, Hs1.
           repeat split; auto.
        -- left. rewrite Hs1 in Hin. cbn [data] in Hin.
           now rewrite dict_find_set_other in Hin.
      * right. rewrite Hs1 in Hself, Hold. cbn [self history] in Hself, Hold.
        exists q, sa, qd,
          (old ++ [(summary_request E token pd0 s, summary_outcome E token pd0 s);
                   (rules_request token pd0 s, rules_outcome E token pd0 s)])%list,
          new.
        split; [now right|]. split; [exact Hst|]. split; [exact Hself|].
        split; [|exact Hnew].
        rewrite Hold. unfold after_summary, after_rules.
        now rewrite <- app_assoc.
    + intros [= <- <-] k pd Hk. left.
      apply process_profile_Raise in Hp as (_ & Hd & _). now rewrite <- Hd.
Qed.

(** The snapshots that [get_data] returns are those that the loop body
    stored for the profiles of the response, run with the inputs that the
    statements before the loop hand over. *)
Lemma get_data_entries E s li s1 d :
  get_data_prelude E (entry_state s) = (Return (Some li), s1) ->
  fst (get_data E s) = Return d ->
  forall k pd, dict_find k d = Some pd ->
    exists profiles p sa pd0 old new,
      iter (li_profiles_data li) = Return profiles /\ In p profiles /\
      stored_by E (li_token li) (li_devices li) (li_dow li) p sa k pd0 pd /\
      self sa = self s1 /\
      history sa = (old ++ history s1)%list /\
      history (snd (get_data E s))
      = (new ++ after_summary E (li_token li) pd0 sa)%list.
Proof.
  intros Hpre. rewrite get_data_run, Hpre. cbv zeta. cbn [fst].
  intros [= <-] k pd. unfold profiles_loop, bind, lift.
  apply prelude_frame in Hpre as [Hd _]. simpl in Hd.
  destruct (iter (li_profiles_data li)) as [profiles|e]; cbn [snd].
  - destruct (for_each _ profiles s1) as [r s2] eqn:Hrun. cbn [snd].
    intros Hk.
    destruct (loop_entries _ _ _ _ _ _ _ _ Hrun k pd Hk)
      as [Hin | (p & sa & pd0 & old & new & Hp & Hst & Hself & Hold & Hnew)].
    + rewrite Hd in Hin. discriminate.
    + exists profiles, p, sa, pd0, old, new. cbn [history with_self].
      auto 7.
  - rewrite Hd. discriminate.
Qed.

Lemma rbind_Raise {A B} (r : pyresult A) (f : A -> pyresult B) e :
  rbind r f = Raise e ->
  r = Raise e \/ exists a, r = Return a /\ f a = Raise e.
Proof. destruct r as [a|e']; simpl; [eauto | intros [= <-]; auto]. Qed.

Lemma getitem_Raise v k e :
  getitem v k = Raise e -> malformed e.
Proof.
  unfold malformed, getitem. destruct v; try (intros [= <-]; auto).
  destruct (assoc k items); [discriminate | intros [= <-]; auto].
Qed.

Lemma get_Raise v k d e : get v k d = Raise e -> malformed e.
Proof.
  unfold malformed, get. destruct v; try (intros [= <-]; auto).
  destruct (assoc k items); discriminate.
Qed.

Lemma iter_Raise v e : iter v = Raise e -> malformed e.
Proof. unfold malformed, iter. destruct v; try discriminate; intros [= <-]; auto. Qed.

Lemma dict_contains_Raise {V} k (d : pydict V) e :
  dict_contains k d = Raise e -> malformed e.
Proof.
  unfold malformed, dict_contains.
  destruct (hashable k); [discriminate | intros [= <-]; auto].
Qed.

Lemma check_removal_Raise devices ids e : forall flags,
  check_removal devices ids flags = Raise e -> malformed e.
Proof.
  induction ids as [|id rest IH]; intros flags; simpl; try discriminate.
  destruct (dict_contains id devices) as [[|]|e'] eqn:Hc.
  - destruct (dict_find id devices) as [device|];
      [|intros [= <-]; unfold malformed; auto].
    destruct (get device "alerts" (JDict [])) as [alerts|e'] eqn:Ha;
      [|intros [= <-]; now apply get_Raise in Ha].
    destruct (get alerts "unauthorized_remove" (JBool false)) as [alert|e'] eqn:Hu;
      [|intros [= <-]; now apply get_Raise in Hu].
    destruct (truthy alert); [|apply IH].
    destruct (get device "name" (JStr "Unknown")) as [name|e'] eqn:Hn;
      [apply IH | intros [= <-]; now apply get_Raise in Hn].
  - apply IH.
  - intros [= <-]. now apply dict_contains_Raise in Hc.
Qed.

Lemma snapshot_Raise devices profile e :
  snapshot devices profile = Raise e -> malformed e.
Proof.
  unfold snapshot. intros H.
  repeat (apply rbind_Raise in H;
          destruct H as [H | [? [_ H]]];
          [ first [ now apply getitem_Raise in H
                  | now apply get_Raise in H
                  | now apply iter_Raise in H
                  | now apply check_removal_Raise in H
                  | idtac ]
          | ]);
    try discriminate.
  destruct (truthy _ && truthy _); [|discriminate].
  apply rbind_Raise in H. destruct H as [H | [known [_ H]]].
  - now apply dict_contains_Raise in H.
  - destruct known; [|discriminate].
    destruct (dict_find _ devices);
      [now apply get_Raise in H | inversion H; unfold malformed; auto].
Qed.

(** The exceptions that leave the loop body come from reading the profile
    and the devices; those of the two requests are handled inside. *)
Lemma process_profile_raises E token devices dow profile s e s' :
  process_profile E token devices dow profile s = (Raise e, s') ->
  malformed e.
Proof.
  intros H. pose proof H as H'.
  apply process_profile_Raise in H' as (_ & _ & [Hs | (pd & Hs & Hh)]).
  - now apply snapshot_Raise in Hs.
  - revert H. rewrite process_profile_run, Hs, Hh. intros [= <- _].
    unfold malformed. auto.
Qed.

(** ** The fields of one snapshot *)

Lemma snapshot_fields devices profile pd :
  snapshot devices profile = Return pd ->
  exists device_ids flags,
    rbind (get profile "device_ids" (JList [])) iter = Return device_ids /\
    check_removal devices device_ids (false, JNull) = Return flags /\
    pd_unauthorized_remove pd = fst flags /\
    pd_device_tampered pd = snd flags.
Proof.
  unfold snapshot, rbind. intros H.
  destruct (getitem profile "name"); [|discriminate].
  destruct (getitem profile "id") as [id|]; [|discriminate].
  destruct (get profile "uid" id); [|discriminate].
  destruct (get profile "status" (JDict [])) as [status|]; [|discriminate].
  destruct (get status "is_online" (JBool false)); [|discriminate].
  destruct (get profile "device_ids" (JList [])) as [v|]; [|discriminate].
  destruct (iter v) as [device_ids|]; [|discriminate].
  destruct (check_removal devices device_ids (false, JNull)) as [flags|] eqn:Hc;
    [|discriminate].
  rbind_inv H. inversion H. now exists device_ids, flags.
Qed.

Lemma alert_truthy device alerts alert :
  get device "alerts" (JDict []) = Return alerts ->
  get alerts "unauthorized_remove" (JBool false) = Return alert ->
  truthy alert = carries_alert device.
Proof.
  destruct device as [ | | | | | |fields]; try discriminate. simpl.
  destruct (assoc "alerts" fields) as [v|]; intros [= <-].
  - destruct v as [ | | | | | |al]; try discriminate. simpl.
    destruct (assoc "unauthorized_remove" al); now intros [= <-].
  - simpl. now intros [= <-].
Qed.

Lemma check_removal_spec devices ids : forall flags0 flags,
  check_removal devices ids flags0 = Return flags ->
  (flags = flags0 /\
   forall d device, In d ids -> dict_find d devices = Some device ->
                    carries_alert device = false) \/
  (fst flags = true /\
   exists d device, In d ids /\ dict_find d devices = Some device /\
                    carries_alert device = true /\
                    get device "name" (JStr "Unknown") = Return (snd flags)).
Proof.
  induction ids as [|id rest IH]; intros flags0 flags; simpl.
  - intros [= <-]. left. split; [reflexivity | contradiction].
  - unfold dict_contains. destruct (hashable id); [|discriminate].
    destruct (dict_find id devices) as [device|] eqn:Hfind.
    + destruct (get device "alerts" (JDict [])) as [alerts|] eqn:Ha;
        [|discriminate].
      destruct (get alerts "unauthorized_remove" (JBool false)) as [alert|] eqn:Hu;
        [|discriminate].
      rewrite (alert_truthy device alerts alert Ha Hu).
      destruct (carries_alert device) eqn:Hc.
      * destruct (get device "name" (JStr "Unknown")) as [name|] eqn:Hn;
          [|discriminate].
        intros Hrest. apply IH in Hrest as [[-> Hnone] | (Ht & d & dev & Hin & H)].
        -- right. split; [reflexivity|]. exists id, device. auto.
        -- right. split; [exact Ht|]. exists d, dev. auto.
      * intros Hrest. apply IH in Hrest as [[-> Hnone] | (Ht & d & dev & Hin & H)].
        -- left. split; [reflexivity|].
           intros d dev [<- | Hin] Hd; [congruence | eauto].
        -- right. split; [exact Ht|]. exists d, dev. auto.
    + intros Hrest. apply IH in Hrest as [[-> Hnone] | (Ht & d & dev & Hin & H)].
      * left. split; [reflexivity|].
        intros d dev [<- | Hin] Hd; [congruence | eauto].
      * right. split; [exact Ht|]. exists d, dev. auto.
Qed.







(** 93 s are 1.55 min; the binary64 nearest to 1.55 lies above it, and the
    rounding gives 1.6. *)
Example ninety_three_seconds :
  int_truediv 93 60 = Return (S754_finite false 6980579422424269 (-52)) /\
  round1 (S754_finite false 6980579422424269 (-52))
  = S754_finite false 7205759403792794 (-52).
Proof. split; reflexivity. Qed.

(** The history of a call that reaches the loop extends the history before
    the call. *)
Lemma prelude_history E s0 li s1 :
  get_data_prelude E s0 = (Return (Some li), s1) ->
  exists new, history s1 = (new ++ history s0)%list.
Proof.
  intros Hpre.
  apply prelude_loop_inputs in Hpre
    as (sL & account_data & account_id & HL & _ & _ & _ & Hh & _).
  apply login_frame in HL as (_ & _ & _ & newL & HhL & _).
  rewrite Hh. unfold after_profiles, after_devices, after_account.
  rewrite HhL. eexists (_ :: _ :: _ :: newL). reflexivity.
Qed.

(** A snapshot that [get_data] returns was stored for a profile of the
    response; its rules and summary exchanges belong to this call. *)
Lemma get_data_snapshot E s li s1 d k pd :
  get_data_prelude E (entry_state s) = (Return (Some li), s1) ->
  fst (get_data E s) = Return d ->
  dict_find k d = Some pd ->
  exists profiles p sa pd0 new,
    iter (li_profiles_data li) = Return profiles /\ In p profiles /\
    stored_by E (li_token li) (li_devices li) (li_dow li) p sa k pd0 pd /\
    self sa = self s1 /\
    history (snd (get_data E s)) = (new ++ history s)%list /\
    In (rules_request (li_token li) pd0 sa, rules_outcome E (li_token li) pd0 sa)
       new /\
    In (summary_request E (li_token li) pd0 sa,
        summary_outcome E (li_token li) pd0 sa) new.
Proof.
  intros Hpre Hd Hk.
  destruct (get_data_entries E s li s1 d Hpre Hd k pd Hk)
    as (profiles & p & sa & pd0 & old & new & Hit & Hp & Hst & Hself & Hold & Hnew).
  destruct (prelude_history E _ li s1 Hpre) as [pnew Hpnew].
  exists profiles, p, sa, pd0,
    (new ++ [(summary_request E (li_token li) pd0 sa,
              summary_outcome E (li_token li) pd0 sa);
             (rules_request (li_token li) pd0 sa,
              rules_outcome E (li_token li) pd0 sa)] ++ old ++ pnew)%list.
  split; [exact Hit|]. split; [exact Hp|]. split; [exact Hst|].
  split; [exact Hself|]. split.
  - rewrite Hnew. unfold after_summary, after_rules. rewrite Hold, Hpnew.
    cbn [history entry_state with_self clear_data].
    rewrite <- !app_assoc. reflexivity.
  - split; apply in_or_app; right; simpl; auto.
Qed.

(** What the flags of a snapshot say about the devices of the profile. *)
Lemma snapshot_tamper devices profile pd :
  snapshot devices profile = Return pd ->
  exists device_ids,
    rbind (get profile "device_ids" (JList [])) iter = Return device_ids /\
    (pd_unauthorized_remove pd = true <->
     exists d device, In d device_ids /\ dict_find d devices = Some device /\
                      carries_alert device = true) /\
    (pd_unauthorized_remove pd = false -> pd_device_tampered pd = JNull) /\
    (pd_unauthorized_remove pd = true ->
     exists d device, In d device_ids /\ dict_find d devices = Some device /\
                      carries_alert device = true /\
                      get device "name" (JStr "Unknown")
                      = Return (pd_device_tampered pd)).
Proof.
  intros Hsnap.
  apply snapshot_fields in Hsnap as (device_ids & flags & Hids & Hc & Hflag & Hname).
  exists device_ids. split; [exact Hids|]. rewrite Hflag, Hname.
  apply check_removal_spec in Hc
    as [[-> Hnone] | (Ht & d & device & Hin & Hd & Hal & Hn)]; cbn [fst snd].
  - split; [|split]; try discriminate; trivial.
    split; [discriminate|].
    intros (d & device & Hin & Hd & Hal). rewrite (Hnone d device Hin Hd) in Hal.
    discriminate.
  - rewrite Ht. split; [|split].
    + split; [intros _|trivial]. now exists d, device.
    + discriminate.
    + intros _. now exists d, device.
Qed.

(** ** Readable entries *)

Section Readable.
Variable devices : pydict json.

Lemma check_removal_ok ids : forall flags flags',
  check_removal devices ids flags = Return flags' ->
  forallb (device_ref_ok devices) ids = true.
Proof.
  induction ids as [|id rest IH]; intros flags flags'; simpl; trivial.
  unfold device_ref_ok at 1, dict_contains.
  destruct (hashable id); [|discriminate]. cbn [andb].
  destruct (dict_find id devices) as [device|]; [|now apply IH].
  destruct device as [ | | | | | |fields]; try discriminate.
  unfold absent_or_dict. cbn [get].
  destruct (assoc "alerts" fields) as [alerts|].
  - destruct alerts as [ | | | | | |alerts]; try discriminate. cbn [get].
    destruct (assoc "unauthorized_remove" alerts) as [alert|].
    + destruct (truthy alert); [|now apply IH].
      destruct (assoc "name" fields); now apply IH.
    + cbn [truthy]. now apply IH.
  - cbn [get assoc truthy]. now apply IH.
Qed.

Lemma current_device_ok_iff is_online device_id :
  current_device_ok devices is_online device_id = true <->
  exists current_device,
    (if truthy is_online && truthy device_id then
       known <~ dict_contains device_id devices ;;
       if known then
         match dict_find device_id devices with
         | Some device => get device "name" JNull
         | None => Raise KeyError
         end
       else Return JNull
     else Return JNull) = Return current_device.
Proof.
  unfold current_device_ok, dict_contains, rbind.
  destruct (truthy is_online && truthy device_id); [|split; eauto].
  destruct (hashable device_id); cbn [andb];
    [|split; [discriminate|intros [c [=]]]].
  destruct (dict_find device_id devices) as [[ | | | | | |fields]|];
    try (split; [discriminate|intros [c [=]]]); try (split; eauto).
  intros _. apply get_dict.
Qed.

(** A readable entry has a snapshot that can be stored under its [id]. *)
Lemma readable_snapshot profile :
  readable devices profile = true ->
  exists pd, snapshot devices profile = Return pd /\
             pd_id pd = profile_id profile /\ hashable (pd_id pd) = true.
Proof.
  unfold readable, profile_id.
  destruct profile as [ | | | | | |items]; try discriminate.
  cbn [getitem].
  destruct (assoc "id" items) as [id|] eqn:Hid; try discriminate.
  destruct (assoc "name" items) as [name|] eqn:Hname; try discriminate.
  intros H. apply andb_true_iff in H as [H Hstatus].
  apply andb_true_iff in H as [Hh Hids].
  assert (exists v ids, get (JDict items) "device_ids" (JList []) = Return v /\
                        iter v = Return ids /\
                        forallb (device_ref_ok devices) ids = true)
    as (v & ids & Hdi & Hit & Hok).
  { cbn [get]. destruct (assoc "device_ids" items) as [v|].
    - destruct (iter v) as [ids|] eqn:Hit; try discriminate. eauto.
    - exists (JList []), []. auto. }
  assert (exists status location device_id is_online,
             get (JDict items) "status" (JDict []) = Return (JDict status) /\
             get (JDict status) "is_online" (JBool false) = Return is_online /\
             get (JDict status) "location" (JDict []) = Return (JDict location) /\
             get (JDict location) "device" JNull = Return device_id /\
             current_device_ok devices is_online device_id = true)
    as (status & location & device_id & is_online & Hst & Hon & Hloc & Hdev & Hcd).
  { cbn [get]. destruct (assoc "status" items) as [[ | | | | | |status]|];
      try discriminate.
    - exists status.
      destruct (assoc "location" status) as [[ | | | | | |location]|];
        try discriminate.
      + exists location. cbn [get].
        destruct (assoc "device" location) as [d|].
        * exists d. destruct (assoc "is_online" status); eauto 7.
        * exists JNull. destruct (assoc "is_online" status) as [o|].
          -- exists o. repeat split. unfold current_device_ok.
             now rewrite andb_false_r.
          -- exists (JBool false). repeat split.
      + exists [], JNull. destruct (assoc "is_online" status) as [o|].
        * exists o. repeat split. unfold current_device_ok.
          now rewrite andb_false_r.
        * exists (JBool false). repeat split.
    - exists [], [], JNull, (JBool false). repeat split. }
  apply current_device_ok_iff in Hcd as [cd Hcd].
  unfold snapshot. cbn [getitem]. rewrite Hid, Hname. cbn [rbind].
  destruct (get_dict items "uid" id) as [uid ->]. cbn [rbind].
  rewrite Hst. cbn [rbind]. rewrite Hon. cbn [rbind].
  rewrite Hdi. cbn [rbind]. rewrite Hit. cbn [rbind].
  destruct (check_removal_returns devices ids (false, JNull) Hok) as [flags ->].
  cbn [rbind]. rewrite Hloc. cbn [rbind]. rewrite Hdev. cbn [rbind].
  rewrite Hcd. cbn [rbind].
  destruct (get_dict location "latitude" JNull) as [latitude ->]. cbn [rbind].
  destruct (get_dict location "longitude" JNull) as [longitude ->]. cbn [rbind].
  destruct (get_dict location "accuracy" (JInt 0)) as [accuracy ->]. cbn [rbind].
  destruct (get_dict status "lastseen" JNull) as [lastseen ->]. cbn [rbind].
  eexists. split; [reflexivity|]. split; [reflexivity | exact Hh].
Qed.

(** Conversely, an entry whose snapshot exists and can be stored is
    readable. *)
Lemma snapshot_readable profile pd :
  snapshot devices profile = Return pd -> hashable (pd_id pd) = true ->
  readable devices profile = true.
Proof.
  unfold snapshot, rbind. intros H Hh.
  destruct (getitem profile "name") as [name|] eqn:Hname; [|discriminate].
  destruct (getitem profile "id") as [id|] eqn:Hid; [|discriminate].
  destruct (get profile "uid" id) as [uid|] eqn:Huid; [|discriminate].
  destruct (get profile "status" (JDict [])) as [status|] eqn:Hst; [|discriminate].
  destruct (get status "is_online" (JBool false)) as [is_online|] eqn:Hon;
    [|discriminate].
  destruct (get profile "device_ids" (JList [])) as [v|] eqn:Hdi; [|discriminate].
  destruct (iter v) as [ids|] eqn:Hit; [|discriminate].
  destruct (check_removal devices ids (false, JNull)) as [flags|] eqn:Hc;
    [|discriminate].
  destruct (get status "location" (JDict [])) as [location|] eqn:Hloc;
    [|discriminate].
  destruct (get location "device" JNull) as [device_id|] eqn:Hdev; [|discriminate].
  match type of H with
  | match ?x with Return _ => _ | Raise _ => _ end = _ =>
      destruct x as [current|] eqn:Hcur; [|discriminate]
  end.
  destruct (get location "latitude" JNull); [|discriminate].
  destruct (get location "longitude" JNull); [|discriminate].
  destruct (get location "accuracy" (JInt 0)); [|discriminate].
  destruct (get status "lastseen" JNull); [|discriminate].
  injection H as <-. cbn [pd_id] in Hh.
  assert (current_device_ok devices is_online device_id = true) as Hcd
    by (apply current_device_ok_iff; unfold rbind; eauto).
  apply check_removal_ok in Hc.
  destruct profile as [ | | | | | |items]; try discriminate Hname.
  cbn [getitem get] in Hname, Hid, Hst, Hdi. unfold readable.
  destruct (assoc "id" items) as [id'|]; [|discriminate Hid].
  injection Hid as ->.
  destruct (assoc "name" items); [|discriminate Hname].
  rewrite Hh. cbn [andb].
  apply andb_true_iff. split.
  - destruct (assoc "device_ids" items) as [v'|].
    + injection Hdi as ->. now rewrite Hit.
    + reflexivity.
  - destruct (assoc "status" items) as [status'|]; [|reflexivity].
    injection Hst as ->.
    destruct status as [ | | | | | |status]; try discriminate Hon.
    cbn [get] in Hon, Hloc.
    destruct (assoc "location" status) as [location'|]; [|reflexivity].
    injection Hloc as ->.
    destruct location as [ | | | | | |location]; try discriminate Hdev.
    cbn [get] in Hdev.
    destruct (assoc "device" location) as [d|]; [|reflexivity].
    injection Hdev as ->.
    destruct (assoc "is_online" status); injection Hon as ->; exact Hcd.
Qed.

End Readable.

(** The loop body completes on exactly the readable entries. *)
Lemma process_profile_readable E token devices dow profile s :
  readable devices profile = true <->
  exists s', process_profile E token devices dow profile s = (Return tt, s').
Proof.
  rewrite process_profile_run. split.
  - intros H. apply readable_snapshot in H as (pd & -> & _ & ->). eauto.
  - intros [s' H].
    destruct (snapshot devices profile) as [pd|e] eqn:Hsnap; [|discriminate].
    destruct (hashable (pd_id pd)) eqn:Hh; [|discriminate].
    now apply (snapshot_readable devices profile pd).
Qed.

Lemma store_keys_length ids : forall keys,
  (List.length (store_keys keys ids) <= List.length keys + List.length ids)%nat.
Proof.
  induction ids as [|id rest IH]; intros keys; unfold store_keys; simpl; [lia|].
  fold (store_keys (if fresh id keys then (keys ++ [id])%list else keys) rest).
  specialize (IH (if fresh id keys then (keys ++ [id])%list else keys)).
  destruct (fresh id keys); [rewrite length_app in IH; simpl in IH|]; lia.
Qed.

(** Storing keeps every identifier only when they are pairwise distinct. *)
Lemma store_keys_full ids : forall keys,
  List.length (store_keys keys ids) = (List.length keys + List.length ids)%nat ->
  distinct ids = true /\ forall k, In k ids -> fresh k keys = true.
Proof.
  induction ids as [|id rest IH]; intros keys; unfold store_keys; simpl.
  - intros _. split; [reflexivity | intros k []].
  - fold (store_keys (if fresh id keys then (keys ++ [id])%list else keys) rest).
    pose proof (store_keys_length rest
                  (if fresh id keys then (keys ++ [id])%list else keys)) as Hle.
    destruct (fresh id keys) eqn:Hf.
    + intros Hlen. destruct (IH (keys ++ [id])%list) as [Hd Hall].
      { rewrite Hlen, length_app. simpl. lia. }
      assert (forall k, In k rest -> fresh k keys = true /\ key_eqb k id = false)
        as Hrest.
      { intros k Hk. specialize (Hall k Hk). rewrite fresh_app in Hall.
        apply andb_true_iff in Hall as [H1 H2]. split; [exact H1|].
        simpl in H2. now destruct (key_eqb k id). }
      split.
      * apply andb_true_iff. split; [|exact Hd].
        unfold fresh. apply forallb_forall. intros k Hk.
        rewrite key_eqb_sym. now rewrite (proj2 (Hrest k Hk)).
      * intros k [<- | Hk]; [exact Hf | apply (Hrest k Hk)].
    + intros Hlen. lia.
Qed.

(** The keys after the loop: those of the entries before the first one that
    is not readable. *)
Lemma loop_readable E token devices dow profiles : forall s r s',
  for_each (process_profile E token devices dow) profiles s = (r, s') ->
  (forallb (readable devices) profiles = true /\
   dict_keys (data s') = store_keys (dict_keys (data s)) (map profile_id profiles))
  \/
  (exists done p rest,
     profiles = (done ++ p :: rest)%list /\ readable devices p = false /\
     dict_keys (data s') = store_keys (dict_keys (data s)) (map profile_id done)).
Proof.
  induction profiles as [|p rest IH]; intros s r s'; simpl.
  - intros [= <- <-]. left. split; reflexivity.
  - unfold bind.
    destruct (readable devices p) eqn:Hp.
    + destruct (readable_snapshot devices p Hp) as (pd & Hsnap & Hid & Hh).
      rewrite process_profile_run, Hsnap, Hh. intros Hrest.
      apply IH in Hrest as [[Hall Hkeys] | (done & q & rest' & -> & Hq & Hkeys)];
        cbn [data] in Hkeys; rewrite dict_keys_set, Hid in Hkeys.
      * left. split; [exact Hall | exact Hkeys].
      * right. exists (p :: done), q, rest'. repeat split; auto.
    + destruct (process_profile E token devices dow p s) as [[[]|e] sp] eqn:Hrun.
      * assert (readable devices p = true)
          by (apply (process_profile_readable E token devices dow p s); eauto).
        congruence.
      * intros [= <- <-]. right. exists [], p, rest. repeat split; auto.
        apply process_profile_Raise in Hrun as (_ & -> & _). reflexivity.
Qed.

(** * The claims *)

(** C1 (amended): when the profiles response is fetched and is a list, the
    keys of the mapping that [get_data] returns are exactly the identifiers
    of its entries, in order, if and only if every entry is readable and the
    identifiers are pairwise distinct, whatever the devices, rules and
    summary exchanges do; the loop body completes on exactly the readable
    entries. *)
Theorem get_data_keys (E : env) (s s1 : state) (li : loop_inputs)
    (profiles : list json) :
  get_data_prelude E (entry_state s) = (Return (Some li), s1) ->
  li_profiles_data li = JList profiles ->
  exists d,
    fst (get_data E s) = Return d /\
    (dict_keys d = map profile_id profiles <->
     forallb (readable (li_devices li)) profiles = true /\
     distinct (map profile_id profiles) = true) /\
    (forall profile sa,
       readable (li_devices li) profile = true <->
       exists sb,
         process_profile E (li_token li) (li_devices li) (li_dow li) profile sa
         = (Return tt, sb)).
Proof.
  intros Hpre Hlist.
  rewrite get_data_run, Hpre. cbv zeta.
  rewrite (profiles_loop_list E li profiles s1 Hlist).
  destruct (for_each _ profiles s1) as [r s2] eqn:Hloop.
  exists (data s2). cbn [snd fst]. split; [reflexivity|].
  split; [|intros profile sa; apply process_profile_readable].
  apply prelude_frame in Hpre as [Hdata _].
  cbn [entry_state with_self clear_data data] in Hdata.
  apply loop_readable in Hloop
    as [[Hall Hkeys] | (done & p & rest & -> & Hp & Hkeys)];
    rewrite Hdata in Hkeys; cbn [dict_keys map] in Hkeys; rewrite Hkeys.
  - split.
    + intros Heq. split; [exact Hall|].
      apply (store_keys_full (map profile_id profiles) []).
      now rewrite Heq.
    + intros [_ Hdist]. now apply store_keys_distinct.
  - split.
    + intros Heq. exfalso.
      pose proof (store_keys_length (map profile_id done) []) as Hle.
      rewrite Heq in Hle. rewrite !length_map, length_app in Hle.
      simpl in Hle. lia.
    + intros [Hall _]. rewrite forallb_app in Hall.
      apply andb_true_iff in Hall as [_ Hall]. simpl in Hall.
      rewrite Hp in Hall. discriminate.
Qed.

(** Two entries outside the narrower shape of [well_formed] are read to the
    end and stored, next to a device whose [alerts] is [null] that neither
    refers to. *)
Lemma get_data_keys_witness :
  exists d, fst (get_data loose start) = Return d /\
            dict_keys d = [JInt 1; JInt 2].
Proof.
  destruct (get_data_keys loose start
              (snd (get_data_prelude loose (entry_state start)))
              {| li_token := JStr "tok";
                 li_devices := [(JInt 7, phone_null_alerts)];
                 li_profiles_data := JList [loose_kid; offline_teen];
                 li_dow := "mon" |}
              [loose_kid; offline_teen])
    as (d & Hd & Hkeys & _).
  - lazy. reflexivity.
  - reflexivity.
  - exists d. split; [exact Hd|]. apply Hkeys. split; reflexivity.
Defined.

(** C1 as stated fails: the devices request succeeds, the profiles response
    holds one profile with the identifier 1, and [get_data] returns a mapping
    without it, because the profile refers to a device whose [alerts] is
    [null]. *)
Lemma get_data_drops_profile :
  let E := scripted (service (ok (JList [phone_null_alerts])) (ok (JList [kid]))
                             (Response 404 None) (Response 500 None)) in
  (exists li s1,
     get_data_prelude E (entry_state start) = (Return (Some li), s1) /\
     li_profiles_data li = JList [kid] /\ map profile_id [kid] = [JInt 1]) /\
  fst (get_data E start) = Return [].
Proof.
  split.
  - do 2 eexists. split; [lazy; reflexivity|]. split; reflexivity.
  - vm_compute. reflexivity.
Qed.

(** C2: when [login] does not return OK, or the account request is answered
    with another status than 200, or the profiles request is answered with
    another status than 200, [get_data] returns the empty mapping; it
    returns, it does not raise. *)
Theorem get_data_early_failure (E : env) (s : state) :
  fst (login E (entry_state s)) <> Return LOGIN_RESULT_OK \/
  (exists new token status body,
     history (snd (get_data E s)) = (new ++ history s)%list /\
     In (GetAccount token, Response status body) new /\ status <> 200) \/
  (exists new token account_id status body,
     history (snd (get_data E s)) = (new ++ history s)%list /\
     In (GetProfiles token account_id, Response status body) new /\
     status <> 200) ->
  fst (get_data E s) = Return [].
Proof.
  intros H.
  destruct (get_data_prelude E (entry_state s)) as [r s1] eqn:Hpre.
  assert (data s1 = []) as Hdata
    by (apply prelude_frame in Hpre as [-> _]; reflexivity).
  destruct r as [[li|]|e];
    try (rewrite get_data_run, Hpre; simpl; now rewrite Hdata).
  exfalso.
  destruct (get_data_exchanges E s li s1 Hpre)
    as (sL & account_id & account_data & loop_new & login_new
        & HL & Hh & Hfl & HfL).
  assert (forall new r o,
             history (snd (get_data E s)) = (new ++ history s)%list ->
             In (r, o) new ->
             per_profile r = true \/ is_login r = true \/
             (r, o) = (profiles_request sL account_id,
                       Response 200 (Some (li_profiles_data li))) \/
             (r, o) = (devices_request sL account_id,
                       devices_outcome E sL account_id) \/
             (r, o) = (account_request sL, Response 200 (Some account_data)))
    as Hin.
  { intros new r o Hnew Hi. rewrite Hh in Hnew.
    change (?a :: ?b :: ?c :: login_new ++ history s)%list
      with ([a; b; c] ++ login_new ++ history s)%list in Hnew.
    rewrite !app_assoc in Hnew. apply app_inv_tail in Hnew. subst new.
    rewrite !in_app_iff in Hi. rewrite Forall_forall in Hfl, HfL.
    destruct Hi as [[Hi | Hi] | Hi].
    - left. exact (Hfl _ Hi).
    - simpl in Hi. intuition auto.
    - right. left. exact (HfL _ Hi). }
  destruct H as [H | [H | H]].
  - apply H. now rewrite HL.
  - destruct H as (new & token & status & body & Hnew & Hi & Hne).
    destruct (Hin _ _ _ Hnew Hi) as [Hk | [Hk | [Hk | [Hk | Hk]]]];
      try discriminate.
    inversion Hk. now subst.
  - destruct H as (new & token & account & status & body & Hnew & Hi & Hne).
    destruct (Hin _ _ _ Hnew Hi) as [Hk | [Hk | [Hk | [Hk | Hk]]]];
      try discriminate.
    inversion Hk. now subst.
Qed.

Lemma get_data_early_failure_witness :
  fst (get_data (scripted (service TimedOut (Response 503 None)
                                   TimedOut TimedOut)) start) = Return [].
Proof.
  apply get_data_early_failure. right. right.
  exists [(GetProfiles (JStr "tok") (JInt 42), Response 503 None);
          (GetDevices (JStr "tok") (JInt 42), TimedOut);
          (GetAccount (JStr "tok"),
           Response 200 (Some (JDict [("id", JInt 42)])));
          (PostLogin "parent" "secret",
           Response 200
             (Some (JDict [("access_token", JStr "tok");
                           ("expires_in", JInt 3600)])))],
    (JStr "tok"), (JInt 42), 503, None.
  split; [vm_compute; reflexivity|].
  split; [left; reflexivity | lia].
Defined.

(** C3 (amended): when [login] performs the authentication request, it
    returns UNAUTHORIZED exactly when the status is 401; it returns ERROR on
    a timeout, on a transport failure, on any other status than 200, on a
    200 response whose body lacks the [access_token] field, and on a 200
    response whose [expires_in] gives no representable expiry (it is no
    number, it is NaN or infinite, or its [timedelta] or the sum with the
    current time is out of range); it returns OK exactly on a 200 response
    carrying [access_token] and a lifetime with a representable expiry: an
    integer or a finite float number of seconds, the float counted to the
    microsecond, 3600 s when [expires_in] is absent. *)
Theorem login_classification (E : env) (s : state) :
  token_fresh (self s) (clock E (history s)) = false ->
  let o := login_outcome E s in
  let t := clock E (after_login_exchange E s) in
  let r := fst (login E s) in
  (r = Return LOGIN_RESULT_UNAUTHORIZED <-> exists body, o = Response 401 body) /\
  (o = TimedOut \/ o = TransportFailure \/
   (exists status body, o = Response status body /\ status <> 401 /\ status <> 200) \/
   (exists body, o = Response 200 body /\ ~ has_field "access_token" body) \/
   (exists items, o = Response 200 (Some (JDict items)) /\
      forall usec, lifetime items = Some usec -> ~ representable_usec t usec)
   -> r = Return LOGIN_RESULT_ERROR) /\
  (r = Return LOGIN_RESULT_OK <->
   exists items token usec,
     o = Response 200 (Some (JDict items)) /\
     assoc "access_token" items = Some token /\
     lifetime items = Some usec /\ representable_usec t usec) /\
  (forall items v,
     assoc "expires_in" items = Some v -> no_lifetime v -> lifetime items = None).
Proof.
  intros Hstale o t r. subst r. rewrite (login_stale E s Hstale).
  fold o. fold t. clearbody o t.
  split; [|split; [|split]].
  4:{ intros items v Hv Hno. unfold lifetime. rewrite Hv.
      destruct v as [ | b | z | [ | | | ] | str | l | d ];
        try destruct Hno; reflexivity. }
  - destruct o as [| |status body];
      try (split; [discriminate | intros [b Hb]; discriminate]).
    destruct (status =? 401) eqn:H401.
    + apply Z.eqb_eq in H401. subst status. split; eauto.
    + apply Z.eqb_neq in H401.
      assert ((exists b, Response status body = Response 401 b) -> False) as Hno.
      { intros [b [= -> _]]. now apply H401. }
      repeat match goal with
             | |- context [match ?x with _ => _ end] => destruct x
             end;
        (split; [discriminate | intros H; destruct (Hno H)]).
  - destruct o as [| |status body]; try reflexivity.
    destruct (status =? 401) eqn:H401.
    { apply Z.eqb_eq in H401. subst status.
      intros [H|[H|[H|[H|H]]]]; try discriminate.
      - destruct H as (st & b & [= <- <-] & Hne & _). now elim Hne.
      - destruct H as (b & [=] & _).
      - destruct H as (i & [=] & _). }
    destruct (status =? 200) eqn:H200; cbn [negb]; cbv iota; [|reflexivity].
    apply Z.eqb_eq in H200. subst status.
    destruct body as [[ | b | z | fl | str | l | items ]|]; try reflexivity.
    destruct (assoc "access_token" items) as [token|] eqn:Htok; [|reflexivity].
    destruct (new_expiry t items) as [x|] eqn:Hx; [|reflexivity].
    apply new_expiry_lifetime in Hx as (usec & Hl & Hr & ->).
    intros [H|[H|[H|[H|H]]]]; try discriminate.
    + destruct H as (st & b & [= <- <-] & _ & Hne). now elim Hne.
    + destruct H as (b & [= <-] & Hno). elim Hno. now exists items, token.
    + destruct H as (i & [= <-] & Hno). now elim (Hno usec Hl).
  - destruct o as [| |status body];
      try (split; [discriminate | intros (i & k & n & Hb & _); discriminate]).
    destruct (status =? 401) eqn:H401.
    { apply Z.eqb_eq in H401. subst status.
      split; [discriminate | intros (i & k & n & [=] & _)]. }
    destruct (status =? 200) eqn:H200; cbn [negb]; cbv iota.
    2:{ apply Z.eqb_neq in H200.
        split; [discriminate | intros (i & k & n & [= -> _] & _); now elim H200]. }
    apply Z.eqb_eq in H200. subst status.
    destruct body as [[ | b | z | fl | str | l | items ]|];
      try (split; [discriminate | intros (i & k & n & [=] & _)]).
    destruct (assoc "access_token" items) as [token|] eqn:Htok.
    2:{ split; [discriminate | intros (i & k & n & [= <-] & Hk & _); congruence]. }
    destruct (new_expiry t items) as [x|] eqn:Hx.
    + apply new_expiry_lifetime in Hx as (usec & Hl & Hr & ->).
      split; [intros _; now exists items, token, usec | reflexivity].
    + split; [discriminate|].
      intros (i & k & usec & [= <-] & _ & Hl & Hr).
      exfalso. apply (proj1 (new_expiry_no_representable t items) Hx usec Hl Hr).
Qed.

(** A float lifetime is accepted: 3600.5 s after the exchange. *)
Lemma login_classification_witness :
  let E := scripted (token_reply lifetime_as_float) in
  fst (login E start) = Return LOGIN_RESULT_OK /\
  _expires_in (self (snd (login E start)))
  = Some (monday + 1 * usec_per_sec + 3600500000).
Proof.
  cbv zeta. split; [|vm_compute; reflexivity].
  destruct (login_classification (scripted (token_reply lifetime_as_float)) start)
    as (_ & _ & Hok & _).
  - reflexivity.
  - apply Hok. exists lifetime_as_float, (JStr "new"), 3600500000.
    split; [reflexivity|]. split; [reflexivity|]. split; [reflexivity|].
    repeat split; vm_compute; first [reflexivity | discriminate].
Defined.

(** C3 as stated fails: the response has status 200 and carries the
    [access_token] field, and [login] returns ERROR, not OK, because
    [expires_in] is a string. *)
Lemma login_rejects_string_lifetime :
  let E := scripted (token_reply lifetime_as_string) in
  token_fresh (self start) (clock E (history start)) = false /\
  login_outcome E start = Response 200 (Some (JDict lifetime_as_string)) /\
  has_field "access_token" (Some (JDict lifetime_as_string)) /\
  fst (login E start) = Return LOGIN_RESULT_ERROR.
Proof.
  repeat split. now exists lifetime_as_string, (JStr "new").
Qed.

(** C4: with a cached token whose expiry lies strictly after the current
    time, [login] returns OK and leaves the whole state as it was: no
    exchange joins the history, and the token and the expiry are unchanged. *)
Theorem login_cached_token (E : env) (s : state) (expiry : Z) :
  _access_token (self s) <> JNull ->
  _expires_in (self s) = Some expiry ->
  clock E (history s) < expiry ->
  login E s = (Return LOGIN_RESULT_OK, s).
Proof.
  intros Ht He Hlt. apply login_fresh. apply token_fresh_true. eauto.
Qed.

Lemma login_cached_token_witness :
  login (scripted (token_reply [])) (holding (monday + 1))
  = (Return LOGIN_RESULT_OK, holding (monday + 1)).
Proof.
  apply (login_cached_token (scripted (token_reply [])) (holding (monday + 1))
           (monday + 1)).
  - simpl. discriminate.
  - reflexivity.
  - vm_compute. reflexivity.
Defined.

(** C5 fails on the code: a 200 response with an [access_token] and a
    lifetime that [timedelta] rejects makes [login] return ERROR after the
    cached token has been overwritten; the expiry is left as it was. *)
Theorem login_error_overwrites_token :
  let E := scripted (token_reply lifetime_as_string) in
  let s := holding (monday - 1) in
  let s' := snd (login E s) in
  fst (login E s) = Return LOGIN_RESULT_ERROR /\
  _access_token (self s) = JStr "old" /\
  _access_token (self s') = JStr "new" /\
  _expires_in (self s') = _expires_in (self s).
Proof. vm_compute. repeat split. Qed.





(** C8 (amended): at the end of every call of [get_data] the session
    attribute is unset.  The account identifier and UID are not reset: they
    are the previous ones, or those read from the 200 account response of
    this call (the UID defaulting to the identifier). *)
Theorem get_data_resets_session (E : env) (s : state) :
  let c' := self (snd (get_data E s)) in
  _session c' = false /\
  (same_account (self s) c' \/
   exists new token account_data,
     history (snd (get_data E s)) = (new ++ history s)%list /\
     In (GetAccount token, Response 200 (Some account_data)) new /\
     getitem account_data "id" = Return (_account_id c') /\
     get account_data "uid" (_account_id c') = Return (_account_uid c')).
Proof.
  cbv zeta. rewrite get_data_run.
  destruct (get_data_prelude E (entry_state s)) as [r s1] eqn:Hpre.
  assert (forall s2,
             self s2 = self s1 ->
             (exists new, history s2 = (new ++ history s1)%list) ->
             let c' := self (with_self (set_session false) s2) in
             same_account (self s) c' \/
             exists new token account_data,
               history (with_self (set_session false) s2)
               = (new ++ history s)%list /\
               In (GetAccount token, Response 200 (Some account_data)) new /\
               getitem account_data "id" = Return (_account_id c') /\
               get account_data "uid" (_account_id c') = Return (_account_uid c'))
    as Hacc.
  { intros s2 Hself [new2 Hh2]. cbn [with_self self history]. rewrite Hself.
    cbn [set_session _account_id _account_uid].
    destruct (prelude_account E _ _ _ Hpre)
      as [[Hi Hu] | (new & token & account_data & Hh & Hin & Hid & Huid)].
    - left. split; assumption.
    - right. exists (new2 ++ new)%list, token, account_data.
      rewrite Hh2, Hh, app_assoc. repeat split; trivial.
      apply in_or_app. now right. }
  destruct r as [[li|]|e]; cbn [snd];
    (split; [reflexivity|]).
  2,3: apply Hacc; [reflexivity | now exists []].
  apply Hacc.
  - unfold profiles_loop, bind, lift.
    destruct (iter (li_profiles_data li)) as [profiles|e]; [|reflexivity].
    destruct (for_each _ profiles s1) as [r2 s2] eqn:Hrun.
    now apply loop_history in Hrun as [Hs _].
  - unfold profiles_loop, bind, lift.
    destruct (iter (li_profiles_data li)) as [profiles|e].
    + destruct (for_each _ profiles s1) as [r2 s2] eqn:Hrun.
      apply loop_history in Hrun as [_ (new & Hn & _)]. now exists new.
    + now exists [].
Qed.

(** C8 as stated fails: after a successful call the account identifier and
    UID still hold the account 42. *)
Lemma get_data_keeps_account :
  let c' := self (snd (get_data degraded start)) in
  _account_id (self start) = JNull /\ _account_uid (self start) = JNull /\
  _account_id c' = JInt 42 /\ _account_uid c' = JInt 42.
Proof. vm_compute. repeat split. Qed.

(** C9: every snapshot of the mapping that [get_data] returns has
    [unauthorized_remove] set exactly when one of the devices listed in the
    [device_ids] of its profile is in the fetched device mapping with the
    unauthorized-removal alert; otherwise the flag is [False] and
    [device_tampered] is [None]; when the flag is set, [device_tampered] is
    the name of such a device (["Unknown"] for a device without a name). *)
Theorem tamper_detection (E : env) (s s1 : state) (li : loop_inputs)
    (d : pydict profile_data) (k : json) (pd : profile_data) :
  get_data_prelude E (entry_state s) = (Return (Some li), s1) ->
  fst (get_data E s) = Return d ->
  dict_find k d = Some pd ->
  exists profiles profile device_ids,
    iter (li_profiles_data li) = Return profiles /\
    In profile profiles /\
    getitem profile "id" = Return (pd_id pd) /\
    rbind (get profile "device_ids" (JList [])) iter = Return device_ids /\
    (pd_unauthorized_remove pd = true <->
     exists i device, In i device_ids /\
                      dict_find i (li_devices li) = Some device /\
                      carries_alert device = true) /\
    (pd_unauthorized_remove pd = false -> pd_device_tampered pd = JNull) /\
    (pd_unauthorized_remove pd = true ->
     exists i device, In i device_ids /\
                      dict_find i (li_devices li) = Some device /\
                      carries_alert device = true /\
                      get device "name" (JStr "Unknown")
                      = Return (pd_device_tampered pd)).
Proof.
  intros Hpre Hd Hk.
  destruct (get_data_snapshot E s li s1 d k pd Hpre Hd Hk)
    as (profiles & p & sa & pd0 & new & Hit & Hp & (Hsnap & _ & ->) & _).
  destruct (snapshot_tamper _ _ _ Hsnap) as (device_ids & Hids & Hflags).
  exists profiles, p, device_ids.
  cbn [with_usage pd_id pd_unauthorized_remove pd_device_tampered].
  split; [exact Hit|]. split; [exact Hp|].
  split; [now apply (snapshot_id (li_devices li))|].
  split; [exact Hids|]. exact Hflags.
Qed.

Lemma tamper_detection_witness :
  exists pd, dict_find (JInt 1) healthy_data = Some pd /\
             pd_unauthorized_remove pd = true /\
             pd_device_tampered pd = JStr "phone".
Proof.
  eexists. split; [vm_compute; reflexivity|].
  edestruct (tamper_detection healthy start healthy_loop_state healthy_inputs
               healthy_data (JInt 1))
    as (profiles & profile & device_ids & Hit & Hp & _ & Hids & Hiff & _).
  - vm_compute. reflexivity.
  - vm_compute. reflexivity.
  - vm_compute. reflexivity.
  - vm_compute in Hit. injection Hit as <-. destruct Hp as [<- | []].
    vm_compute in Hids. injection Hids as <-.
    assert (exists i device,
               In i [JInt 7] /\
               dict_find i (li_devices healthy_inputs) = Some device /\
               carries_alert device = true) as Hal.
    { exists (JInt 7), removed_phone. repeat split. now left. }
    apply Hiff in Hal. split; [exact Hal | reflexivity].
Defined.

(** C10 (amended): when an exception leaves the body of the loop on a profile
    after the profiles before it were processed, it is one of a malformed
    entry (the timeouts and transport failures of the rules and summary
    requests never leave the body), and [get_data] returns the mapping as
    those profiles left it: it holds each of them and nothing else, and the
    exception does not escape. *)
Theorem get_data_partial (E : env) (s s1 s2 s3 : state) (li : loop_inputs)
    (done rest : list json) (profile : json) (e : exn) :
  get_data_prelude E (entry_state s) = (Return (Some li), s1) ->
  iter (li_profiles_data li) = Return (done ++ profile :: rest)%list ->
  for_each (process_profile E (li_token li) (li_devices li) (li_dow li))
    done s1 = (Return tt, s2) ->
  process_profile E (li_token li) (li_devices li) (li_dow li) profile s2
    = (Raise e, s3) ->
  malformed e /\
  fst (get_data E s) = Return (data s2) /\
  (forall p, In p done ->
     exists id, getitem p "id" = Return id /\ dict_find id (data s2) <> None) /\
  (forall k, dict_find k (data s2) <> None ->
     exists p id, In p done /\ getitem p "id" = Return id /\ key_eqb k id = true).
Proof.
  intros Hpre Hiter Hdone Hraise.
  split; [now apply process_profile_raises in Hraise|].
  split; [|split].
  - rewrite get_data_run, Hpre. cbv zeta.
    unfold profiles_loop, bind, lift. rewrite Hiter.
    rewrite (for_each_partial _ done profile rest s1 s2 e s3 Hdone Hraise).
    cbn [snd fst]. f_equal.
    now apply process_profile_Raise in Hraise as (_ & Hd & _).
  - exact (proj2 (loop_stores E _ _ _ done s1 s2 Hdone)).
  - intros k Hk.
    destruct (loop_only E _ _ _ done s1 s2 Hdone k Hk) as [Hin | Hp]; trivial.
    apply prelude_frame in Hpre as [Hd _]. rewrite Hd in Hin. now elim Hin.
Qed.

Lemma get_data_partial_witness :
  exists d, fst (get_data second_malformed start) = Return d /\
            dict_keys d = [JInt 2].
Proof.
  edestruct (get_data_partial second_malformed start) with
    (done := [teen]) (rest := @nil json) (profile := nameless)
    as (_ & Hr & _ & _).
  - lazy. reflexivity.
  - reflexivity.
  - lazy. reflexivity.
  - lazy. reflexivity.
  - eexists. split; [exact Hr | reflexivity].
Defined.

(** C10 fails for a timeout: the rules request of the second profile times
    out after the snapshot of the first was stored, and [get_data] returns
    both snapshots, not the first alone. *)
Lemma get_data_survives_timeout :
  let run := get_data timeouts_in_loop start in
  nth_error (rev (history (snd run))) 6
  = Some (GetRules (JStr "tok") (JInt 42) (JInt 2), TimedOut) /\
  exists d, fst run = Return d /\ dict_keys d = [JInt 1; JInt 2].
Proof.
  split; [vm_compute; reflexivity|].
  eexists. split; vm_compute; reflexivity.
Qed.

(** * Further properties *)

(** ** The exchanges of [login] *)

(** [login] keeps the credentials, and the history is the one it found or
    has the login exchange added. *)
Lemma login_trace E s :
  _username (self (snd (login E s))) = _username (self s) /\
  _password (self (snd (login E s))) = _password (self s) /\
  (token_fresh (self s) (clock E (history s)) = true ->
   history (snd (login E s)) = history s) /\
  (token_fresh (self s) (clock E (history s)) = false ->
   history (snd (login E s)) = after_login_exchange E s).
Proof.
  destruct (token_fresh (self s) (clock E (history s))) eqn:Hf.
  - rewrite (login_fresh E s Hf). repeat split; discriminate.
  - rewrite (login_stale E s Hf). cbv zeta.
    repeat match goal with
           | |- context [match ?x with _ => _ end] => destruct x
           end; repeat split; discriminate.
Qed.

(** X1: [login] never raises.  Whatever the service answers (a timeout, a
    transport failure, a body that does not decode or has not the expected
    shape), the call returns one of the three result codes. *)
Theorem login_never_raises (E : env) (s : state) :
  exists r, fst (login E s) = Return r.
Proof. apply login_returns. Qed.


(** X3: [login] performs at most one exchange.  With a fresh token the
    history is unchanged; otherwise exactly one login request is added, and
    it carries the user name and the password given to the constructor,
    which [login] never changes. *)
Theorem login_single_request (E : env) (s : state) :
  let s' := snd (login E s) in
  let r := PostLogin (_username (self s)) (_password (self s)) in
  _username (self s') = _username (self s) /\
  _password (self s') = _password (self s) /\
  (token_fresh (self s) (clock E (history s)) = true ->
   history s' = history s) /\
  (token_fresh (self s) (clock E (history s)) = false ->
   history s' = (r, respond E (history s) r) :: history s).
Proof. cbv zeta. apply login_trace. Qed.

(** X4: a token obtained by [login] is reused.  After a call that returned
    OK the client holds an expiry, and as long as its token is not [None]
    and the clock is before that expiry, the next call returns OK without
    any exchange and leaves the client as it is. *)
Theorem login_reuses_token (E : env) (s s1 : state) :
  login E s = (Return LOGIN_RESULT_OK, s1) ->
  exists expiry,
    _expires_in (self s1) = Some expiry /\
    (_access_token (self s1) <> JNull ->
     clock E (history s1) < expiry ->
     login E s1 = (Return LOGIN_RESULT_OK, s1)).
Proof.
  intros HL.
  assert (exists expiry, _expires_in (self s1) = Some expiry) as [expiry He].
  { destruct (token_fresh (self s) (clock E (history s))) eqn:Hf.
    - rewrite (login_fresh E s Hf) in HL. injection HL as <-.
      apply token_fresh_true in Hf as (_ & expiry & He & _). eauto.
    - rewrite (login_stale E s Hf) in HL. cbv zeta in HL.
      repeat match type of HL with
             | context [match ?x with _ => _ end] => destruct x
             end; try discriminate.
      injection HL as <-. eexists. reflexivity. }
  exists expiry. split; [exact He|]. intros Ht Hc.
  apply login_fresh. apply token_fresh_true. eauto.
Qed.

Lemma login_reuses_token_witness :
  let E := scripted (token_reply [("access_token", JStr "tok")]) in
  let s1 := snd (login E start) in
  _access_token (self s1) = JStr "tok" /\
  history s1 = [(PostLogin "parent" "secret",
                 Response 200 (Some (JDict [("access_token", JStr "tok")])))] /\
  login E s1 = (Return LOGIN_RESULT_OK, s1).
Proof.
  cbv zeta. split; [reflexivity|]. split; [reflexivity|].
  destruct (login_reuses_token
              (scripted (token_reply [("access_token", JStr "tok")])) start
              (snd (login (scripted (token_reply [("access_token", JStr "tok")]))
                      start)))
    as (expiry & He & Hre).
  - reflexivity.
  - apply Hre; [discriminate|].
    vm_compute in He. injection He as <-. vm_compute. reflexivity.
Defined.

(** ** The requests of [get_data] *)

Lemma addressed_session b c r : addressed (set_session b c) r <-> addressed c r.
Proof. destruct r; reflexivity. Qed.

(** One profile adds no exchange, when its entry cannot be read, or its
    rules exchange followed by its summary exchange. *)
Lemma process_profile_trace E token devices dow profile s r s' :
  process_profile E token devices dow profile s = (r, s') ->
  self s' = self s /\
  ((history s' = history s /\ exists e, snapshot devices profile = Raise e) \/
   exists pd, snapshot devices profile = Return pd /\
              history s' = after_summary E token pd s).
Proof.
  rewrite process_profile_run.
  destruct (snapshot devices profile) as [pd|e].
  - destruct (hashable (pd_id pd)); intros [= <- <-];
      (split; [reflexivity|]); right; exists pd; split; reflexivity.
  - intros [= <- <-]. split; [reflexivity|]. left. split; [reflexivity|eauto].
Qed.

(** The exchanges of the loop carry the token handed to it and the account
    attributes of the client; none is a login. *)
Lemma loop_addressed E devices dow profiles : forall s r s',
  for_each (process_profile E (_access_token (self s)) devices dow) profiles s
  = (r, s') ->
  self s' = self s /\
  exists new,
    history s' = (new ++ history s)%list /\
    Forall (fun ev => addressed (self s) (fst ev) /\ is_login (fst ev) = false) new /\
    (List.length new <= 2 * List.length profiles)%nat.
Proof.
  induction profiles as [|p rest IH]; intros s r s'; simpl.
  - intros [= <- <-]. split; [reflexivity|]. exists []. repeat split; auto.
  - unfold bind.
    destruct (process_profile E (_access_token (self s)) devices dow p s)
      as [rp sp] eqn:Hp.
    apply process_profile_trace in Hp as (Hself & Hh).
    assert (exists new,
               history sp = (new ++ history s)%list /\
               Forall (fun ev => addressed (self s) (fst ev)
                                 /\ is_login (fst ev) = false) new /\
               (List.length new <= 2)%nat) as (new1 & Hn1 & Hf1 & Hl1).
    { destruct Hh as [[Hh _] | (pd & _ & Hh)].
      - exists []. repeat split; auto.
      - eexists [_; _]. split; [exact Hh|]. split; [|simpl; lia].
        repeat constructor. }
    destruct rp as [[]|e].
    + assert (_access_token (self s) = _access_token (self sp)) as -> by now rewrite Hself.
      intros Hrest. apply IH in Hrest as (Hs & new & Hn & Hf & Hl).
      rewrite Hself in Hs, Hf.
      split; [exact Hs|]. exists (new ++ new1)%list.
      split; [rewrite Hn, Hn1; apply app_assoc|].
      split; [|rewrite length_app; lia].
      apply Forall_app. split; assumption.
    + intros [= <- <-]. split; [exact Hself|]. exists new1.
      split; [exact Hn1|]. split; [exact Hf1|lia].
Qed.

(** The exchanges of [login] are addressed to every client that has the
    same credentials. *)
Lemma login_addressed E s r sL :
  login E s = (r, sL) ->
  exists new,
    history sL = (new ++ history s)%list /\
    Forall (fun ev => forall c, _username c = _username (self sL) ->
                                _password c = _password (self sL) ->
                                addressed c (fst ev)) new /\
    (token_fresh (self s) (clock E (history s)) = true -> new = []).
Proof.
  intros HL. destruct (login_trace E s) as (Hu & Hp & Hfresh & Hstale).
  rewrite HL in *. cbn [snd] in *.
  destruct (token_fresh (self s) (clock E (history s))).
  - exists []. split; [now apply Hfresh|]. split; [constructor|trivial].
  - eexists [_]. split; [now apply Hstale|]. split; [|discriminate].
    constructor; [|constructor]. intros c Hcu Hcp. cbn [fst addressed login_request].
    split; congruence.
Qed.

(** The exchanges of the statements before the loop are addressed to the
    client that they leave; with a fresh token none of them is a login. *)
Lemma prelude_addressed E s0 r s1 :
  get_data_prelude E s0 = (r, s1) ->
  (forall li, r = Return (Some li) -> li_token li = _access_token (self s1)) /\
  exists new,
    history s1 = (new ++ history s0)%list /\
    Forall (fun ev => addressed (self s1) (fst ev)) new /\
    (token_fresh (self s0) (clock E (history s0)) = true ->
     Forall (fun ev => is_login (fst ev) = false) new).
Proof.
  rewrite get_data_prelude_run.
  destruct (login E s0) as [rL sL] eqn:HL.
  apply login_addressed in HL as (newL & HhL & HfL & Hfresh).
  assert (forall c, _username c = _username (self sL) ->
                    _password c = _password (self sL) ->
                    Forall (fun ev => addressed c (fst ev)) newL) as HnewL.
  { intros c Hu Hp. eapply Forall_impl; [|exact HfL]. cbv beta. auto. }
  assert (token_fresh (self s0) (clock E (history s0)) = true ->
          Forall (fun ev => is_login (fst ev) = false) newL) as HnoL.
  { intros Hf. rewrite (Hfresh Hf). constructor. }
  destruct rL as [[]|e];
    try (intros [= <- <-]; split; [discriminate|]; exists newL;
         split; [exact HhL|]; split; [now apply HnewL|exact HnoL]).
  prelude_cases; intros [= <- <-];
    (split; [try discriminate|]);
    try (intros li [= <-]; reflexivity);
    unfold after_profiles, after_devices, after_account;
    cbn [history with_history with_self self]; rewrite HhL;
    first [ eexists (_ :: _ :: _ :: newL); split; [reflexivity|]
          | eexists (_ :: newL); split; [reflexivity|] ];
    (split; [|intros Hf; repeat constructor; now apply HnoL]);
    repeat (apply Forall_cons; [cbn; auto|]); now apply HnewL.
Qed.

(** The exchanges of one call of [get_data]. *)
Lemma get_data_trace E s :
  exists new,
    history (snd (get_data E s)) = (new ++ history s)%list /\
    Forall (fun ev => addressed (self (snd (get_data E s))) (fst ev)) new /\
    (token_fresh (self s) (clock E (history s)) = true ->
     Forall (fun ev => is_login (fst ev) = false) new).
Proof.
  rewrite get_data_run.
  destruct (get_data_prelude E (entry_state s)) as [r s1] eqn:Hpre.
  apply prelude_addressed in Hpre as (Htok & new & Hh & Hf & Hno).
  cbn [entry_state with_self clear_data self history set_session
       _access_token _expires_in] in Hh, Hno.
  assert (forall r' s',
             (r', s') = (Return (data s1), with_self (set_session false) s1) ->
             exists new,
               history (snd (r', s')) = (new ++ history s)%list /\
               Forall (fun ev => addressed (self (snd (r', s'))) (fst ev)) new /\
               (token_fresh (self s) (clock E (history s)) = true ->
                Forall (fun ev => is_login (fst ev) = false) new)) as Hearly.
  { intros r' s' [= -> ->]. exists new. cbn [snd with_self history self].
    split; [exact Hh|]. split; [|exact Hno].
    eapply Forall_impl; [|exact Hf]. intros ev. apply addressed_session. }
  destruct r as [[li|]|e]; try (now apply Hearly).
  cbv zeta. cbn [snd with_self history self].
  unfold profiles_loop, bind, lift.
  destruct (iter (li_profiles_data li)) as [profiles|e].
  - rewrite (Htok li eq_refl).
    destruct (for_each _ profiles s1) as [rl s2] eqn:Hloop.
    apply loop_addressed in Hloop as (Hself & newl & Hhl & Hfl & _).
    exists (newl ++ new)%list. cbn [snd]. rewrite Hhl, Hh, Hself.
    split; [apply app_assoc|]. split.
    + apply Forall_app. split.
      * eapply Forall_impl; [|exact Hfl]. intros ev [Ha _].
        now apply addressed_session.
      * eapply Forall_impl; [|exact Hf]. intros ev. apply addressed_session.
    + intros Hfresh. apply Forall_app. split; [|now apply Hno].
      eapply Forall_impl; [|exact Hfl]. now intros ev [_ Hl].
  - specialize (Hearly (Return (data s1)) (with_self (set_session false) s1) eq_refl).
    exact Hearly.
Qed.

(** X5: every request of a call of [get_data] is addressed to the client as
    the call leaves it.  A login request carries its credentials; the
    account, devices, profiles, rules and summary requests carry its access
    token as bearer token, and name its account id (its account uid for the
    summary) where the URL has one. *)
Theorem get_data_requests_addressed (E : env) (s : state) :
  exists new,
    history (snd (get_data E s)) = (new ++ history s)%list /\
    Forall (fun ev => addressed (self (snd (get_data E s))) (fst ev)) new.
Proof.
  destruct (get_data_trace E s) as (new & Hh & Hf & _). now exists new.
Qed.

(** X6: a call of [get_data] made while the cached token is fresh sends no
    login request. *)
Theorem get_data_fresh_token (E : env) (s : state) :
  token_fresh (self s) (clock E (history s)) = true ->
  exists new,
    history (snd (get_data E s)) = (new ++ history s)%list /\
    Forall (fun ev => is_login (fst ev) = false) new.
Proof.
  intros Hfresh. destruct (get_data_trace E s) as (new & Hh & _ & Hno).
  exists new. auto.
Qed.

Lemma get_data_fresh_token_witness :
  exists new,
    history (snd (get_data healthy (holding (monday + 3600 * usec_per_sec))))
    = (new ++ [])%list /\
    List.length new = 5%nat /\
    Forall (fun ev => is_login (fst ev) = false) new.
Proof.
  destruct (get_data_fresh_token healthy (holding (monday + 3600 * usec_per_sec)))
    as (new & Hh & Hf).
  - vm_compute. reflexivity.
  - exists new. split; [exact Hh|]. split; [|exact Hf].
    rewrite app_nil_r in Hh. rewrite <- Hh. vm_compute. reflexivity.
Defined.

(** The loop performs two exchanges for each profile that it completes, and
    at most two for the one at which it stops. *)
Lemma loop_count E token devices dow profiles : forall s r s',
  for_each (process_profile E token devices dow) profiles s = (r, s') ->
  exists new,
    history s' = (new ++ history s)%list /\
    Forall (fun ev => per_profile (fst ev) = true) new /\
    (List.length new <= 2 * List.length profiles)%nat /\
    (r = Return tt -> List.length new = (2 * List.length profiles)%nat).
Proof.
  induction profiles as [|p rest IH]; intros s r s'; simpl.
  - intros [= <- <-]. exists []. repeat split; auto.
  - unfold bind. rewrite process_profile_run.
    destruct (snapshot devices p) as [pd|e].
    + destruct (hashable (pd_id pd)).
      * intros Hrest. apply IH in Hrest as (new & Hh & Hf & Hle & Heq).
        cbn [history] in Hh.
        eexists (new ++ [_; _])%list. split.
        { rewrite Hh. unfold after_summary, after_rules.
          rewrite <- app_assoc. reflexivity. }
        split; [apply Forall_app; split; [exact Hf|repeat constructor]|].
        rewrite length_app. cbn [List.length].
        split; [lia|]. intros Hr. specialize (Heq Hr). lia.
      * intros [= <- <-]. eexists [_; _]. split; [reflexivity|].
        split; [repeat constructor|]. split; [simpl; lia|discriminate].
    + intros [= <- <-]. exists []. split; [reflexivity|].
      split; [constructor|]. split; [simpl; lia|discriminate].
Qed.

(** X7: the number of requests of the loop.  A call of [get_data] that
    reaches the loop performs there only rules and summary requests, at most
    two per entry of the profiles response, and exactly two per entry when
    the entries are well formed. *)
Theorem get_data_request_count (E : env) (s s1 : state) (li : loop_inputs)
    (profiles : list json) :
  get_data_prelude E (entry_state s) = (Return (Some li), s1) ->
  iter (li_profiles_data li) = Return profiles ->
  exists new,
    history (snd (get_data E s)) = (new ++ history s1)%list /\
    Forall (fun ev => per_profile (fst ev) = true) new /\
    (List.length new <= 2 * List.length profiles)%nat /\
    (forallb (well_formed (li_devices li)) profiles = true ->
     List.length new = (2 * List.length profiles)%nat).
Proof.
  intros Hpre Hit. rewrite get_data_run, Hpre. cbv zeta.
  cbn [snd with_self history]. unfold profiles_loop, bind, lift. rewrite Hit.
  destruct (for_each _ profiles s1) as [r s2] eqn:Hloop. cbn [snd].
  destruct (loop_count _ _ _ _ _ _ _ _ Hloop) as (new & Hh & Hf & Hle & Heq).
  exists new. split; [exact Hh|]. split; [exact Hf|]. split; [exact Hle|].
  intros Hwf. apply Heq.
  destruct (loop_well_formed E (li_token li) (li_devices li) (li_dow li)
              profiles s1 Hwf) as (s2' & Hrun & _).
  rewrite Hrun in Hloop. now injection Hloop as <- _.
Qed.

Lemma get_data_request_count_witness :
  exists new,
    history (snd (get_data degraded start))
    = (new ++ history (snd (get_data_prelude degraded (entry_state start))))%list /\
    List.length new = 4%nat.
Proof.
  destruct (get_data_request_count degraded start
              (snd (get_data_prelude degraded (entry_state start)))
              {| li_token := JStr "tok"; li_devices := [];
                 li_profiles_data := JList [kid; teen]; li_dow := "mon" |}
              [kid; teen])
    as (new & Hh & _ & _ & Heq).
  - vm_compute. reflexivity.
  - reflexivity.
  - exists new. split; [exact Hh|]. apply Heq. reflexivity.
Defined.

(** ** The fields copied from the profile entry *)

Lemma snapshot_profile devices profile pd :
  snapshot devices profile = Return pd ->
  getitem profile "id" = Return (pd_id pd) /\
  getitem profile "name" = Return (pd_name pd) /\
  get profile "uid" (pd_id pd) = Return (pd_uid pd) /\
  status_field profile "is_online" (JBool false) = Return (pd_is_online pd) /\
  status_field profile "lastseen" JNull = Return (pd_lastseen pd) /\
  location_field profile "latitude" JNull = Return (pd_latitude pd) /\
  location_field profile "longitude" JNull = Return (pd_longitude pd) /\
  location_field profile "accuracy" (JInt 0) = Return (pd_accuracy pd) /\
  exists device_id,
    location_field profile "device" JNull = Return device_id /\
    (if truthy (pd_is_online pd) && truthy device_id then
       known <~ dict_contains device_id devices ;;
       if known then
         match dict_find device_id devices with
         | Some device => get device "name" JNull
         | None => Raise KeyError
         end
       else Return JNull
     else Return JNull) = Return (pd_current_device pd).
Proof.
  unfold snapshot, rbind. intros H.
  destruct (getitem profile "name") as [name|] eqn:Hname; [|discriminate].
  destruct (getitem profile "id") as [id|] eqn:Hid; [|discriminate].
  destruct (get profile "uid" id) as [uid|] eqn:Huid; [|discriminate].
  destruct (get profile "status" (JDict [])) as [status|] eqn:Hst; [|discriminate].
  destruct (get status "is_online" (JBool false)) as [is_online|] eqn:Hon;
    [|discriminate].
  destruct (get profile "device_ids" (JList [])) as [v|]; [|discriminate].
  destruct (iter v) as [device_ids|]; [|discriminate].
  destruct (check_removal devices device_ids (false, JNull)) as [flags|];
    [|discriminate].
  destruct (get status "location" (JDict [])) as [location|] eqn:Hloc;
    [|discriminate].
  destruct (get location "device" JNull) as [device_id|] eqn:Hdev; [|discriminate].
  match type of H with
  | match ?x with Return _ => _ | Raise _ => _ end = _ =>
      destruct x as [current|] eqn:Hcur; [|discriminate]
  end.
  destruct (get location "latitude" JNull) as [latitude|] eqn:Hlat; [|discriminate].
  destruct (get location "longitude" JNull) as [longitude|] eqn:Hlon;
    [|discriminate].
  destruct (get location "accuracy" (JInt 0)) as [accuracy|] eqn:Hacc;
    [|discriminate].
  destruct (get status "lastseen" JNull) as [lastseen|] eqn:Hseen; [|discriminate].
  injection H as <-.
  cbn [pd_id pd_uid pd_name pd_is_online pd_current_device pd_latitude
       pd_longitude pd_accuracy pd_lastseen].
  unfold status_field, location_field, rbind. rewrite Hst, Hloc.
  repeat (split; [first [assumption|reflexivity]|]).
  exists device_id. split; assumption.
Qed.

(** The current device: the name of the device of the location when the
    profile is online and that device is among the fetched ones. *)
Lemma current_device_spec (devices : pydict json) is_online device_id current :
  (if truthy is_online && truthy device_id then
     known <~ dict_contains device_id devices ;;
     if known then
       match dict_find device_id devices with
       | Some device => get device "name" JNull
       | None => Raise KeyError
       end
     else Return JNull
   else Return JNull) = Return current ->
  (truthy is_online = false \/ truthy device_id = false \/
   dict_find device_id devices = None -> current = JNull) /\
  (truthy is_online = true -> truthy device_id = true ->
   forall device, dict_find device_id devices = Some device ->
                  get device "name" JNull = Return current).
Proof.
  unfold rbind, dict_contains.
  destruct (truthy is_online), (truthy device_id); cbn [andb];
    try (intros [= <-]; split; [trivial | discriminate]).
  destruct (hashable device_id); [|discriminate].
  destruct (dict_find device_id devices) as [device|].
  - intros H. split.
    + intros [Hf | [Hf | Hf]]; discriminate.
    + intros _ _ device' [= <-]. exact H.
  - intros [= <-]. split; [trivial | discriminate].
Qed.

(** X8: the fields that an entry of the mapping copies from the profiles
    response.  An entry found under the key [k] was built from an entry
    [profile] of the response whose [id] equals [k]; it has the [id] and the
    [name] of [profile], its [uid] (the [id] when [profile] has none), and
    from [profile.status] the fields [is_online] (default [False]) and
    [lastseen], and from [profile.status.location] the fields [latitude],
    [longitude] and [accuracy] (default 0). *)
Theorem get_data_profile_fields (E : env) (s s1 : state) (li : loop_inputs)
    (d : pydict profile_data) (k : json) (pd : profile_data) :
  get_data_prelude E (entry_state s) = (Return (Some li), s1) ->
  fst (get_data E s) = Return d ->
  dict_find k d = Some pd ->
  exists profiles profile,
    iter (li_profiles_data li) = Return profiles /\
    In profile profiles /\
    key_eqb k (pd_id pd) = true /\
    getitem profile "id" = Return (pd_id pd) /\
    getitem profile "name" = Return (pd_name pd) /\
    get profile "uid" (pd_id pd) = Return (pd_uid pd) /\
    status_field profile "is_online" (JBool false) = Return (pd_is_online pd) /\
    status_field profile "lastseen" JNull = Return (pd_lastseen pd) /\
    location_field profile "latitude" JNull = Return (pd_latitude pd) /\
    location_field profile "longitude" JNull = Return (pd_longitude pd) /\
    location_field profile "accuracy" (JInt 0) = Return (pd_accuracy pd).
Proof.
  intros Hpre Hd Hk.
  destruct (get_data_snapshot E s li s1 d k pd Hpre Hd Hk)
    as (profiles & p & sa & pd0 & new & Hit & Hp & (Hsnap & Hkey & ->) & _).
  apply snapshot_profile in Hsnap
    as (Hid & Hname & Huid & Hon & Hseen & Hlat & Hlon & Hacc & _).
  exists profiles, p.
  cbn [with_usage pd_id pd_uid pd_name pd_is_online pd_latitude pd_longitude
       pd_accuracy pd_lastseen].
  repeat (split; [assumption|]). assumption.
Qed.

Lemma get_data_profile_fields_witness :
  exists pd, dict_find (JInt 1) tracked_data = Some pd /\
             pd_uid pd = JInt 1 /\ pd_is_online pd = JBool true /\
             pd_latitude pd = JInt 48 /\ pd_accuracy pd = JInt 0.
Proof.
  eexists. split; [vm_compute; reflexivity|].
  edestruct (get_data_profile_fields tracked start tracked_loop_state
               tracked_inputs tracked_data (JInt 1))
    as (profiles & profile & Hit & Hp & _ & _ & _ & Huid & Hon & _ & Hlat & _ & Hacc).
  - vm_compute. reflexivity.
  - vm_compute. reflexivity.
  - vm_compute. reflexivity.
  - vm_compute in Hit. injection Hit as <-. destruct Hp as [<- | []].
    vm_compute in Huid, Hon, Hlat, Hacc. vm_compute.
    repeat split; first [exact (eq_sym (f_equal (fun r => match r with
                                                          | Return v => v
                                                          | Raise _ => JNull
                                                          end) Huid))
                        | reflexivity].
Defined.

(** X9: the current device of an entry.  It is [None] unless the profile is
    online and the device named by its location is among the fetched
    devices; then it is the [name] of that device ([None] when the device
    has no name). *)
Theorem current_device_resolution (E : env) (s s1 : state) (li : loop_inputs)
    (d : pydict profile_data) (k : json) (pd : profile_data) :
  get_data_prelude E (entry_state s) = (Return (Some li), s1) ->
  fst (get_data E s) = Return d ->
  dict_find k d = Some pd ->
  exists profiles profile device_id,
    iter (li_profiles_data li) = Return profiles /\
    In profile profiles /\
    getitem profile "id" = Return (pd_id pd) /\
    location_field profile "device" JNull = Return device_id /\
    (truthy (pd_is_online pd) = false \/ truthy device_id = false \/
     dict_find device_id (li_devices li) = None ->
     pd_current_device pd = JNull) /\
    (truthy (pd_is_online pd) = true -> truthy device_id = true ->
     forall device, dict_find device_id (li_devices li) = Some device ->
                    get device "name" JNull = Return (pd_current_device pd)).
Proof.
  intros Hpre Hd Hk.
  destruct (get_data_snapshot E s li s1 d k pd Hpre Hd Hk)
    as (profiles & p & sa & pd0 & new & Hit & Hp & (Hsnap & Hkey & ->) & _).
  apply snapshot_profile in Hsnap
    as (Hid & _ & _ & _ & _ & _ & _ & _ & device_id & Hdev & Hcur).
  apply current_device_spec in Hcur as [Hnone Hsome].
  exists profiles, p, device_id.
  cbn [with_usage pd_id pd_is_online pd_current_device].
  repeat (split; [assumption|]). assumption.
Qed.

Lemma current_device_resolution_witness :
  exists pd, dict_find (JInt 1) tracked_data = Some pd /\
             pd_current_device pd = JStr "phone".
Proof.
  eexists. split; [vm_compute; reflexivity|].
  edestruct (current_device_resolution tracked start tracked_loop_state
               tracked_inputs tracked_data (JInt 1))
    as (profiles & profile & device_id & Hit & Hp & _ & Hdev & _ & Hsome).
  - vm_compute. reflexivity.
  - vm_compute. reflexivity.
  - vm_compute. reflexivity.
  - vm_compute in Hit. injection Hit as <-. destruct Hp as [<- | []].
    vm_compute in Hdev. injection Hdev as <-.
    specialize (Hsome eq_refl eq_refl phone eq_refl).
    vm_compute in Hsome. vm_compute.
    exact (f_equal (fun r => match r with
                             | Return v => v
                             | Raise _ => JNull
                             end) (eq_sym Hsome)).
Defined.

(** ** The mapping [devices] *)

(** A device found under a key came with the mapping the comprehension
    started from and no record has that key, or it is the last record whose
    [id] equals the key. *)
Lemma build_devices_find items : forall acc devices,
  build_devices items acc = Return devices ->
  forall k device, dict_find k devices = Some device ->
    (dict_find k acc = Some device /\
     forall d id, In d items -> getitem d "id" = Return id ->
                  key_eqb k id = false) \/
    (exists before after id,
       items = (before ++ device :: after)%list /\
       getitem device "id" = Return id /\ key_eqb k id = true /\
       forall d id', In d after -> getitem d "id" = Return id' ->
                     key_eqb k id' = false).
Proof.
  induction items as [|d0 rest IH]; intros acc devices; simpl.
  - intros [= <-] k device Hk. left. split; [exact Hk|]. intros d id [].
  - destruct (getitem d0 "id") as [k0|] eqn:Hid; [|discriminate].
    destruct (hashable k0); [|discriminate].
    intros Hrest k device Hk.
    destruct (IH _ _ Hrest k device Hk)
      as [[Hacc Hnone] | (before & after & id & -> & Hdev & Heq & Hafter)].
    + destruct (key_eqb k k0) eqn:Hkk.
      * rewrite (dict_find_set_eq _ _ _ _ Hkk) in Hacc. injection Hacc as <-.
        right. exists [], rest, k0. repeat split; auto.
      * rewrite (dict_find_set_other _ _ _ _ Hkk) in Hacc.
        left. split; [exact Hacc|].
        intros d id [<- | Hin] Hd; [|now apply (Hnone d)].
        rewrite Hid in Hd. now injection Hd as <-.
    + right. exists (d0 :: before), after, id. repeat split; auto.
Qed.

(** Every record is reachable under its [id]. *)
Lemma build_devices_keeps items : forall acc devices,
  build_devices items acc = Return devices ->
  (forall k, dict_find k acc <> None -> dict_find k devices <> None) /\
  (forall d id, In d items -> getitem d "id" = Return id ->
                dict_find id devices <> None).
Proof.
  induction items as [|d0 rest IH]; intros acc devices; simpl.
  - intros [= <-]. split; [trivial|]. intros d id [].
  - destruct (getitem d0 "id") as [k0|] eqn:Hid; [|discriminate].
    destruct (hashable k0) eqn:Hh; [|discriminate].
    intros Hrest. destruct (IH _ _ Hrest) as [Hkeep Hall]. split.
    + intros k Hk. apply Hkeep. now apply dict_find_set_keeps.
    + intros d id [<- | Hin] Hd; [|now apply (Hall d)].
      rewrite Hid in Hd. injection Hd as <-.
      apply Hkeep. now rewrite dict_find_set_same.
Qed.

(** A record without a usable [id] makes the comprehension raise. *)
Lemma build_devices_raises items device : forall acc,
  In device items ->
  (forall id, getitem device "id" = Return id -> hashable id = false) ->
  exists e, build_devices items acc = Raise e.
Proof.
  induction items as [|d0 rest IH]; intros acc; simpl; [intros []|].
  intros Hin Hbad.
  destruct (getitem d0 "id") as [k0|e] eqn:Hid; [|eauto].
  destruct (hashable k0) eqn:Hh; [|eauto].
  destruct Hin as [-> | Hin]; [|now apply IH].
  rewrite (Hbad _ Hid) in Hh. discriminate.
Qed.

(** X10: the lookup of a device.  When the comprehension
    [{device["id"]: device for device in devices_data}] succeeds, a key finds
    the last record of the response whose [id] equals it, and every record
    of the response has its [id] among the keys. *)
Theorem devices_last_wins (items : list json) (devices : pydict json) :
  build_devices items [] = Return devices ->
  (forall k device, dict_find k devices = Some device ->
     exists before after id,
       items = (before ++ device :: after)%list /\
       getitem device "id" = Return id /\ key_eqb k id = true /\
       forall d id', In d after -> getitem d "id" = Return id' ->
                     key_eqb k id' = false) /\
  (forall d id, In d items -> getitem d "id" = Return id ->
                dict_find id devices <> None).
Proof.
  intros Hb. split.
  - intros k device Hk.
    destruct (build_devices_find _ _ _ Hb k device Hk) as [[Hacc _] | H];
      [discriminate | exact H].
  - now apply (build_devices_keeps _ _ _ Hb).
Qed.

Lemma devices_last_wins_witness :
  exists devices,
    build_devices [removed_phone; phone] [] = Return devices /\
    dict_find (JInt 7) devices = Some phone /\
    exists before after,
      [removed_phone; phone] = (before ++ phone :: after)%list /\
      forall d id', In d after -> getitem d "id" = Return id' ->
                    key_eqb (JInt 7) id' = false.
Proof.
  exists [(JInt 7, phone)]. split; [reflexivity|]. split; [reflexivity|].
  destruct (devices_last_wins [removed_phone; phone] [(JInt 7, phone)] eq_refl)
    as [Hlast _].
  destruct (Hlast (JInt 7) phone eq_refl)
    as (before & after & id & Hitems & _ & _ & Hafter).
  now exists before, after.
Defined.

(** X11: the devices request fails as a whole.  [devices] stays empty when
    the request times out, fails in transport, is answered with a status
    other than 200 or with a body that does not decode, and also when a
    single record of a 200 response has no [id] or an unhashable one; the
    call goes on in every case. *)
Theorem fetch_devices_failure (E : env) (token : json) (s : state) :
  let o := respond E (history s) (GetDevices token (_account_id (self s))) in
  o = TimedOut \/ o = TransportFailure \/
  (exists status body, o = Response status body /\ status <> 200) \/
  o = Response 200 None \/
  (exists items device,
     o = Response 200 (Some (JList items)) /\ In device items /\
     forall id, getitem device "id" = Return id -> hashable id = false) ->
  fst (fetch_devices E token s) = Return [].
Proof.
  cbv zeta. rewrite fetch_devices_run. cbv zeta. cbn [fst].
  intros [-> | [-> | [(status & body & -> & Hs) | [-> | (items & device & -> & Hin & Hbad)]]]];
    try reflexivity.
  - unfold devices_of. destruct body; [|reflexivity].
    apply Z.eqb_neq in Hs. now rewrite Hs.
  - unfold devices_of. cbn [Z.eqb Pos.eqb iter].
    destruct (build_devices_raises items device [] Hin Hbad) as [e ->].
    reflexivity.
Qed.

Lemma fetch_devices_failure_witness :
  fst (fetch_devices
         (scripted (service (ok (JList [phone; JDict [("name", JStr "tablet")]]))
                            (ok (JList [])) TimedOut TimedOut))
         (JStr "tok") start) = Return [].
Proof.
  apply fetch_devices_failure. right. right. right. right.
  exists [phone; JDict [("name", JStr "tablet")]], (JDict [("name", JStr "tablet")]).
  split; [reflexivity|]. split; [right; left; reflexivity|].
  intros id H. discriminate H.
Defined.

(** X12: without devices no profile is flagged.  When [devices] is empty,
    every entry of the mapping has [unauthorized_remove] false, and
    [device_tampered] and [current_device] are [None]. *)
Theorem get_data_without_devices (E : env) (s s1 : state) (li : loop_inputs)
    (d : pydict profile_data) (k : json) (pd : profile_data) :
  get_data_prelude E (entry_state s) = (Return (Some li), s1) ->
  fst (get_data E s) = Return d ->
  dict_find k d = Some pd ->
  li_devices li = [] ->
  pd_unauthorized_remove pd = false /\
  pd_device_tampered pd = JNull /\
  pd_current_device pd = JNull.
Proof.
  intros Hpre Hd Hk Hempty.
  destruct (get_data_snapshot E s li s1 d k pd Hpre Hd Hk)
    as (profiles & p & sa & pd0 & new & _ & _ & (Hsnap & _ & ->) & _).
  rewrite Hempty in Hsnap.
  cbn [with_usage pd_unauthorized_remove pd_device_tampered pd_current_device].
  destruct (snapshot_tamper _ _ _ Hsnap) as (ids & _ & Hiff & Hnull & _).
  assert (pd_unauthorized_remove pd0 = false) as Hflag.
  { destruct (pd_unauthorized_remove pd0); [|reflexivity].
    destruct (proj1 Hiff eq_refl) as (i & device & _ & Hfind & _).
    discriminate Hfind. }
  split; [exact Hflag|]. split; [now apply Hnull|].
  apply snapshot_profile in Hsnap
    as (_ & _ & _ & _ & _ & _ & _ & _ & device_id & _ & Hcur).
  apply current_device_spec in Hcur as [Hnone _]. apply Hnone. auto.
Qed.

Lemma get_data_without_devices_witness :
  exists pd, dict_find (JInt 1) (data (snd (get_data degraded start))) = Some pd /\
             pd_unauthorized_remove pd = false /\
             pd_device_tampered pd = JNull /\ pd_current_device pd = JNull.
Proof.
  eexists. split; [vm_compute; reflexivity|].
  eapply (get_data_without_devices degraded start
            (snd (get_data_prelude degraded (entry_state start)))
            {| li_token := JStr "tok"; li_devices := [];
               li_profiles_data := JList [kid; teen]; li_dow := "mon" |}
            (data (snd (get_data degraded start))) (JInt 1)).
  - vm_compute. reflexivity.
  - vm_compute. reflexivity.
  - vm_compute. reflexivity.
  - reflexivity.
Defined.

(** ** The update coordinator *)

(** X13: [_async_update_data] never raises [UpdateFailed].  Since [get_data]
    catches every exception itself, the handler of the coordinator is never
    entered: a poll that failed is reported as the mapping that [get_data]
    returned, empty or partial. *)
Theorem update_never_fails (E : env) (s : state) :
  exists d,
    fst (get_data E s) = Return d /\
    _async_update_data E s = (Updated d, snd (get_data E s)).
Proof.
  destruct (get_data_returns E s) as [d Hd]. exists d. split; [exact Hd|].
  unfold _async_update_data. destruct (get_data E s) as [r s'].
  cbn [fst snd] in *. now subst r.
Qed.

(** ** The config flow *)

(** A performed login is refused as unauthorized exactly on status 401. *)
Lemma login_unauthorized E s :
  token_fresh (self s) (clock E (history s)) = false ->
  fst (login E s) = Return LOGIN_RESULT_UNAUTHORIZED <->
  exists body, login_outcome E s = Response 401 body.
Proof.
  intros Hstale. rewrite (login_stale E s Hstale). cbv zeta.
  destruct (login_outcome E s) as [| |status body].
  - split; [discriminate | intros [b [=]]].
  - split; [discriminate | intros [b [=]]].
  - destruct (status =? 401) eqn:H401.
    + apply Z.eqb_eq in H401. subst status. split; eauto.
    + apply Z.eqb_neq in H401.
      assert ((exists b, Response status body = Response 401 b) -> False) as Hno.
      { intros [b [= -> _]]. now apply H401. }
      repeat match goal with
             | |- context [match ?x with _ => _ end] => destruct x
             end;
        (split; [discriminate | intros H; destruct (Hno H)]).
Qed.

(** The client that [validate_input] constructs. *)
Lemma validate_input_run E h input :
  let api := {| self := init (CONF_USERNAME input) (CONF_PASSWORD input);
                history := h; data := [] |} in
  forall result,
    fst (login E api) = Return result ->
    validate_input E h input =
    match result with
    | LOGIN_RESULT_UNAUTHORIZED => (Failed InvalidAuth, snd (login E api))
    | LOGIN_RESULT_ERROR => (Failed CannotConnect, snd (login E api))
    | LOGIN_RESULT_OK =>
        match fst (get_data E (snd (login E api))) with
        | Return profiles =>
            (Done {| info_title := "Qustodio (" ++ CONF_USERNAME input ++ ")";
                     info_profiles := profiles |},
             snd (get_data E (snd (login E api))))
        | Raise _ => (Failed CannotConnect, snd (get_data E (snd (login E api))))
        end
    end.
Proof.
  cbv zeta. intros result. unfold validate_input.
  destruct (login E _) as [rL s1]. cbn [fst snd]. intros ->.
  destruct result; cbn [login_result_eqb negb]; try reflexivity.
  destruct (get_data E s1) as [[profiles|e] s2]; reflexivity.
Qed.

(** X14: the outcomes of [validate_input].  It raises [InvalidAuth] exactly
    when the login request is answered with status 401, and [CannotConnect]
    exactly when [login] returns ERROR; no other exception leaves it.  When
    [login] returns OK it returns the title and whatever mapping [get_data]
    returns: a failure of [get_data] never makes the validation fail. *)
Theorem validate_input_outcomes (E : env) (h : list event) (input : user_input) :
  let api := {| self := init (CONF_USERNAME input) (CONF_PASSWORD input);
                history := h; data := [] |} in
  let o := respond E h (PostLogin (CONF_USERNAME input) (CONF_PASSWORD input)) in
  let r := fst (validate_input E h input) in
  (r = Failed InvalidAuth <-> exists body, o = Response 401 body) /\
  (r = Failed CannotConnect <-> fst (login E api) = Return LOGIN_RESULT_ERROR) /\
  (forall e, r <> Failed (Uncaught e)) /\
  (fst (login E api) = Return LOGIN_RESULT_OK <->
   exists profiles,
     fst (get_data E (snd (login E api))) = Return profiles /\
     r = Done {| info_title := "Qustodio (" ++ CONF_USERNAME input ++ ")";
                 info_profiles := profiles |}).
Proof.
  cbv zeta.
  pose proof (login_unauthorized E
                {| self := init (CONF_USERNAME input) (CONF_PASSWORD input);
                   history := h; data := [] |} eq_refl) as H401.
  unfold login_outcome, login_request in H401. cbn [self history init _username _password] in H401.
  rewrite <- H401. clear H401.
  destruct (login_returns E
              {| self := init (CONF_USERNAME input) (CONF_PASSWORD input);
                 history := h; data := [] |}) as [result Hr].
  rewrite (validate_input_run E h input result Hr). rewrite Hr.
  destruct result.
  - destruct (get_data_returns E
                (snd (login E {| self := init (CONF_USERNAME input) (CONF_PASSWORD input);
                                 history := h; data := [] |}))) as [profiles Hp].
    rewrite Hp. cbn [fst].
    repeat split; try discriminate.
    intros _. now exists profiles.
  - cbn [fst]. repeat split; try discriminate.
    intros (profiles & _ & [=]).
  - cbn [fst]. repeat split; try discriminate.
    intros (profiles & _ & [=]).
Qed.

(** X15: [validate_input] authenticates once.  When the token that its call
    of [login] leaves is still fresh as [get_data] starts, the login request
    of [validate_input] is the only one: [get_data] reuses the token. *)
Theorem validate_input_single_login (E : env) (h : list event) (input : user_input) :
  let api := {| self := init (CONF_USERNAME input) (CONF_PASSWORD input);
                history := h; data := [] |} in
  let r := PostLogin (CONF_USERNAME input) (CONF_PASSWORD input) in
  let s1 := snd (login E api) in
  token_fresh (self s1) (clock E (history s1)) = true ->
  exists new,
    history (snd (validate_input E h input))
    = (new ++ (r, respond E h r) :: h)%list /\
    Forall (fun ev => is_login (fst ev) = false) new.
Proof.
  cbv zeta. intros Hfresh.
  destruct (login_trace E
              {| self := init (CONF_USERNAME input) (CONF_PASSWORD input);
                 history := h; data := [] |}) as (_ & _ & _ & Hstale).
  specialize (Hstale eq_refl).
  unfold after_login_exchange, login_outcome, login_request in Hstale.
  cbn [self history init _username _password] in Hstale.
  destruct (login_returns E
              {| self := init (CONF_USERNAME input) (CONF_PASSWORD input);
                 history := h; data := [] |}) as [result Hr].
  rewrite (validate_input_run E h input result Hr).
  destruct result;
    try (exists []; split; [exact Hstale | constructor]).
  destruct (get_data_trace E
              (snd (login E {| self := init (CONF_USERNAME input) (CONF_PASSWORD input);
                               history := h; data := [] |})))
    as (new & Hh & _ & Hno).
  exists new. split; [|now apply Hno].
  destruct (fst (get_data E _)); cbn [snd]; rewrite Hh, Hstale; reflexivity.
Qed.

Lemma validate_input_single_login_witness :
  exists new,
    history (snd (validate_input healthy []
                    {| CONF_USERNAME := "parent"; CONF_PASSWORD := "secret" |}))
    = (new ++ [(PostLogin "parent" "secret",
                Response 200 (Some (JDict [("access_token", JStr "tok");
                                           ("expires_in", JInt 3600)])))])%list /\
    Forall (fun ev => is_login (fst ev) = false) new.
Proof.
  apply (validate_input_single_login healthy []
           {| CONF_USERNAME := "parent"; CONF_PASSWORD := "secret" |}).
  vm_compute. reflexivity.
Defined.

(** X16: the outcomes of [async_step_user].  Without input it shows the
    form without errors and performs no exchange.  With input it creates
    the entry exactly when [login] returns OK, shows [invalid_auth] exactly
    when [login] returns UNAUTHORIZED and [cannot_connect] exactly when it
    returns ERROR; the error [unknown] is never shown. *)
Theorem async_step_user_outcomes (E : env) (h : list event) :
  async_step_user E h None = (async_show_form "user" [], h) /\
  forall input,
    let api := {| self := init (CONF_USERNAME input) (CONF_PASSWORD input);
                  history := h; data := [] |} in
    let r := fst (async_step_user E h (Some input)) in
    (fst (login E api) = Return LOGIN_RESULT_OK <->
     exists profiles,
       fst (get_data E (snd (login E api))) = Return profiles /\
       r = async_create_entry ("Qustodio (" ++ CONF_USERNAME input ++ ")")
             input profiles) /\
    (fst (login E api) = Return LOGIN_RESULT_UNAUTHORIZED <->
     r = async_show_form "user" [("base", "invalid_auth")]) /\
    (fst (login E api) = Return LOGIN_RESULT_ERROR <->
     r = async_show_form "user" [("base", "cannot_connect")]) /\
    r <> async_show_form "user" [("base", "unknown")].
Proof.
  split; [reflexivity|]. intros input. cbv zeta.
  destruct (login_returns E
              {| self := init (CONF_USERNAME input) (CONF_PASSWORD input);
                 history := h; data := [] |}) as [result Hr].
  unfold async_step_user.
  rewrite (validate_input_run E h input result Hr). rewrite Hr.
  destruct result.
  - destruct (get_data_returns E
                (snd (login E {| self := init (CONF_USERNAME input) (CONF_PASSWORD input);
                                 history := h; data := [] |}))) as [profiles Hp].
    rewrite Hp. cbn [fst info_title info_profiles].
    repeat split; try discriminate.
    intros _. now exists profiles.
  - cbn [fst]. repeat split; try discriminate.
    intros (profiles & _ & [=]).
  - cbn [fst]. repeat split; try discriminate.
    intros (profiles & _ & [=]).
Qed.

(** ** The sensors *)

(** What the guard of the sensor properties finds. *)
Lemma coordinator_entry_cases sensor c :
  match coordinator_entry sensor c with
  | Return (Some entry) =>
      exists d, coordinator_data c = Some d /\
                hashable (_profile_id sensor) = true /\
                dict_find (_profile_id sensor) d = Some entry
  | Return None =>
      coordinator_data c = None \/ coordinator_data c = Some [] \/
      exists d, coordinator_data c = Some d /\
                hashable (_profile_id sensor) = true /\
                dict_find (_profile_id sensor) d = None
  | Raise e =>
      e = TypeError /\ hashable (_profile_id sensor) = false /\
      exists item d, coordinator_data c = Some (item :: d)
  end.
Proof.
  unfold coordinator_entry, rbind, dict_contains.
  destruct (coordinator_data c) as [[|item d]|]; auto.
  destruct (hashable (_profile_id sensor)).
  - destruct (dict_find (_profile_id sensor) (item :: d)) as [entry|] eqn:Hfind.
    + exists (item :: d). auto.
    + right. right. exists (item :: d). auto.
  - split; [reflexivity|]. split; [reflexivity|]. eauto.
Qed.

(** X17: the sensor properties agree.  A sensor is available exactly when
    the last refresh succeeded and its native value is not [None]; the state
    attributes are [None] exactly when the native value is, and otherwise
    carry that value as [time]. *)
Theorem sensor_properties_agree (ATTRIBUTION : string) (sensor : QustodioSensor)
    (c : coordinator) :
  (available sensor c = Return true <->
   last_update_success c = true /\
   exists t, native_value sensor c = Return (Some t)) /\
  (forall t,
     native_value sensor c = Return (Some t) <->
     exists attrs,
       extra_state_attributes ATTRIBUTION sensor c = Return (Some attrs) /\
       attr_time attrs = t) /\
  (native_value sensor c = Return None <->
   extra_state_attributes ATTRIBUTION sensor c = Return None).
Proof.
  unfold native_value, extra_state_attributes, available, rbind.
  pose proof (coordinator_entry_cases sensor c) as Hc.
  destruct (coordinator_entry sensor c) as [[entry|]|e].
  - destruct Hc as (d & Hd & Hh & Hf). rewrite Hd.
    unfold dict_contains. rewrite Hh, Hf. cbn [option_map].
    split; [|split].
    + destruct (last_update_success c); split; try discriminate; eauto.
      intros [[=] _].
    + intros t. split.
      * intros [= <-]. eexists. split; reflexivity.
      * intros (attrs & [= <-] & <-). reflexivity.
    + split; discriminate.
  - cbn [option_map]. split; [|split].
    + split; [|intros (_ & t & [=])].
      destruct (last_update_success c); [|discriminate].
      destruct Hc as [-> | [-> | (d & -> & Hh & Hf)]]; try discriminate.
      * unfold dict_contains. destruct (hashable (_profile_id sensor)); discriminate.
      * unfold dict_contains. rewrite Hh, Hf. discriminate.
    + intros t. split; [discriminate | intros (attrs & [=] & _)].
    + split; reflexivity.
  - destruct Hc as (-> & Hh & item & d & Hd). rewrite Hd.
    unfold dict_contains. rewrite Hh. split; [|split].
    + split; [|intros (_ & t & [=])].
      destruct (last_update_success c); discriminate.
    + intros t. split; [discriminate | intros (attrs & [=] & _)].
    + split; discriminate.
Qed.

(** X18: the outcomes of [icon].  Without an entry for the profile it
    returns [ICON_NO_TIME].  With an entry it raises [TypeError] when the
    quota of the entry is not a number (the quota is whatever value the rules
    response gave for the day) and returns one of the two icons when it is;
    for the quota 0 and the time 0 that a failed poll of the profile leaves,
    it returns [ICON_NO_TIME]. *)
Theorem icon_outcomes (ICON_IN_TIME ICON_NO_TIME : string)
    (sensor : QustodioSensor) (c : coordinator) :
  (coordinator_entry sensor c = Return None ->
   icon ICON_IN_TIME ICON_NO_TIME sensor c = Return ICON_NO_TIME) /\
  (forall entry,
     coordinator_entry sensor c = Return (Some entry) ->
     match pd_quota entry with
     | JInt _ | JBool _ | JFloat _ =>
         icon ICON_IN_TIME ICON_NO_TIME sensor c = Return ICON_IN_TIME \/
         icon ICON_IN_TIME ICON_NO_TIME sensor c = Return ICON_NO_TIME
     | _ => icon ICON_IN_TIME ICON_NO_TIME sensor c = Raise TypeError
     end /\
     (pd_quota entry = JInt 0 -> pd_time entry = PyInt 0 ->
      icon ICON_IN_TIME ICON_NO_TIME sensor c = Return ICON_NO_TIME)).
Proof.
  unfold icon, rbind. split.
  - intros ->. reflexivity.
  - intros entry ->. unfold time_lt_quota. split.
    + destruct (pd_quota entry); try reflexivity;
        match goal with
        | |- context [if ?x then _ else _] => destruct x; auto
        end.
    + intros -> ->. reflexivity.
Qed.

(** *** The keys of the mapping *)

Lemma distinct_snoc k keys :
  distinct keys = true -> fresh k keys = true -> distinct (keys ++ [k]) = true.
Proof.
  induction keys as [|a keys IH]; simpl; [trivial|].
  intros [Ha Hd]%andb_prop [Hk Hf]%andb_prop.
  rewrite fresh_app, Ha, (IH Hd Hf). simpl.
  rewrite key_eqb_sym. now rewrite Hk.
Qed.

Lemma dict_set_keyed k v (d : pydict profile_data) :
  hashable k = true -> pd_id v = k ->
  keyed_by_id d -> keyed_by_id (dict_set k v d).
Proof.
  intros Hh <- [Hd Hf]. split.
  - rewrite dict_keys_set.
    destruct (fresh (pd_id v) (dict_keys d)) eqn:Hfr; [|exact Hd].
    now apply distinct_snoc.
  - clear Hd. induction d as [|[k' v'] d IH]; simpl.
    + constructor; [|constructor]. cbn [fst snd].
      split; [now apply key_eqb_refl | exact Hh].
    + inversion Hf as [|x l [Hx Hx'] Hl]; subst x l.
      destruct (key_eqb (pd_id v) k') eqn:Hkk.
      * constructor; [|exact Hl]. cbn [fst snd] in *.
        split; [now rewrite key_eqb_sym | exact Hh].
      * constructor; [now split | now apply IH].
Qed.

Lemma loop_keyed E token devices dow profiles : forall s r s',
  for_each (process_profile E token devices dow) profiles s = (r, s') ->
  keyed_by_id (data s) -> keyed_by_id (data s').
Proof.
  induction profiles as [|p rest IH]; intros s r s'; simpl.
  - now intros [= <- <-].
  - unfold bind. rewrite process_profile_run.
    destruct (snapshot devices p) as [pd|e].
    + destruct (hashable (pd_id pd)) eqn:Hh.
      * intros Hrest Hk. apply IH in Hrest; [exact Hrest|].
        cbn [data]. now apply dict_set_keyed.
      * now intros [= <- <-].
    + now intros [= <- <-].
Qed.

Lemma get_data_keyed E s d :
  fst (get_data E s) = Return d -> keyed_by_id d.
Proof.
  rewrite get_data_run.
  destruct (get_data_prelude E (entry_state s)) as [r s1] eqn:Hpre.
  apply prelude_frame in Hpre as [Hdata _].
  cbn [entry_state with_self clear_data data] in Hdata.
  assert (keyed_by_id (data s1)) as Hk1.
  { rewrite Hdata. split; [reflexivity | constructor]. }
  destruct r as [[li|]|e]; cbn [fst]; try (now intros [= <-]).
  cbv zeta. cbn [fst]. intros [= <-].
  unfold profiles_loop, bind, lift.
  destruct (iter (li_profiles_data li)) as [profiles|e]; [|exact Hk1].
  destruct (for_each _ profiles s1) as [rl s2] eqn:Hloop.
  now apply loop_keyed in Hloop.
Qed.

Lemma dict_find_In {V} k' (d : pydict V) v :
  dict_find k' d = Some v ->
  exists k, In (k, v) d /\ key_eqb k' k = true.
Proof.
  induction d as [|[k0 v0] d IH]; simpl; [discriminate|].
  destruct (key_eqb k' k0) eqn:Hk.
  - intros [= <-]. exists k0. auto.
  - intros H. destruct (IH H) as (k & Hin & Hkk). exists k. auto.
Qed.

Lemma fresh_In k keys k' :
  fresh k keys = true -> In k' keys -> key_eqb k k' = false.
Proof.
  unfold fresh. rewrite forallb_forall. intros H Hin.
  specialize (H _ Hin). now destruct (key_eqb k k').
Qed.

Lemma dict_find_item {V} k' k v (d : pydict V) :
  distinct (dict_keys d) = true ->
  In (k, v) d -> key_eqb k' k = true -> dict_find k' d = Some v.
Proof.
  induction d as [|[k0 v0] d IH]; simpl; [intros _ []|].
  intros [Hfr Hd]%andb_prop [[= -> ->] | Hin] Hk.
  - now rewrite Hk.
  - destruct (key_eqb k' k0) eqn:Hk0; [|now apply IH].
    assert (key_eqb k0 k = false) as Hne.
    { apply (fresh_In _ _ _ Hfr). apply (in_map fst) in Hin. exact Hin. }
    rewrite key_eqb_sym in Hk0.
    rewrite (key_eqb_trans _ _ _ Hk0 Hk) in Hne. discriminate.
Qed.

(** X19: a sensor follows its profile.  A sensor created for an entry of a
    mapping of [get_data] and reading a coordinator that holds a mapping of
    a later call finds there the entry whose [id] equals its own: its native
    value is the [time] of that entry and it is available when the last
    refresh succeeded; when the later mapping has no such entry (an empty or
    partial mapping of a failed poll) the native value is [None] and the
    sensor is unavailable. *)
Theorem sensor_follows_profile (E E' : env) (s s' : state)
    (d d' : pydict profile_data) (c : coordinator) (sensor : QustodioSensor) :
  fst (get_data E s) = Return d ->
  In sensor (async_setup_entry (Some d)) ->
  fst (get_data E' s') = Return d' ->
  coordinator_data c = Some d' ->
  match dict_find (_profile_id sensor) d' with
  | Some entry =>
      key_eqb (_profile_id sensor) (pd_id entry) = true /\
      native_value sensor c = Return (Some (pd_time entry)) /\
      available sensor c = Return (last_update_success c)
  | None =>
      native_value sensor c = Return None /\
      available sensor c = Return false
  end.
Proof.
  intros Hd Hin Hd' Hc.
  apply get_data_keyed in Hd as [_ Hitems].
  apply get_data_keyed in Hd' as [_ Hitems'].
  cbn [async_setup_entry] in Hin. apply in_map_iff in Hin as ([k pd] & <- & Hin).
  rewrite Forall_forall in Hitems. destruct (Hitems _ Hin) as [_ Hh].
  cbn [snd new_sensor _profile_id] in *.
  unfold native_value, available, coordinator_entry, rbind, dict_contains.
  cbn [new_sensor _profile_id]. rewrite Hc, Hh.
  destruct (dict_find (pd_id pd) d') as [entry|] eqn:Hfind.
  - destruct (dict_find_In _ _ _ Hfind) as (k' & Hin' & Hk').
    rewrite Forall_forall in Hitems'. destruct (Hitems' _ Hin') as [Hown _].
    cbn [fst snd] in Hown.
    split; [exact (key_eqb_trans _ _ _ Hk' Hown)|].
    destruct d' as [|item d']; [discriminate|].
    cbn [option_map]. split; [reflexivity|].
    now destruct (last_update_success c).
  - split.
    + now destruct d'.
    + now destruct (last_update_success c).
Qed.

Lemma sensor_follows_profile_witness :
  let sensor := {| _profile_id := JInt 1; _profile_name := JStr "kid" |} in
  let c := {| coordinator_data := Some (data (snd (get_data degraded start)));
              last_update_success := true |} in
  In sensor (async_setup_entry (Some healthy_data)) /\
  exists entry,
    dict_find (JInt 1) (data (snd (get_data degraded start))) = Some entry /\
    native_value sensor c = Return (Some (pd_time entry)) /\
    available sensor c = Return true.
Proof.
  cbv zeta. split; [left; reflexivity|].
  pose proof (sensor_follows_profile healthy degraded start start healthy_data
                (data (snd (get_data degraded start)))
                {| coordinator_data := Some (data (snd (get_data degraded start)));
                   last_update_success := true |}
                {| _profile_id := JInt 1; _profile_name := JStr "kid" |}
                eq_refl (or_introl eq_refl) eq_refl eq_refl) as H.
  cbn [_profile_id] in H.
  destruct (dict_find (JInt 1) (data (snd (get_data degraded start))))
    as [entry|] eqn:Hfind; [|vm_compute in Hfind; discriminate Hfind].
  exists entry. split; [reflexivity|]. exact (proj2 H).
Defined.

(** X20: the sensors of a mapping read their own entries.  For the mapping
    that a call of [get_data] returned, the platform creates one sensor per
    entry, and with that mapping in the coordinator each sensor reads the
    entry it was created for. *)
Theorem sensors_read_own_entry (E : env) (s : state) (d : pydict profile_data)
    (c : coordinator) :
  fst (get_data E s) = Return d ->
  coordinator_data c = Some d ->
  List.length (async_setup_entry (Some d)) = List.length d /\
  forall k entry,
    In (k, entry) d ->
    In (new_sensor entry) (async_setup_entry (Some d)) /\
    native_value (new_sensor entry) c = Return (Some (pd_time entry)) /\
    available (new_sensor entry) c = Return (last_update_success c).
Proof.
  intros Hd Hc. split; [apply length_map|].
  intros k entry Hin.
  apply get_data_keyed in Hd as [Hdist Hitems].
  rewrite Forall_forall in Hitems. destruct (Hitems _ Hin) as [Hown Hh].
  cbn [fst snd] in Hown, Hh.
  assert (dict_find (pd_id entry) d = Some entry) as Hfind.
  { apply (dict_find_item _ k); auto. now rewrite key_eqb_sym. }
  split; [exact (in_map (fun item => new_sensor (snd item)) d _ Hin)|].
  unfold native_value, available, coordinator_entry, rbind, dict_contains.
  rewrite Hc. cbn [new_sensor _profile_id]. rewrite Hh.
  destruct d as [|item d]; [destruct Hin|].
  rewrite Hfind. cbn [option_map]. split; [reflexivity|].
  now destruct (last_update_success c).
Qed.

Lemma sensors_read_own_entry_witness :
  List.length (async_setup_entry (Some tracked_data)) = 1%nat /\
  exists entry,
    In (JInt 1, entry) tracked_data /\
    native_value (new_sensor entry)
      {| coordinator_data := Some tracked_data; last_update_success := true |}
    = Return (Some (PyFloat (S754_finite false 7205759403792794 (-52)))).
Proof.
  destruct (sensors_read_own_entry tracked start tracked_data
              {| coordinator_data := Some tracked_data;
                 last_update_success := true |} eq_refl eq_refl)
    as [Hlen Hall].
  split; [exact Hlen|].
  eexists. split; [left; reflexivity|].
  match goal with
  | |- native_value (new_sensor ?e) _ = _ =>
      exact (proj1 (proj2 (Hall (JInt 1) e (or_introl eq_refl))))
  end.
Defined.

(** ** Further edge cases of the client *)

(** X21: a null token is accepted but never cached.  When the login
    response has status 200 and carries the field [access_token] with the
    value [null] (and a lifetime that gives an expiry), [login] returns OK
    and stores [None] as token; the next call then does not take the fast
    path but sends the login request again, whatever the expiry. *)
Theorem login_null_token (E : env) (s : state) (items : list (string * json))
    (n : Z) :
  token_fresh (self s) (clock E (history s)) = false ->
  login_outcome E s = Response 200 (Some (JDict items)) ->
  assoc "access_token" items = Some JNull ->
  declared_lifetime items = Some n ->
  representable (clock E (after_login_exchange E s)) n ->
  let s1 := snd (login E s) in
  let r := PostLogin (_username (self s1)) (_password (self s1)) in
  fst (login E s) = Return LOGIN_RESULT_OK /\
  _access_token (self s1) = JNull /\
  history (snd (login E s1)) = (r, respond E (history s1) r) :: history s1.
Proof.
  intros Hstale Ho Htok Hn Hrep. cbv zeta.
  assert (fst (login E s) = Return LOGIN_RESULT_OK /\
          _access_token (self (snd (login E s))) = JNull) as [Hok Hnull].
  { rewrite (login_stale E s Hstale). cbv zeta. rewrite Ho.
    cbn [Z.eqb Pos.eqb negb]. cbv iota. rewrite Htok.
    destruct (new_expiry (clock E (after_login_exchange E s)) items) as [x|] eqn:Hx.
    - split; reflexivity.
    - exfalso. apply (proj1 (new_expiry_None _ _ n Hn) Hx Hrep). }
  split; [exact Hok|]. split; [exact Hnull|].
  destruct (login_trace E (snd (login E s))) as (_ & _ & _ & Hnext).
  apply Hnext. unfold token_fresh. now rewrite Hnull.
Qed.

Lemma login_null_token_witness :
  let E := scripted (token_reply [("access_token", JNull)]) in
  fst (login E start) = Return LOGIN_RESULT_OK /\
  _access_token (self (snd (login E start))) = JNull /\
  List.length (history (snd (login E (snd (login E start))))) = 2%nat.
Proof.
  cbv zeta.
  destruct (login_null_token (scripted (token_reply [("access_token", JNull)]))
              start [("access_token", JNull)] 3600)
    as (Hok & Hnull & Hnext).
  - reflexivity.
  - reflexivity.
  - reflexivity.
  - reflexivity.
  - repeat split; vm_compute; first [reflexivity | discriminate].
  - split; [exact Hok|]. split; [exact Hnull|]. rewrite Hnext. reflexivity.
Defined.

(** X22: the order of the requests.  In a call of [get_data] that reaches
    the loop, the exchanges are, from the first to the last: at most one
    login, the account request, the devices request, the profiles request,
    then the rules and summary requests of the profiles.  The devices
    request is sent for the account [id] of the account response, and its
    outcome, whatever it is, determines [devices]. *)
Theorem get_data_order (E : env) (s s1 : state) (li : loop_inputs) :
  get_data_prelude E (entry_state s) = (Return (Some li), s1) ->
  exists account_data account_id o_devices login_new loop_new,
    history (snd (get_data E s)) =
      (loop_new
       ++ (GetProfiles (li_token li) account_id,
           Response 200 (Some (li_profiles_data li)))
       :: (GetDevices (li_token li) account_id, o_devices)
       :: (GetAccount (li_token li), Response 200 (Some account_data))
       :: login_new ++ history s)%list /\
    getitem account_data "id" = Return account_id /\
    li_devices li = devices_of o_devices /\
    Forall (fun ev => per_profile (fst ev) = true) loop_new /\
    Forall (fun ev => is_login (fst ev) = true) login_new /\
    (List.length login_new <= 1)%nat.
Proof.
  intros Hpre. rewrite get_data_run, Hpre. cbv zeta.
  cbn [snd with_self history].
  apply prelude_loop_inputs in Hpre
    as (sL & account_data & account_id & HL & Ha & Hid & Hp & Hh & Htok & Hdev & _).
  assert (exists login_new,
             history sL = (login_new ++ history s)%list /\
             Forall (fun ev => is_login (fst ev) = true) login_new /\
             (List.length login_new <= 1)%nat) as (login_new & HhL & HfL & Hlen).
  { destruct (login_trace E (entry_state s)) as (_ & _ & Hfresh & Hstale).
    rewrite HL in Hfresh, Hstale. cbn [snd] in Hfresh, Hstale.
    destruct (token_fresh (self (entry_state s)) (clock E (history (entry_state s)))).
    - exists []. split; [now apply Hfresh|]. split; [constructor | simpl; lia].
    - eexists [_]. split; [now apply Hstale|].
      split; [repeat constructor | simpl; lia]. }
  assert (exists loop_new,
             history (snd (profiles_loop E li s1)) = (loop_new ++ history s1)%list /\
             Forall (fun ev => per_profile (fst ev) = true) loop_new)
    as (loop_new & Hloop & Hfl).
  { unfold profiles_loop, bind, lift.
    destruct (iter (li_profiles_data li)) as [profiles|e].
    - destruct (for_each _ profiles s1) as [r s2] eqn:Hrun.
      apply loop_count in Hrun as (new & Hn & Hf & _). now exists new.
    - exists []. split; [reflexivity | constructor]. }
  exists account_data, account_id, (devices_outcome E sL account_id),
    login_new, loop_new.
  split; [|repeat split; assumption].
  rewrite Hloop, Hh. unfold after_profiles, after_devices, after_account.
  rewrite Hp, Ha, HhL, Htok. reflexivity.
Qed.

Lemma get_data_order_witness :
  exists account_data account_id o_devices login_new loop_new,
    history (snd (get_data tracked start)) =
      (loop_new
       ++ (GetProfiles (JStr "tok") account_id,
           Response 200 (Some (JList [online_kid])))
       :: (GetDevices (JStr "tok") account_id, o_devices)
       :: (GetAccount (JStr "tok"), Response 200 (Some account_data))
       :: login_new ++ [])%list /\
    getitem account_data "id" = Return account_id /\
    [(JInt 7, phone)] = devices_of o_devices /\
    (List.length login_new <= 1)%nat.
Proof.
  destruct (get_data_order tracked start tracked_loop_state tracked_inputs)
    as (account_data & account_id & o_devices & login_new & loop_new
        & Hh & Hid & Hdev & _ & _ & Hlen).
  - vm_compute. reflexivity.
  - exists account_data, account_id, o_devices, login_new, loop_new.
    repeat split; assumption.
Defined.
